(** * Sumbawa Digital Ranch: geofencing, movement simulation and heatmaps

    A shallow embedding of the analytic core of the ranch backend
    ([backend/app/models] and [backend/app/services]) together with the
    properties its specification states about it.

    Conventions of the embedding.
    - Python [float] values (distances, coordinates, minutes) are exact
      rationals [Q]; the comparisons of the source are the comparisons of [Q].
      Rounding of binary floating point is not modelled.
    - Python [str] is [string]; dictionaries with a fixed set of keys are
      records, and a key read with [dict.get(key, default)] is an [option]
      field.
    - [datetime] values are integers counting microseconds, the resolution of
      [datetime] and [timedelta].
    - Everything the source delegates to PostGIS ([ST_Within], [ST_Distance],
      [ST_SnapToGrid]) is an oracle passed as an argument; a query either
      raises or yields a scalar which may be NULL.
    - Each module below carries the name of the class it embeds and is
      headed by the source file the class lives in. *)

From Stdlib Require Import ZArith QArith Qround Qminmax Lqa Lia Bool List String Ascii.
From Stdlib Require Import DecimalString Morphisms.
Import ListNotations.

Local Open Scope string_scope.
Local Open Scope Q_scope.

(** ** Python primitives used by the services *)

Module Py.

(** [x < y] on floats. *)
Definition Qlt_bool (x y : Q) : bool := negb (Qle_bool y x).

(** [max(a, b)] and [min(a, b)] of the builtins: the first argument is kept
    unless the second is strictly larger (resp. smaller). *)
Definition max (a b : Q) : Q := if Qlt_bool a b then b else a.
Definition min (a b : Q) : Q := if Qlt_bool b a then b else a.

(** [int(x)] truncates towards zero. *)
Definition int (x : Q) : Z :=
  if Qlt_bool x 0 then Qceiling x else Qfloor x.

(** [x // y] and [x % y] on floats, for a positive divisor. *)
Definition floordiv (x y : Q) : Q := inject_Z (Qfloor (x / y)).
Definition mod_ (x y : Q) : Q := x - y * inject_Z (Qfloor (x / y)).

(** [str(n)] of an integer, as an f-string renders it. *)
Definition str (n : Z) : string := NilZero.string_of_int (Z.to_int n).

(** [sum] and [len] of a list of integers. *)
Definition sum (l : list Z) : Z := fold_left Z.add l 0%Z.
Definition len {A : Type} (l : list A) : Z := Z.of_nat (List.length l).

(** [max(l)] and [min(l)] of a non-empty list of integers; callers guard
    against the empty list, for which the builtin raises. *)
Definition max_list (l : list Z) : Z :=
  match l with
  | [] => 0%Z
  | x :: r => fold_left (fun m y => if (m <? y)%Z then y else m) r x
  end.
Definition min_list (l : list Z) : Z :=
  match l with
  | [] => 0%Z
  | x :: r => fold_left (fun m y => if (y <? m)%Z then y else m) r x
  end.

(** Result of one [session.query(...).scalar()] call: the call raises, or it
    returns a scalar, [None] standing for SQL NULL. *)
Inductive query_result (A : Type) : Type :=
| Raised : query_result A
| Scalar : option A -> query_result A.
Arguments Raised {A}.
Arguments Scalar {A} _.

(** Truthiness of a boolean scalar. *)
Definition truthy (v : option bool) : bool :=
  match v with Some true => true | _ => false end.

(** Outcome of a method that may raise [ValueError(msg)] or divide by
    zero. *)
Inductive result (A : Type) : Type :=
| Ok : A -> result A
| ValueError : string -> result A
| ZeroDivisionError : result A.
Arguments Ok {A} _.
Arguments ValueError {A} _.
Arguments ZeroDivisionError {A}.

Definition bind {A B : Type} (m : result A) (k : A -> result B) : result B :=
  match m with
  | Ok a => k a
  | ValueError msg => ValueError msg
  | ZeroDivisionError => ZeroDivisionError
  end.

(** [timedelta(hours=h)] in microseconds; a fractional number of
    microseconds is rounded to the nearest one, ties to even. *)
Definition round_half_even (q : Q) : Z :=
  let f := Qfloor q in
  let r := q - inject_Z f in
  if Qlt_bool r (1 # 2) then f
  else if Qlt_bool (1 # 2) r then (f + 1)%Z
  else if Z.even f then f else (f + 1)%Z.

Definition timedelta_hours (h : Q) : Z :=
  round_half_even (h * 3600000000).

(** [range(n)]. *)
Definition range (n : Z) : list Z :=
  map Z.of_nat (seq 0 (Z.to_nat n)).

(** [str.strip()] and [str.upper()] on ASCII text. *)
Definition is_space (c : ascii) : bool :=
  let n := nat_of_ascii c in
  ((n =? 32) || ((9 <=? n) && (n <=? 13)) || ((28 <=? n) && (n <=? 31)))%nat.

Fixpoint lstrip (s : string) : string :=
  match s with
  | String c r => if is_space c then lstrip r else s
  | EmptyString => s
  end.

Fixpoint rstrip (s : string) : string :=
  match s with
  | String c r =>
      match rstrip r with
      | EmptyString => if is_space c then EmptyString else String c EmptyString
      | r' => String c r'
      end
  | EmptyString => s
  end.

Definition strip (s : string) : string := rstrip (lstrip s).

Definition upper_char (c : ascii) : ascii :=
  let n := nat_of_ascii c in
  if ((97 <=? n) && (n <=? 122))%nat then ascii_of_nat (n - 32) else c.

Fixpoint upper (s : string) : string :=
  match s with
  | String c r => String (upper_char c) (upper r)
  | EmptyString => s
  end.

End Py.

(** ** [models/cattle.py] *)

Module HealthStatusEnum.
Definition SEHAT : string := "Sehat".
Definition PERLU_PERHATIAN : string := "Perlu Perhatian".
Definition SAKIT : string := "Sakit".
End HealthStatusEnum.

(** Primary keys are UUIDs handed out by the storage layer. *)
Definition uuid : Type := Z.

(** A PostGIS point [ST_SetSRID(ST_MakePoint(longitude, latitude), 4326)]. *)
Record point : Type := ST_MakePoint { longitude : Q; latitude : Q }.

Module Cattle.

Record Cattle : Type := {
  identifier : string;
  age : Z;
  health_status : string;
  location : option point;
  last_update : Z
}.

(** [validate_age], run by the ORM whenever [age] is assigned. *)
Definition validate_age (age : Z) : Py.result Z :=
  if ((age <? 0) || (30 <? age))%Z
  then Py.ValueError "Age must be between 0 and 30 years"
  else Py.Ok age.

(** [validate_identifier], run whenever [identifier] is assigned. *)
Definition validate_identifier (identifier : string) : Py.result string :=
  if (identifier =? "")%string || (Py.strip identifier =? "")%string
  then Py.ValueError "Identifier cannot be empty"
  else if (50 <? String.length identifier)%nat
  then Py.ValueError "Identifier cannot exceed 50 characters"
  else Py.Ok (Py.upper (Py.strip identifier)).

(** [set_location(latitude, longitude)]; [now] is the reading of
    [datetime.utcnow()]. *)
Definition set_location (self : Cattle) (latitude longitude : Q) (now : Z)
  : Py.result Cattle :=
  if negb (Qle_bool (-90) latitude && Qle_bool latitude 90)
  then Py.ValueError "Latitude must be between -90 and 90 degrees"
  else if negb (Qle_bool (-180) longitude && Qle_bool longitude 180)
  then Py.ValueError "Longitude must be between -180 and 180 degrees"
  else Py.Ok {| identifier := identifier self;
                age := age self;
                health_status := health_status self;
                location := Some (ST_MakePoint longitude latitude);
                last_update := now |}.

(** [Cattle.__init__]: the attributes are assigned in the order of the
    source; [identifier] and [age] pass through their validators, and
    [health_status] is assigned as it comes. *)
Definition __init__ (identifier : string) (age : Z) (health_status : string)
    (latitude longitude : option Q) (now : Z) : Py.result Cattle :=
  Py.bind (validate_identifier identifier) (fun identifier =>
  Py.bind (validate_age age) (fun age =>
  let self := {| identifier := identifier;
                 age := age;
                 health_status := health_status;
                 location := None;
                 last_update := now |} in
  match latitude, longitude with
  | Some latitude, Some longitude => set_location self latitude longitude now
  | _, _ => Py.Ok self
  end)).

(** [get_coordinates()]: the ['lng'] and ['lat'] of the stored point, or
    [None] when no location is set. *)
Definition get_coordinates (self : Cattle) : option point := location self.

(** [update_health_status(new_status)]. *)
Definition update_health_status (self : Cattle) (new_status : string)
    (now : Z) : Py.result Cattle :=
  let valid_statuses :=
    [HealthStatusEnum.SEHAT; HealthStatusEnum.PERLU_PERHATIAN;
     HealthStatusEnum.SAKIT] in
  if negb (existsb (String.eqb new_status) valid_statuses)
  then Py.ValueError
         "Invalid health status. Must be one of: ['Sehat', 'Perlu Perhatian', 'Sakit']"
  else Py.Ok {| identifier := identifier self;
                age := age self;
                health_status := new_status;
                location := location self;
                last_update := now |}.

End Cattle.

(** ** [models/geofence.py] *)

Module Geofence.

(** The SQL expression [ST_GeomFromText(wkt, srid)] stored in [boundary]. *)
Record geometry : Type := ST_GeomFromText { wkt : string; srid : Z }.

Record Geofence : Type := {
  name : string;
  boundary : geometry;
  is_active : bool;
  description : option string;
  updated_at : Z
}.

(** [validate_name], run by the ORM whenever [name] is assigned. *)
Definition validate_name (name : string) : Py.result string :=
  if (name =? "")%string || (Py.strip name =? "")%string
  then Py.ValueError "Geofence name cannot be empty"
  else if (200 <? String.length name)%nat
  then Py.ValueError "Geofence name cannot exceed 200 characters"
  else Py.Ok (Py.strip name).

Section Boundary.

(** [repr] of a float, as the f-strings of this file print it. *)
Variable repr : Q -> string.

(** The validation loop over the points of [coordinates]. *)
Fixpoint validate_points (coordinates : list (list Q)) : Py.result unit :=
  match coordinates with
  | [] => Py.Ok tt
  | p :: rest =>
      match p with
      | [lng; lat] =>
          if negb (Qle_bool (-180) lng && Qle_bool lng 180)
          then Py.ValueError
                 ("Longitude " ++ repr lng
                    ++ " must be between -180 and 180 degrees")
          else if negb (Qle_bool (-90) lat && Qle_bool lat 90)
          then Py.ValueError
                 ("Latitude " ++ repr lat
                    ++ " must be between -90 and 90 degrees")
          else validate_points rest
      | _ => Py.ValueError
               "Each coordinate must have exactly 2 values (longitude, latitude)"
      end
  end.

(** [a == b] on two lists of floats. *)
Fixpoint point_eqb (a b : list Q) : bool :=
  match a, b with
  | [], [] => true
  | x :: a', y :: b' => Qeq_bool x y && point_eqb a' b'
  | _, _ => false
  end.

(** The ring after the closing step: the first point is appended when it
    differs from the last one. *)
Definition close_ring (coordinates : list (list Q)) : list (list Q) :=
  match coordinates with
  | [] => coordinates
  | first :: _ =>
      if negb (point_eqb first (last coordinates first))
      then (coordinates ++ [first])%list
      else coordinates
  end.

(** [f"{lng} {lat}"] for one point of a validated ring. *)
Definition point_str (p : list Q) : string :=
  match p with
  | [lng; lat] => repr lng ++ " " ++ repr lat
  | _ => ""
  end.

(** [set_boundary_from_coordinates(coordinates)]. *)
Definition set_boundary_from_coordinates (self : Geofence)
    (coordinates : list (list Q)) (now : Z) : Py.result Geofence :=
  if (List.length coordinates <? 3)%nat
  then Py.ValueError "Geofence must have at least 3 coordinate points"
  else
    Py.bind (validate_points coordinates) (fun _ =>
    let coordinates := close_ring coordinates in
    let coord_str := String.concat ", " (map point_str coordinates) in
    let wkt_polygon := "POLYGON((" ++ coord_str ++ "))" in
    Py.Ok {| name := name self;
             boundary := ST_GeomFromText wkt_polygon 4326;
             is_active := is_active self;
             description := description self;
             updated_at := now |}).

(** [Geofence.__init__]; before [set_boundary_from_coordinates] runs the
    boundary column holds no geometry, rendered here by an empty text. *)
Definition __init__ (name : string) (coordinates : list (list Q))
    (description : option string) (is_active : bool) (now : Z)
  : Py.result Geofence :=
  Py.bind (validate_name name) (fun name =>
  let self := {| name := name;
                 boundary := ST_GeomFromText "" 4326;
                 is_active := is_active;
                 description := description;
                 updated_at := now |} in
  set_boundary_from_coordinates self coordinates now).

(** [update_details(name, description, coordinates)]. *)
Definition update_details (self : Geofence) (new_name : option string)
    (new_description : option string)
    (coordinates : option (list (list Q))) (now : Z)
  : Py.result Geofence :=
  Py.bind (match new_name with
           | Some n => Py.bind (validate_name n) (fun n =>
               Py.Ok {| name := n;
                        boundary := boundary self;
                        is_active := is_active self;
                        description := description self;
                        updated_at := updated_at self |})
           | None => Py.Ok self
           end) (fun self =>
  let self :=
    match new_description with
    | Some d => {| name := name self;
                   boundary := boundary self;
                   is_active := is_active self;
                   description := Some d;
                   updated_at := updated_at self |}
    | None => self
    end in
  Py.bind (match coordinates with
           | Some cs => set_boundary_from_coordinates self cs now
           | None => Py.Ok self
           end) (fun self =>
  Py.Ok {| name := name self;
           boundary := boundary self;
           is_active := is_active self;
           description := description self;
           updated_at := now |})).

End Boundary.

End Geofence.

(** ** [services/geofence_service.py] *)

Module GeofenceService.

(** [_calculate_violation_severity(distance_meters, health_status)]. *)
Definition _calculate_violation_severity
    (distance_meters : Q) (health_status : string) : string :=
  let base_severity :=
    if Py.Qlt_bool distance_meters 100 then "LOW"
    else if Py.Qlt_bool distance_meters 500 then "MEDIUM"
    else if Py.Qlt_bool distance_meters 1000 then "HIGH"
    else "CRITICAL" in
  if (health_status =? "Sakit")%string then
    if (base_severity =? "LOW")%string then "MEDIUM"
    else if (base_severity =? "MEDIUM")%string then "HIGH"
    else "CRITICAL"
  else if (health_status =? "Perlu Perhatian")%string then
    if (base_severity =? "LOW")%string then "LOW"
    else if (base_severity =? "MEDIUM")%string then "HIGH"
    else "CRITICAL"
  else base_severity.

(** The [violation_data] dictionary; the readers below go through
    [dict.get], so each key may be absent. *)
Record violation_data : Type := {
  severity : option string;
  health_status : option string;
  violation_distance_meters : option Q
}.

Definition get {A : Type} (field : option A) (default : A) : A :=
  match field with Some v => v | None => default end.

(** [_get_required_actions(violation_data)]. *)
Definition _get_required_actions (vd : violation_data) : list string :=
  let health_status := get (health_status vd) "Sehat" in
  let distance := get (violation_distance_meters vd) 0 in
  let actions := [] in
  let actions := (actions ++ ["Locate and verify cattle position"])%list in
  let actions :=
    (actions ++ ["Check for physical injuries or distress"])%list in
  let actions :=
    if Py.Qlt_bool 1000 distance then
      (actions ++ ["Deploy search team immediately"]
               ++ ["Notify ranch manager"]
               ++ ["Check nearby roads or dangerous areas"])%list
    else if Py.Qlt_bool 500 distance then
      (actions ++ ["Send ranch hand to retrieve"]
               ++ ["Monitor movement pattern"])%list
    else
      (actions ++ ["Guide cattle back to geofenced area"])%list in
  if (health_status =? "Sakit")%string then
    (("URGENT: Sick animal requires immediate attention" :: actions)
       ++ ["Contact veterinarian if condition worsens"])%list
  else if (health_status =? "Perlu Perhatian")%string then
    (actions ++ ["Monitor health condition closely"]
             ++ ["Provide additional care if needed"])%list
  else actions.

(** Value of [base_time_minutes] in [_estimate_return_time] once both
    bounds have been applied. *)
Definition base_time_minutes (vd : violation_data) : Q :=
  let distance_meters := get (violation_distance_meters vd) 0 in
  let health_status := get (health_status vd) "Sehat" in
  let base_time_minutes := (distance_meters / 100) * 15 in
  let base_time_minutes :=
    if (health_status =? "Sakit")%string then base_time_minutes * 2
    else if (health_status =? "Perlu Perhatian")%string
         then base_time_minutes * 1.5
    else base_time_minutes in
  let base_time_minutes := Py.max base_time_minutes 10 in
  let base_time_minutes := Py.min base_time_minutes 240 in
  base_time_minutes.

(** [_estimate_return_time(violation_data)]. *)
Definition _estimate_return_time (vd : violation_data) : string :=
  let base_time_minutes := base_time_minutes vd in
  if Py.Qlt_bool base_time_minutes 60 then
    Py.str (Py.int base_time_minutes) ++ " minutes"
  else
    let hours := Py.int (Py.floordiv base_time_minutes 60) in
    let minutes := Py.int (Py.mod_ base_time_minutes 60) in
    Py.str hours ++ "h " ++ Py.str minutes ++ "m".

(** One entry of [geofence_statuses]. *)
Record geofence_status : Type := {
  geofence_id : uuid;
  geofence_name : string;
  is_within : bool;
  description : option string;
  distance_meters : Q;
  violation : bool;
  status_severity : option string
}.

(** The dictionary returned by [get_cattle_geofence_status]. *)
Inductive cattle_geofence_status : Type :=
| StatusUnknown (cattle_id : uuid) (status message : string)
| StatusReport (cattle_id : uuid) (cattle_identifier : string)
    (overall_status : string) (location : option point)
    (geofence_statuses violations : list geofence_status).

Section Status.

(** The tables read through [self.db], and the two spatial queries. *)
Variable cattle_table : list (uuid * Cattle.Cattle).
Variable geofence_table : list (uuid * Geofence.Geofence).
Variable ST_Within : point -> Geofence.geometry -> Py.query_result bool.
Variable ST_Distance : point -> Geofence.geometry -> Py.query_result Q.

(** [query(...).filter(... .id == key).first()]. *)
Definition first_by_id {A : Type} (table : list (uuid * A)) (key : uuid)
  : option A :=
  option_map snd (find (fun row => (fst row =? key)%Z) table).

(** [query(Geofence).filter(Geofence.is_active == True).all()]. *)
Definition active_geofences : list (uuid * Geofence.Geofence) :=
  filter (fun row => Geofence.is_active (snd row)) geofence_table.

(** [_should_cattle_be_in_geofence(cattle, geofence)]. *)
Definition _should_cattle_be_in_geofence
    (cattle : Cattle.Cattle) (geofence : Geofence.Geofence) : bool :=
  true.

(** Body of the [try] block for one geofence: [None] when a query raised,
    in which case the [except] branch logs and continues. *)
Definition check_geofence (cattle : Cattle.Cattle) (cattle_location : point)
    (row : uuid * Geofence.Geofence) : option geofence_status :=
  let geofence := snd row in
  match ST_Within cattle_location (Geofence.boundary geofence) with
  | Py.Raised => None
  | Py.Scalar is_within =>
      if negb (Py.truthy is_within) then
        match ST_Distance cattle_location (Geofence.boundary geofence) with
        | Py.Raised => None
        | Py.Scalar distance_degrees =>
            let distance_meters :=
              match distance_degrees with
              | Some d => if Qeq_bool d 0 then 0 else d * 111000
              | None => 0
              end in
            if _should_cattle_be_in_geofence cattle geofence then
              Some {| geofence_id := fst row;
                      geofence_name := Geofence.name geofence;
                      is_within := Py.truthy is_within;
                      description := Geofence.description geofence;
                      distance_meters := distance_meters;
                      violation := true;
                      status_severity :=
                        Some (_calculate_violation_severity
                                distance_meters
                                (Cattle.health_status cattle)) |}
            else
              Some {| geofence_id := fst row;
                      geofence_name := Geofence.name geofence;
                      is_within := Py.truthy is_within;
                      description := Geofence.description geofence;
                      distance_meters := distance_meters;
                      violation := false;
                      status_severity := None |}
        end
      else
        Some {| geofence_id := fst row;
                geofence_name := Geofence.name geofence;
                is_within := Py.truthy is_within;
                description := Geofence.description geofence;
                distance_meters := 0;
                violation := false;
                status_severity := None |}
  end.

(** The [for geofence in active_geofences] loop, threading
    [geofence_statuses] and [within_any_geofence]. *)
Fixpoint check_all (cattle : Cattle.Cattle) (cattle_location : point)
    (geofences : list (uuid * Geofence.Geofence))
    (geofence_statuses : list geofence_status) (within_any_geofence : bool)
  : list geofence_status * bool :=
  match geofences with
  | [] => (geofence_statuses, within_any_geofence)
  | row :: rest =>
      match check_geofence cattle cattle_location row with
      | Some gs =>
          check_all cattle cattle_location rest
            (geofence_statuses ++ [gs])%list
            (if is_within gs then true else within_any_geofence)
      | None =>
          check_all cattle cattle_location rest
            geofence_statuses within_any_geofence
      end
  end.

(** [get_cattle_geofence_status(cattle_id)]. *)
Definition get_cattle_geofence_status (cattle_id : uuid)
  : cattle_geofence_status :=
  match first_by_id cattle_table cattle_id with
  | None =>
      StatusUnknown cattle_id "unknown"
        "Cattle not found or no location data"
  | Some cattle =>
      match Cattle.location cattle with
      | None =>
          StatusUnknown cattle_id "unknown"
            "Cattle not found or no location data"
      | Some cattle_location =>
          let '(geofence_statuses, within_any_geofence) :=
            check_all cattle cattle_location active_geofences [] false in
          let overall_status :=
            if within_any_geofence then "within_geofence"
            else if existsb violation geofence_statuses then "violation"
            else "outside_safe_areas" in
          StatusReport cattle_id (Cattle.identifier cattle) overall_status
            (Cattle.location cattle) geofence_statuses
            (filter violation geofence_statuses)
      end
  end.

(** The [overall_status] entry of the result, when there is one. *)
Definition overall_status_of (r : cattle_geofence_status) : option string :=
  match r with
  | StatusUnknown _ _ _ => None
  | StatusReport _ _ overall_status _ _ _ => Some overall_status
  end.

(** One entry of the list returned by [detect_violations]. *)
Record detected_violation : Type := {
  v_cattle_id : uuid;
  v_identifier : string;
  v_age : Z;
  v_health_status : string;
  v_current_location : option point;
  v_violation_type : string;
  v_violation_distance_meters : Q;
  v_geofence_id : uuid;
  v_geofence_name : string;
  v_detection_timestamp : Z;
  v_last_update : Z;
  v_severity : string
}.

(** The same entry read as the [violation_data] of the alert builder: the
    three keys it looks up are all present. *)
Definition violation_data_of (v : detected_violation) : violation_data :=
  {| severity := Some (v_severity v);
     health_status := Some (v_health_status v);
     violation_distance_meters := Some (v_violation_distance_meters v) |}.

(** The clock: [utcnow k] is the reading of the [k]-th call of
    [datetime.utcnow()] since the pass began. *)
Variable utcnow : nat -> Z.

(** The [for cattle in all_cattle] loop of [detect_violations]; [ticks]
    counts the clock readings made so far. *)
Fixpoint detect_loop (geofence_key : uuid) (geofence : Geofence.Geofence)
    (all_cattle : list (uuid * Cattle.Cattle))
    (violations : list detected_violation) (ticks : nat)
  : list detected_violation * nat :=
  match all_cattle with
  | [] => (violations, ticks)
  | row :: rest =>
      let cattle := snd row in
      match Cattle.location cattle with
      | None => detect_loop geofence_key geofence rest violations ticks
      | Some cattle_location =>
          match ST_Within cattle_location (Geofence.boundary geofence) with
          | Py.Raised => detect_loop geofence_key geofence rest violations ticks
          | Py.Scalar is_within =>
              if negb (Py.truthy is_within) then
                match ST_Distance cattle_location
                        (Geofence.boundary geofence) with
                | Py.Raised =>
                    detect_loop geofence_key geofence rest violations ticks
                | Py.Scalar distance_degrees =>
                    let distance_meters :=
                      match distance_degrees with
                      | Some d => if Qeq_bool d 0 then 0 else d * 111000
                      | None => 0
                      end in
                    let violation_data :=
                      {| v_cattle_id := fst row;
                         v_identifier := Cattle.identifier cattle;
                         v_age := Cattle.age cattle;
                         v_health_status := Cattle.health_status cattle;
                         v_current_location := Cattle.get_coordinates cattle;
                         v_violation_type := "LEFT_GEOFENCE";
                         v_violation_distance_meters := distance_meters;
                         v_geofence_id := geofence_key;
                         v_geofence_name := Geofence.name geofence;
                         v_detection_timestamp := utcnow ticks;
                         v_last_update := Cattle.last_update cattle;
                         v_severity :=
                           _calculate_violation_severity distance_meters
                             (Cattle.health_status cattle) |} in
                    detect_loop geofence_key geofence rest
                      (violations ++ [violation_data])%list (S ticks)
                end
              else detect_loop geofence_key geofence rest violations ticks
          end
      end
  end.

(** [detect_violations(geofence_id)]. *)
Definition detect_violations (geofence_id : uuid) (ticks : nat)
  : list detected_violation * nat :=
  match first_by_id geofence_table geofence_id with
  | None => ([], ticks)
  | Some geofence =>
      if negb (Geofence.is_active geofence) then ([], ticks)
      else detect_loop geofence_id geofence cattle_table [] ticks
  end.

(** [detect_all_violations()]: the loop over the active geofences. *)
Fixpoint detect_all_loop (geofences : list (uuid * Geofence.Geofence))
    (all_violations : list detected_violation) (ticks : nat)
  : list detected_violation * nat :=
  match geofences with
  | [] => (all_violations, ticks)
  | row :: rest =>
      let (geofence_violations, ticks) := detect_violations (fst row) ticks in
      detect_all_loop rest (all_violations ++ geofence_violations)%list ticks
  end.

Definition detect_all_violations (ticks : nat)
  : list detected_violation * nat :=
  detect_all_loop active_geofences [] ticks.

(** The alert built by [create_violation_alert]; [alert_id] is the value
    drawn by [uuid.uuid4()] and [now] the reading of the clock. *)
Record violation_alert : Type := {
  alert_id : uuid;
  alert_type : string;
  priority : string;
  alert_timestamp : Z;
  alert_cattle : detected_violation;
  actions_required : list string;
  estimated_return_time : string;
  ranch_manager : string;
  emergency_contact : string
}.

(** [create_violation_alert(cattle_id, violation_data)]. *)
Definition create_violation_alert (alert_id : uuid) (now : Z)
    (cattle_id : uuid) (violation : detected_violation) : violation_alert :=
  {| alert_id := alert_id;
     alert_type := "geofence_violation";
     priority := "high";
     alert_timestamp := now;
     alert_cattle := violation;
     actions_required := _get_required_actions (violation_data_of violation);
     estimated_return_time :=
       _estimate_return_time (violation_data_of violation);
     ranch_manager := "Ranch Manager";
     emergency_contact := "Emergency Contact" |}.

(** One entry of [cattle_details] in [get_geofence_statistics]. *)
Record cattle_detail : Type := {
  detail_cattle_id : uuid;
  detail_cattle : Cattle.Cattle;
  detail_geofence_status : string;
  distance_from_geofence_meters : option Q
}.

(** The counting loop of [get_geofence_statistics]. The whole loop sits in
    one [try]: a query that raises ends it, and the counts reached so far
    are kept. Outside the geofence the counter is raised before the distance
    is asked for. *)
Fixpoint count_cattle (geofence : Geofence.Geofence)
    (all_cattle : list (uuid * Cattle.Cattle))
    (within_count outside_count : Z) (cattle_details : list cattle_detail)
  : Z * Z * list cattle_detail :=
  match all_cattle with
  | [] => (within_count, outside_count, cattle_details)
  | row :: rest =>
      let cattle := snd row in
      match Cattle.location cattle with
      | None =>
          count_cattle geofence rest within_count outside_count cattle_details
      | Some cattle_location =>
          match ST_Within cattle_location (Geofence.boundary geofence) with
          | Py.Raised => (within_count, outside_count, cattle_details)
          | Py.Scalar is_within =>
              if Py.truthy is_within then
                count_cattle geofence rest (within_count + 1)%Z outside_count
                  (cattle_details
                     ++ [{| detail_cattle_id := fst row;
                            detail_cattle := cattle;
                            detail_geofence_status := "within";
                            distance_from_geofence_meters := None |}])%list
              else
                match ST_Distance cattle_location
                        (Geofence.boundary geofence) with
                | Py.Raised =>
                    (within_count, (outside_count + 1)%Z, cattle_details)
                | Py.Scalar distance_degrees =>
                    count_cattle geofence rest within_count
                      (outside_count + 1)%Z
                      (cattle_details
                         ++ [{| detail_cattle_id := fst row;
                                detail_cattle := cattle;
                                detail_geofence_status := "outside";
                                distance_from_geofence_meters :=
                                  match distance_degrees with
                                  | Some d =>
                                      if Qeq_bool d 0 then None
                                      else Some (d * 111000)
                                  | None => None
                                  end |}])%list
                end
          end
      end
  end.

(** The ['statistics'] block of [get_geofence_statistics]. *)
Record geofence_statistics : Type := {
  area_km2 : option Q;
  perimeter_meters : option Q;
  centroid : option point;
  cattle_within : Z;
  cattle_outside : Z;
  total_cattle : Z;
  cattle_density_per_km2 : Q;
  compliance_rate : Q
}.

(** The three metrics the geofence computes through PostGIS. *)
Variable get_area_kilometers_squared : Geofence.Geofence -> option Q.
Variable get_perimeter_meters : Geofence.Geofence -> option Q.
Variable get_centroid : Geofence.Geofence -> option point.

(** [get_geofence_statistics(geofence_id)]: [None] stands for the
    [{'error': 'Geofence not found'}] answer; otherwise the geofence, its
    statistics and the cattle details. *)
Definition get_geofence_statistics (geofence_id : uuid)
  : option (Geofence.Geofence * geofence_statistics * list cattle_detail) :=
  match first_by_id geofence_table geofence_id with
  | None => None
  | Some geofence =>
      let area_km2 := get_area_kilometers_squared geofence in
      let perimeter_meters := get_perimeter_meters geofence in
      let centroid := get_centroid geofence in
      let '(within_count, outside_count, cattle_details) :=
        count_cattle geofence cattle_table 0%Z 0%Z [] in
      let density_per_km2 :=
        match area_km2 with
        | Some a =>
            if negb (Qeq_bool a 0) && Py.Qlt_bool 0 a
            then inject_Z within_count / a else 0
        | None => 0
        end in
      Some (geofence,
            {| area_km2 := area_km2;
               perimeter_meters := perimeter_meters;
               centroid := centroid;
               cattle_within := within_count;
               cattle_outside := outside_count;
               total_cattle := (within_count + outside_count)%Z;
               cattle_density_per_km2 := density_per_km2;
               compliance_rate :=
                 if (0 <? within_count + outside_count)%Z
                 then inject_Z within_count
                      / inject_Z (within_count + outside_count) * 100
                 else 0 |},
            cattle_details)
  end.

End Status.

(** [query(Geofence).filter(Geofence.id == key).first()] followed by an
    update of the row found and [commit()]. *)
Fixpoint update_first (geofence_table : list (uuid * Geofence.Geofence))
    (key : uuid) (f : Geofence.Geofence -> Geofence.Geofence)
  : list (uuid * Geofence.Geofence) :=
  match geofence_table with
  | [] => []
  | row :: rest =>
      if (fst row =? key)%Z then (fst row, f (snd row)) :: rest
      else row :: update_first rest key f
  end.

(** [Geofence.activate()] and [Geofence.deactivate()]. *)
Definition activate (now : Z) (self : Geofence.Geofence) : Geofence.Geofence :=
  {| Geofence.name := Geofence.name self;
     Geofence.boundary := Geofence.boundary self;
     Geofence.is_active := true;
     Geofence.description := Geofence.description self;
     Geofence.updated_at := now |}.

Definition deactivate (now : Z) (self : Geofence.Geofence)
  : Geofence.Geofence :=
  {| Geofence.name := Geofence.name self;
     Geofence.boundary := Geofence.boundary self;
     Geofence.is_active := false;
     Geofence.description := Geofence.description self;
     Geofence.updated_at := now |}.

(** [activate_geofence(geofence_id)] and [deactivate_geofence(geofence_id)]:
    the answer and the table after the commit. *)
Definition activate_geofence (geofence_table : list (uuid * Geofence.Geofence))
    (now : Z) (geofence_id : uuid)
  : bool * list (uuid * Geofence.Geofence) :=
  match first_by_id geofence_table geofence_id with
  | None => (false, geofence_table)
  | Some _ => (true, update_first geofence_table geofence_id (activate now))
  end.

Definition deactivate_geofence
    (geofence_table : list (uuid * Geofence.Geofence))
    (now : Z) (geofence_id : uuid)
  : bool * list (uuid * Geofence.Geofence) :=
  match first_by_id geofence_table geofence_id with
  | None => (false, geofence_table)
  | Some _ => (true, update_first geofence_table geofence_id (deactivate now))
  end.

End GeofenceService.

(** ** [models/cattle_history.py] *)

Module CattleHistory.

Record CattleHistory : Type := {
  cattle_id : uuid;
  location : point;
  timestamp : Z
}.

(** One grid cell of the heatmap, a dictionary with these four keys. *)
Record heatmap_point : Type := {
  lat : Q;
  lng : Q;
  intensity : Z;
  weight : Q
}.

(** A grid cell as the [GROUP BY] key: the snapped coordinates, each in
    lowest terms so that equal coordinates are identical keys. *)
Definition cell : Type := (Q * Q)%type.

Definition Q_eq_dec (a b : Q) : {a = b} + {a <> b}.
Proof. decide equality; [apply Pos.eq_dec | apply Z.eq_dec]. Defined.

Definition cell_eq_dec (a b : cell) : {a = b} + {a <> b}.
Proof. decide equality; apply Q_eq_dec. Defined.

Section Queries.

(** The [cattle_history] table behind [session], and PostGIS'
    [ST_SnapToGrid(geometry, size)]. *)
Variable session : list CattleHistory.
Variable ST_SnapToGrid : point -> Q -> point.

Definition ST_X (g : point) : Q := longitude g.
Definition ST_Y (g : point) : Q := latitude g.

(** The filter [timestamp >= start_time AND timestamp <= end_time]. *)
Definition in_window (start_time end_time : Z) (h : CattleHistory) : bool :=
  ((start_time <=? timestamp h) && (timestamp h <=? end_time))%Z.

Definition cell_of (grid_size_degrees : Q) (h : CattleHistory) : cell :=
  let g := ST_SnapToGrid (location h) grid_size_degrees in
  (Qred (ST_X g), Qred (ST_Y g)).

(** [CattleHistorySpatialQueries.get_history_heatmap_data]: one row per
    distinct cell among the selected samples, with [count()] of the
    group. SQL leaves the order of the groups open; the rows come here in
    the order [nodup] leaves them. *)
Definition get_history_heatmap_data (start_time end_time : Z)
    (grid_size_meters : Q) : list heatmap_point :=
  let grid_size_degrees := grid_size_meters / 111000 in
  let selected := filter (in_window start_time end_time) session in
  let cells := map (cell_of grid_size_degrees) selected in
  map (fun c =>
         let count := Z.of_nat (count_occ cell_eq_dec cells c) in
         {| lat := snd c;
            lng := fst c;
            intensity := count;
            weight := inject_Z count |})
      (nodup cell_eq_dec cells).

End Queries.

(** The count a heatmap result reports for one cell ([0] when the cell has
    no row). *)
Definition cell_intensity (points : list heatmap_point) (c : cell) : Z :=
  Py.sum (map intensity
            (filter (fun p => if cell_eq_dec (lng p, lat p) c
                              then true else false) points)).

End CattleHistory.

(** ** [services/heatmap_service.py] *)

Module HeatmapService.

Import CattleHistory.

Record intensity_statistics : Type := {
  stat_min : Q;
  stat_max : Q;
  stat_avg : Q;
  stat_total : Z
}.

Record bucket_statistics : Type := {
  total_intensity : Q;
  max_intensity : Q;
  avg_intensity : Q;
  point_count : Z
}.

Record temporal_bucket : Type := {
  bucket_index : Z;
  start_time : Z;
  end_time : Z;
  duration_minutes : Z;
  bucket_points : list heatmap_point;
  statistics : bucket_statistics
}.

Record heatmap_metadata : Type := {
  analysis_period_hours : Z;
  grid_size_meters : Q;
  time_buckets : option Z;
  meta_start_time : Z;
  meta_end_time : Z;
  analysis_timestamp : Z
}.

Record heatmap_data : Type := {
  metadata : heatmap_metadata;
  heatmap_points : list heatmap_point;
  intensity_stats : intensity_statistics;
  temporal_analysis : option (list temporal_bucket);
  total_points_analyzed : Z
}.

Record period_comparison : Type := {
  current_intensity : Z;
  previous_intensity : Z;
  intensity_change_percent : Q;
  current_activity_zones : Z;
  previous_activity_zones : Z;
  zones_change_percent : Q;
  insights : list string;
  current_heatmap_data : list heatmap_point;
  previous_heatmap_data : list heatmap_point
}.

Section Service.

Variable db : list CattleHistory.
Variable ST_SnapToGrid : point -> Q -> point.

(** [bucket_duration] of [_get_temporal_heatmap]. *)
Definition bucket_duration (hours time_buckets : Z) : Z :=
  Py.timedelta_hours (inject_Z hours / inject_Z time_buckets).

(** Start and end of bucket [i] in [_get_temporal_heatmap]. *)
Definition bucket_start (start_time duration i : Z) : Z :=
  (start_time + duration * i)%Z.
Definition bucket_end (start_time duration i : Z) : Z :=
  (start_time + duration * (i + 1))%Z.

(** The statistics block computed for one bucket. *)
Definition bucket_stats (points : list heatmap_point) : bucket_statistics :=
  match points with
  | _ :: _ =>
      let intensities := map intensity points in
      let total_intensity := Py.sum intensities in
      {| total_intensity := inject_Z total_intensity;
         max_intensity := inject_Z (Py.max_list intensities);
         avg_intensity :=
           inject_Z total_intensity / inject_Z (Py.len intensities);
         point_count := Py.len points |}
  | [] =>
      {| total_intensity := 0;
         max_intensity := 0;
         avg_intensity := 0;
         point_count := Py.len points |}
  end.

(** [_get_temporal_heatmap(start_time, hours, time_buckets,
    grid_size_meters)]. *)
Definition _get_temporal_heatmap (start_time hours time_buckets : Z)
    (grid_size_meters : Q) : Py.result (list temporal_bucket) :=
  if (time_buckets =? 0)%Z then Py.ZeroDivisionError
  else
    let duration := bucket_duration hours time_buckets in
    Py.Ok
      (map (fun i =>
              let b_start := bucket_start start_time duration i in
              let b_end := bucket_end start_time duration i in
              let points :=
                get_history_heatmap_data db ST_SnapToGrid
                  b_start b_end grid_size_meters in
              {| bucket_index := i;
                 start_time := b_start;
                 end_time := b_end;
                 duration_minutes :=
                   Py.int (inject_Z duration / 1000000 / 60);
                 bucket_points := points;
                 statistics := bucket_stats points |})
           (Py.range time_buckets)).

(** [get_heatmap_data(hours_back, grid_size_meters, time_buckets)];
    [utcnow k] is the reading of the [k]-th call of [datetime.utcnow()]
    made by the method. *)
Definition get_heatmap_data (utcnow : nat -> Z) (hours_back : Z)
    (grid_size_meters : Q) (time_buckets : option Z)
  : Py.result heatmap_data :=
  let start_time :=
    (utcnow 0%nat - Py.timedelta_hours (inject_Z hours_back))%Z in
  let heatmap_points :=
    get_history_heatmap_data db ST_SnapToGrid
      start_time (utcnow 1%nat) grid_size_meters in
  let intensity_stats :=
    match heatmap_points with
    | _ :: _ =>
        let intensities := map intensity heatmap_points in
        {| stat_min := inject_Z (Py.min_list intensities);
           stat_max := inject_Z (Py.max_list intensities);
           stat_avg :=
             inject_Z (Py.sum intensities) / inject_Z (Py.len intensities);
           stat_total := Py.len intensities |}
    | [] =>
        {| stat_min := 0; stat_max := 0; stat_avg := 0; stat_total := 0 |}
    end in
  Py.bind
    (match time_buckets with
     | Some n =>
         if (n =? 0)%Z then Py.Ok None
         else Py.bind
                (_get_temporal_heatmap start_time hours_back n
                   grid_size_meters)
                (fun t => Py.Ok (Some t))
     | None => Py.Ok None
     end)
    (fun temporal_analysis =>
       Py.Ok {| metadata :=
                  {| analysis_period_hours := hours_back;
                     grid_size_meters := grid_size_meters;
                     time_buckets := time_buckets;
                     meta_start_time := start_time;
                     meta_end_time := utcnow 2%nat;
                     analysis_timestamp := utcnow 3%nat |};
                heatmap_points := heatmap_points;
                intensity_stats := intensity_stats;
                temporal_analysis := temporal_analysis;
                total_points_analyzed := stat_total intensity_stats |}).

(** [compare_periods(current_hours, previous_hours)] with [now] the
    reading of [datetime.utcnow()]. *)
Definition compare_periods (now : Z) (current_hours previous_hours : Z)
  : period_comparison :=
  let current_start :=
    (now - Py.timedelta_hours (inject_Z current_hours))%Z in
  let previous_end := current_start in
  let previous_start :=
    (previous_end - Py.timedelta_hours (inject_Z previous_hours))%Z in
  let current_points :=
    get_history_heatmap_data db ST_SnapToGrid current_start now 100 in
  let previous_points :=
    get_history_heatmap_data db ST_SnapToGrid
      previous_start previous_end 100 in
  let current_intensity := Py.sum (map intensity current_points) in
  let previous_intensity := Py.sum (map intensity previous_points) in
  let current_activity_zones := Py.len current_points in
  let previous_activity_zones := Py.len previous_points in
  let intensity_change :=
    if (0 <? previous_intensity)%Z
    then inject_Z (current_intensity - previous_intensity)
         / inject_Z previous_intensity * 100
    else 0 in
  let zones_change :=
    if (0 <? previous_activity_zones)%Z
    then inject_Z (current_activity_zones - previous_activity_zones)
         / inject_Z previous_activity_zones * 100
    else 0 in
  let insights :=
    if Py.Qlt_bool 20 intensity_change
    then ["Significant increase in cattle activity detected"]
    else if Py.Qlt_bool intensity_change (-20)
    then ["Significant decrease in cattle activity detected"]
    else ["Cattle activity levels are relatively stable"] in
  {| current_intensity := current_intensity;
     previous_intensity := previous_intensity;
     intensity_change_percent := intensity_change;
     current_activity_zones := current_activity_zones;
     previous_activity_zones := previous_activity_zones;
     zones_change_percent := zones_change;
     insights := insights;
     current_heatmap_data := current_points;
     previous_heatmap_data := previous_points |}.

End Service.

(** The dictionaries built by [get_heatmap_geojson]. *)
Module GeoJSON.

Record geometry : Type := {
  geometry_type : string;
  coordinates : Q * Q
}.

Record properties : Type := {
  intensity : Z;
  scaled_intensity : Q;
  weight : Q;
  lat : Q;
  lng : Q
}.

Record feature : Type := {
  feature_type : string;
  feature_properties : properties;
  feature_geometry : geometry
}.

(** The keys from ['min_intensity'] on are present only when the heatmap
    has points. *)
Record metadata : Type := {
  points_count : Z;
  grid_size_meters : Q;
  hours_back : Z;
  intensity_scale : string;
  min_intensity : option Z;
  max_intensity : option Z;
  intensity_range : option Z;
  analysis_timestamp : option Z
}.

Record feature_collection : Type := {
  collection_type : string;
  features : list feature;
  collection_metadata : metadata
}.

End GeoJSON.

Section GeoExport.

Variable db : list CattleHistory.
Variable ST_SnapToGrid : point -> Q -> point.

(** [math.log1p] and [math.sqrt] on floats. *)
Variable math_log1p math_sqrt : Q -> Q.

(** The closure [scale_intensity(value)] of [get_heatmap_geojson]. *)
Definition scale_intensity (min_intensity max_intensity : Z)
    (intensity_scale : string) (value : Z) : Py.result Q :=
  if (max_intensity =? min_intensity)%Z then Py.Ok 0.5
  else
    let normalized :=
      inject_Z (value - min_intensity)
      / inject_Z (max_intensity - min_intensity) in
    if (intensity_scale =? "log")%string then
      if Qeq_bool (math_log1p 9) 0 then Py.ZeroDivisionError
      else Py.Ok (math_log1p (normalized * 9) / math_log1p 9)
    else if (intensity_scale =? "sqrt")%string then
      Py.Ok (math_sqrt normalized)
    else Py.Ok normalized.

(** The loop [for point in heatmap_points] that builds the features. *)
Fixpoint build_features (min_intensity max_intensity : Z)
    (intensity_scale : string) (heatmap_points : list heatmap_point)
  : Py.result (list GeoJSON.feature) :=
  match heatmap_points with
  | [] => Py.Ok []
  | point :: rest =>
      Py.bind (scale_intensity min_intensity max_intensity intensity_scale
                 (intensity point)) (fun scaled_intensity =>
      let feature :=
        {| GeoJSON.feature_type := "Feature";
           GeoJSON.feature_properties :=
             {| GeoJSON.intensity := intensity point;
                GeoJSON.scaled_intensity := scaled_intensity;
                GeoJSON.weight := weight point;
                GeoJSON.lat := lat point;
                GeoJSON.lng := lng point |};
           GeoJSON.feature_geometry :=
             {| GeoJSON.geometry_type := "Point";
                GeoJSON.coordinates := (lng point, lat point) |} |} in
      Py.bind (build_features min_intensity max_intensity intensity_scale rest)
        (fun features => Py.Ok (feature :: features)))
  end.

(** [get_heatmap_geojson(hours_back, grid_size_meters, intensity_scale)];
    [utcnow k] is the reading of the [k]-th call of [datetime.utcnow()]. *)
Definition get_heatmap_geojson (utcnow : nat -> Z) (hours_back : Z)
    (grid_size_meters : Q) (intensity_scale : string)
  : Py.result GeoJSON.feature_collection :=
  let start_time :=
    (utcnow 0%nat - Py.timedelta_hours (inject_Z hours_back))%Z in
  let heatmap_points :=
    get_history_heatmap_data db ST_SnapToGrid
      start_time (utcnow 1%nat) grid_size_meters in
  match heatmap_points with
  | [] =>
      Py.Ok {| GeoJSON.collection_type := "FeatureCollection";
               GeoJSON.features := [];
               GeoJSON.collection_metadata :=
                 {| GeoJSON.points_count := 0;
                    GeoJSON.grid_size_meters := grid_size_meters;
                    GeoJSON.hours_back := hours_back;
                    GeoJSON.intensity_scale := intensity_scale;
                    GeoJSON.min_intensity := None;
                    GeoJSON.max_intensity := None;
                    GeoJSON.intensity_range := None;
                    GeoJSON.analysis_timestamp := None |} |}
  | _ :: _ =>
      let intensities := map intensity heatmap_points in
      let min_intensity := Py.min_list intensities in
      let max_intensity := Py.max_list intensities in
      Py.bind (build_features min_intensity max_intensity intensity_scale
                 heatmap_points) (fun features =>
      Py.Ok {| GeoJSON.collection_type := "FeatureCollection";
               GeoJSON.features := features;
               GeoJSON.collection_metadata :=
                 {| GeoJSON.points_count := Py.len features;
                    GeoJSON.grid_size_meters := grid_size_meters;
                    GeoJSON.hours_back := hours_back;
                    GeoJSON.intensity_scale := intensity_scale;
                    GeoJSON.min_intensity := Some min_intensity;
                    GeoJSON.max_intensity := Some max_intensity;
                    GeoJSON.intensity_range :=
                      Some (max_intensity - min_intensity)%Z;
                    GeoJSON.analysis_timestamp := Some (utcnow 2%nat) |} |})
  end.

End GeoExport.

End HeatmapService.

(** ** [services/cattle_service.py] *)

Module CattleSimulationService.

(** What one sweep of the probing loop ends with. *)
Inductive probe : Type :=
| Found (test_lng test_lat : Q)
| NotFound
| QueryError.

Section Service.

(** [math.cos], [math.sin] and [math.pi] on floats; the query
    [ST_Within(point, ST_GeomFromText(polygon_wkt, 4326))]; and the state
    of [self.random] with its [random()] draw in [0, 1). *)
Variable math_cos math_sin : Q -> Q.
Variable math_pi : Q.
Variable ST_Within : Q -> Q -> string -> Py.query_result bool.
Variable rng : Type.
Variable random : rng -> Q * rng.

(** [random.uniform(a, b)], which is [a + (b - a) * random()]. *)
Definition uniform (a b : Q) (g : rng) : Q * rng :=
  let (u, g') := random g in (a + (b - a) * u, g').

(** The test point number [i] on the circle of radius [search_radius]. *)
Definition test_lng (lng search_radius : Q) (i : Z) : Q :=
  lng + search_radius * math_cos (2 * math_pi * inject_Z i / 16).
Definition test_lat (lat search_radius : Q) (i : Z) : Q :=
  lat + search_radius * math_sin (2 * math_pi * inject_Z i / 16).

(** The inner [for i in range(num_points)] loop over the indices [is_]. *)
Fixpoint probe_circle (lng lat : Q) (polygon_wkt : string)
    (search_radius : Q) (is_ : list Z) : probe :=
  match is_ with
  | [] => NotFound
  | i :: rest =>
      match ST_Within (test_lng lng search_radius i)
                      (test_lat lat search_radius i) polygon_wkt with
      | Py.Raised => QueryError
      | Py.Scalar v =>
          if Py.truthy v
          then Found (test_lng lng search_radius i)
                     (test_lat lat search_radius i)
          else probe_circle lng lat polygon_wkt search_radius rest
      end
  end.

(** The [while search_radius <= max_radius and not found] loop; [None]
    when [fuel] rounds were not enough to leave it. *)
Fixpoint search (fuel : nat) (lng lat : Q) (polygon_wkt : string)
    (max_radius search_radius : Q) : option probe :=
  if Qle_bool search_radius max_radius then
    match fuel with
    | O => None
    | S fuel' =>
        match probe_circle lng lat polygon_wkt search_radius
                (Py.range 16) with
        | NotFound =>
            search fuel' lng lat polygon_wkt max_radius (search_radius * 2)
        | outcome => Some outcome
        end
    end
  else Some NotFound.

(** [_constrain_to_polygon(lng, lat, polygon_wkt, max_search_degrees)]. *)
Definition _constrain_to_polygon (fuel : nat) (lng lat : Q)
    (polygon_wkt : string) (max_search_degrees : Q) : option (Q * Q) :=
  match ST_Within lng lat polygon_wkt with
  | Py.Raised => Some (lng, lat)
  | Py.Scalar is_within =>
      if Py.truthy is_within then Some (lng, lat)
      else
        match search fuel lng lat polygon_wkt max_search_degrees 0.001 with
        | None => None
        | Some (Found best_lng best_lat) => Some (best_lng, best_lat)
        | Some NotFound => Some (lng, lat)
        | Some QueryError => Some (lng, lat)
        end
  end.

(** [simulate_movement(cattle, boundary_polygon, max_drift_meters)]: the
    new [(longitude, latitude)] or [None], and the state [self.random] is
    left in. *)
Definition simulate_movement (fuel : nat) (cattle : Cattle.Cattle)
    (boundary_polygon : option string) (max_drift_meters : Q) (g : rng)
  : option (option (Q * Q) * rng) :=
  match Cattle.get_coordinates cattle with
  | None => Some (None, g)
  | Some current_coords =>
      let current_lng := longitude current_coords in
      let current_lat := latitude current_coords in
      let max_drift_degrees := max_drift_meters / 111000 in
      let (angle, g) := uniform 0 (2 * math_pi) g in
      let (distance_degrees, g) :=
        uniform (0.1 * max_drift_degrees) max_drift_degrees g in
      let new_lng := current_lng + distance_degrees * math_cos angle in
      let new_lat := current_lat + distance_degrees * math_sin angle in
      match boundary_polygon with
      | Some polygon_wkt =>
          if (polygon_wkt =? "")%string then Some (Some (new_lng, new_lat), g)
          else
            option_map (fun p => (Some p, g))
              (_constrain_to_polygon fuel new_lng new_lat polygon_wkt
                 (max_drift_degrees * 2))
      | None => Some (Some (new_lng, new_lat), g)
      end
  end.

(** Rounds that always suffice for the search to leave its loop. *)
Definition search_fuel (max_radius : Q) : nat :=
  S (Z.to_nat (Qfloor (max_radius * 1000))).

End Service.

(** [timedelta(days=n)] in microseconds. *)
Definition timedelta_days (n : Z) : Z := (n * 86400000000)%Z.

(** [cleanup_old_history(days_to_keep)] with [now] the reading of the
    clock: the number of records deleted, and the history table after the
    commit. *)
Definition cleanup_old_history (history : list CattleHistory.CattleHistory)
    (now : Z) (days_to_keep : Z)
  : Z * list CattleHistory.CattleHistory :=
  let cutoff_date := (now - timedelta_days days_to_keep)%Z in
  let old_records :=
    filter (fun h => (CattleHistory.timestamp h <? cutoff_date)%Z) history in
  let count := Py.len old_records in
  (count,
   filter (fun h => negb (CattleHistory.timestamp h <? cutoff_date)%Z) history).

(** [query(Cattle).filter(Cattle.id == cattle_id).first()]. *)
Definition first_cattle (cattle_table : list (uuid * Cattle.Cattle))
    (cattle_id : uuid) : option Cattle.Cattle :=
  option_map snd (find (fun row => (fst row =? cattle_id)%Z) cattle_table).

(** The table after the commit of a change to the row read by
    [first_cattle]. *)
Fixpoint commit_cattle (cattle_table : list (uuid * Cattle.Cattle))
    (cattle_id : uuid) (cattle : Cattle.Cattle)
  : list (uuid * Cattle.Cattle) :=
  match cattle_table with
  | [] => []
  | row :: rest =>
      if (fst row =? cattle_id)%Z then (fst row, cattle) :: rest
      else row :: commit_cattle rest cattle_id cattle
  end.

(** [update_cattle_health(cattle_id, new_health_status)] with [now] the
    reading of the clock: the answer and the table afterwards. Only
    [ValueError] is caught. *)
Definition update_cattle_health (cattle_table : list (uuid * Cattle.Cattle))
    (now : Z) (cattle_id : uuid) (new_health_status : string)
  : Py.result (bool * list (uuid * Cattle.Cattle)) :=
  match first_cattle cattle_table cattle_id with
  | None => Py.Ok (false, cattle_table)
  | Some cattle =>
      match Cattle.update_health_status cattle new_health_status now with
      | Py.Ok cattle => Py.Ok (true, commit_cattle cattle_table cattle_id cattle)
      | Py.ValueError _ => Py.Ok (false, cattle_table)
      | Py.ZeroDivisionError => Py.ZeroDivisionError
      end
  end.

End CattleSimulationService.

(** * Vocabulary of the specification and sample data *)

(** ** Categories, levels and the shape of a violation *)

Module Spec.

(** Health categories and their stored values. *)
Inductive Health : Type := Healthy | NeedsAttention | Sick.

Definition health_value (h : Health) : string :=
  match h with
  | Healthy => HealthStatusEnum.SEHAT
  | NeedsAttention => HealthStatusEnum.PERLU_PERHATIAN
  | Sick => HealthStatusEnum.SAKIT
  end.

Inductive Severity : Type := LOW | MEDIUM | HIGH | CRITICAL.

Definition severity_name (s : Severity) : string :=
  match s with
  | LOW => "LOW" | MEDIUM => "MEDIUM" | HIGH => "HIGH" | CRITICAL => "CRITICAL"
  end.

(** The distance table: [d] lies in the row of base level [s]. *)
Definition base_level (d : Q) (s : Severity) : Prop :=
  match s with
  | LOW => d < 100
  | MEDIUM => 100 <= d /\ d < 500
  | HIGH => 500 <= d /\ d < 1000
  | CRITICAL => 1000 <= d
  end.

(** Escalation of a base level by health. *)
Definition escalate (h : Health) (s : Severity) : Severity :=
  match h, s with
  | Sick, LOW => MEDIUM
  | Sick, MEDIUM => HIGH
  | Sick, (HIGH | CRITICAL) => CRITICAL
  | NeedsAttention, LOW => LOW
  | NeedsAttention, MEDIUM => HIGH
  | NeedsAttention, (HIGH | CRITICAL) => CRITICAL
  | Healthy, s => s
  end.

(** The multiplier of the return-time estimate. *)
Definition healthMultiplier (h : Health) : Q :=
  match h with Sick => 2 | NeedsAttention => 1.5 | Healthy => 1 end.

(** [m] is [x] clamped to the interval from [lo] to [hi]. *)
Definition clamped (x lo hi m : Q) : Prop :=
  (x < lo -> m == lo) /\ (lo <= x <= hi -> m == x) /\ (hi < x -> m == hi).

(** A violation as the detector hands it to the alert builder. *)
Definition violation (d : Q) (h : Health) : GeofenceService.violation_data :=
  {| GeofenceService.severity := None;
     GeofenceService.health_status := Some (health_value h);
     GeofenceService.violation_distance_meters := Some d |}.

End Spec.

Module Actions.
Definition locate := "Locate and verify cattle position".
Definition check_injuries := "Check for physical injuries or distress".
Definition search_team := "Deploy search team immediately".
Definition notify_manager := "Notify ranch manager".
Definition check_hazards := "Check nearby roads or dangerous areas".
Definition send_handler := "Send ranch hand to retrieve".
Definition monitor_movement := "Monitor movement pattern".
Definition guide_back := "Guide cattle back to geofenced area".
Definition urgent := "URGENT: Sick animal requires immediate attention".
Definition veterinarian := "Contact veterinarian if condition worsens".
Definition monitor_health := "Monitor health condition closely".
Definition additional_care := "Provide additional care if needed".
End Actions.

(** The middle tier as the specification words it: the handler is sent
    exactly when [500 <= d <= 1000]. *)
Definition handler_tier_as_specified (d : Q) (h : Spec.Health) : Prop :=
  In Actions.send_handler
     (GeofenceService._get_required_actions (Spec.violation d h))
  <-> 500 <= d /\ d <= 1000.

(** The [try] body for [row] runs to its end: neither spatial query
    raises. *)
Definition check_completes
    (ST_Within : point -> Geofence.geometry -> Py.query_result bool)
    (ST_Distance : point -> Geofence.geometry -> Py.query_result Q)
    (cattle : Cattle.Cattle) (loc : point)
    (row : uuid * Geofence.Geofence) : Prop :=
  GeofenceService.check_geofence ST_Within ST_Distance cattle loc row <> None.

Module Demo.

Definition sick_cow : Cattle.Cattle :=
  {| Cattle.identifier := "SAPI-001";
     Cattle.age := 3;
     Cattle.health_status := HealthStatusEnum.SAKIT;
     Cattle.location := Some (ST_MakePoint 2 2);
     Cattle.last_update := 0 |}.

Definition paddock : Geofence.Geofence :=
  {| Geofence.name := "Paddock";
     Geofence.boundary :=
       Geofence.ST_GeomFromText
         "POLYGON((-1 -1, 1 -1, 1 1, -1 1, -1 -1))" 4326;
     Geofence.is_active := true;
     Geofence.description := None;
     Geofence.updated_at := 0 |}.

(** A containment query that answers "outside" and a distance query that
    answers one hundredth of a degree. *)
Definition outside (_ : point) (_ : Geofence.geometry) : Py.query_result bool :=
  Py.Scalar (Some false).
Definition hundredth (_ : point) (_ : Geofence.geometry) : Py.query_result Q :=
  Py.Scalar (Some (1 # 100)).

End Demo.

(** The cells of the samples selected by a window. *)
Definition window_cells (db : list CattleHistory.CattleHistory)
    (ST_SnapToGrid : point -> Q -> point)
    (start_time end_time : Z) (grid_size_meters : Q)
  : list CattleHistory.cell :=
  map (CattleHistory.cell_of ST_SnapToGrid (grid_size_meters / 111000))
      (filter (CattleHistory.in_window start_time end_time) db).

Module DemoHistory.

(** A sample at the origin taken at instant [t]. *)
Definition sample_at (t : Z) : CattleHistory.CattleHistory :=
  {| CattleHistory.cattle_id := 1%Z;
     CattleHistory.location := ST_MakePoint 0 0;
     CattleHistory.timestamp := t |}.

(** The cell of the origin. *)
Definition origin : CattleHistory.cell := (0, 0).

(** A grid so fine that snapping moves no point. *)
Definition no_snap (p : point) (_ : Q) : point := p.

(** A clock that starts at 10^11 microseconds and ticks once per call. *)
Definition clock (k : nat) : Z := (100000000000 + Z.of_nat k)%Z.

(** Two days in microseconds, and a history with 100 samples in the first
    day and 150 in the second. *)
Definition two_days : Z := 172800000000%Z.
Definition busy_second_day : list CattleHistory.CattleHistory :=
  (repeat (sample_at 1000) 100 ++ repeat (sample_at 100000000000) 150)%list.

End DemoHistory.

Module Insight.
Definition increase := "Significant increase in cattle activity detected".
Definition decrease := "Significant decrease in cattle activity detected".
Definition stable := "Cattle activity levels are relatively stable".
End Insight.

(** The buckets as the specification words them: every two neighbouring
    buckets together report, for every cell, the count of the single window
    that spans both. *)
Definition neighbours_add_up (db : list CattleHistory.CattleHistory)
    (ST_SnapToGrid : point -> Q -> point)
    (start_time hours time_buckets : Z) (grid_size_meters : Q) : Prop :=
  forall (i : nat) (c : CattleHistory.cell) buckets b1 b2,
    HeatmapService._get_temporal_heatmap db ST_SnapToGrid
      start_time hours time_buckets grid_size_meters = Py.Ok buckets ->
    nth_error buckets i = Some b1 ->
    nth_error buckets (S i) = Some b2 ->
    (CattleHistory.cell_intensity (HeatmapService.bucket_points b1) c
     + CattleHistory.cell_intensity (HeatmapService.bucket_points b2) c
     = CattleHistory.cell_intensity
         (CattleHistory.get_history_heatmap_data db ST_SnapToGrid
            (HeatmapService.start_time b1) (HeatmapService.end_time b2)
            grid_size_meters) c)%Z.

Module Ring.

(** A vertex is a [longitude, latitude] pair within the coordinate
    ranges. *)
Definition in_range (p : list Q) : Prop :=
  exists lng lat,
    p = [lng; lat] /\ (-180 <= lng /\ lng <= 180) /\ (-90 <= lat /\ lat <= 90).

(** The vertices of a ring without repetitions, and their number. *)
Fixpoint distinct (ring : list (list Q)) : list (list Q) :=
  match ring with
  | [] => []
  | p :: rest =>
      if existsb (Geofence.point_eqb p) rest then distinct rest
      else p :: distinct rest
  end.

Definition distinct_vertices (ring : list (list Q)) : nat :=
  List.length (distinct ring).

(** The text of the polygon stored for a closed ring. *)
Definition polygon_text (repr : Q -> string) (ring : list (list Q)) : string :=
  "POLYGON((" ++ String.concat ", " (map (Geofence.point_str repr) ring)
              ++ "))".

(** A [repr] for whole numbers. *)
Definition repr_whole (q : Q) : string := Py.str (Py.int q).

(** The rejection rule as the specification words it: a ring with fewer
    than three distinct vertices is refused. *)
Definition few_distinct_vertices_rejected (repr : Q -> string)
    (self : Geofence.Geofence) (ring : list (list Q)) (now : Z) : Prop :=
  (distinct_vertices ring < 3)%nat ->
  exists msg,
    Geofence.set_boundary_from_coordinates repr self ring now
    = Py.ValueError msg.

End Ring.

Module DemoRing.

(** The corners of a two-degree square around the origin, not closed. *)
Definition square : list (list Q) :=
  [[-1; -1]; [1; -1]; [1; 1]; [-1; 1]].

End DemoRing.

Section ProbeVocabulary.

Variable math_cos math_sin : Q -> Q.
Variable math_pi : Q.
Variable ST_Within : Q -> Q -> string -> Py.query_result bool.

(** Radius of round [k]: 0.001 degrees, doubled [k] times. *)
Fixpoint radius (k : nat) : Q :=
  match k with
  | O => 0.001
  | S k' => radius k' * 2
  end.

(** Probe [i] of round [k] around the point [(lng, lat)]. *)
Definition probe_point (lng lat : Q) (k : nat) (i : Z) : Q * Q :=
  (CattleSimulationService.test_lng math_cos math_pi lng (radius k) i,
   CattleSimulationService.test_lat math_sin math_pi lat (radius k) i).

(** The point [(x, y)] is reported to lie within the polygon. *)
Definition inside (polygon_wkt : string) (p : Q * Q) : Prop :=
  exists v, ST_Within (fst p) (snd p) polygon_wkt = Py.Scalar v
            /\ Py.truthy v = true.

(** Probe [(k', i')] is tried before probe [(k, i)]. *)
Definition earlier (k' : nat) (i' : Z) (k : nat) (i : Z) : Prop :=
  (k' < k)%nat \/ (k' = k /\ (i' < i)%Z).

(** No containment query about the polygon raises. *)
Definition never_raises (polygon_wkt : string) : Prop :=
  forall x y, ST_Within x y polygon_wkt <> Py.Raised.

End ProbeVocabulary.

Module DemoWalk.

(** Stand-ins for the trigonometric functions (leading terms of their
    series) and for pi. *)
Definition cos (x : Q) : Q := 1 - x * x / 2.
Definition sin (x : Q) : Q := x.
Definition pi : Q := 355 # 113.

(** Containment in the two-degree square around the origin. *)
Definition in_square (x y : Q) (_ : string) : Py.query_result bool :=
  Py.Scalar (Some (Qle_bool (-1) x && Qle_bool x 1
                   && Qle_bool (-1) y && Qle_bool y 1)).

(** A random source that is a counter and always draws nine tenths. *)
Definition draw (n : nat) : Q * nat := (9 # 10, S n).

Definition square_wkt : string := "POLYGON((-1 -1, 1 -1, 1 1, -1 1, -1 -1))".

(** An animal close to the eastern edge of the square. *)
Definition edge_cow : Cattle.Cattle :=
  {| Cattle.identifier := "SAPI-002";
     Cattle.age := 4;
     Cattle.health_status := HealthStatusEnum.SEHAT;
     Cattle.location := Some (ST_MakePoint (9995 # 10000) 0);
     Cattle.last_update := 0 |}.

End DemoWalk.

(** A heading fixed to the north-east, cosine 3/5 and sine 4/5 at every
    angle, and a database whose containment queries all raise. *)
Module DemoHeading.
Definition cos (_ : Q) : Q := 3 # 5.
Definition sin (_ : Q) : Q := 4 # 5.
Definition unreachable (_ _ : Q) (_ : string) : Py.query_result bool :=
  Py.Raised.
End DemoHeading.

(** ** Vocabulary of the GeoJSON export *)

(** Position of [value] between [lo] and [hi] on the scale from 0 to 1, and
    one half when the two coincide. *)
Definition linear_scale (lo hi value : Z) : Q :=
  if (hi =? lo)%Z then 0.5
  else inject_Z (value - lo) / inject_Z (hi - lo).

(** The feature made of a heatmap cell and a scaled intensity. *)
Definition feature_of (scaled : Q) (point : CattleHistory.heatmap_point)
  : HeatmapService.GeoJSON.feature :=
  {| HeatmapService.GeoJSON.feature_type := "Feature";
     HeatmapService.GeoJSON.feature_properties :=
       {| HeatmapService.GeoJSON.intensity := CattleHistory.intensity point;
          HeatmapService.GeoJSON.scaled_intensity := scaled;
          HeatmapService.GeoJSON.weight := CattleHistory.weight point;
          HeatmapService.GeoJSON.lat := CattleHistory.lat point;
          HeatmapService.GeoJSON.lng := CattleHistory.lng point |};
     HeatmapService.GeoJSON.feature_geometry :=
       {| HeatmapService.GeoJSON.geometry_type := "Point";
          HeatmapService.GeoJSON.coordinates :=
            (CattleHistory.lng point, CattleHistory.lat point) |} |}.

(** The scaled intensity of a feature. *)
Definition scaled_of (f : HeatmapService.GeoJSON.feature) : Q :=
  HeatmapService.GeoJSON.scaled_intensity
    (HeatmapService.GeoJSON.feature_properties f).

(** ** Orders on levels *)

(** Position of a severity level in the order LOW < MEDIUM < HIGH <
    CRITICAL; any other text ranks above them. *)
Definition severity_rank (level : string) : nat :=
  if (level =? "LOW")%string then 0
  else if (level =? "MEDIUM")%string then 1
  else if (level =? "HIGH")%string then 2
  else if (level =? "CRITICAL")%string then 3
  else 4.

(** ** Vocabulary of violation detection *)

Section DetectionVocabulary.

Variable ST_Within : point -> Geofence.geometry -> Py.query_result bool.

(** The containment query answers, and not with a true value: the animal
    of [row] is located and found outside [geofence]. *)
Definition outside_geofence (geofence : Geofence.Geofence)
    (row : uuid * Cattle.Cattle) : bool :=
  match Cattle.location (snd row) with
  | Some loc =>
      match ST_Within loc (Geofence.boundary geofence) with
      | Py.Scalar w => negb (Py.truthy w)
      | Py.Raised => false
      end
  | None => false
  end.

(** The animal of [row] has a location. *)
Definition located (row : uuid * Cattle.Cattle) : bool :=
  match Cattle.location (snd row) with Some _ => true | None => false end.

(** The violation [v] reports an animal of [all_cattle] that was found
    outside the geofence [geofence_id], with the animal's own data and the
    severity of its distance and health. *)
Definition reports_outside_animal (all_cattle : list (uuid * Cattle.Cattle))
    (geofence_id : uuid) (geofence : Geofence.Geofence)
    (v : GeofenceService.detected_violation) : Prop :=
  GeofenceService.v_geofence_id v = geofence_id
  /\ GeofenceService.v_geofence_name v = Geofence.name geofence
  /\ GeofenceService.v_violation_type v = "LEFT_GEOFENCE"
  /\ exists cattle,
       In (GeofenceService.v_cattle_id v, cattle) all_cattle
       /\ outside_geofence geofence (GeofenceService.v_cattle_id v, cattle)
          = true
       /\ GeofenceService.v_identifier v = Cattle.identifier cattle
       /\ GeofenceService.v_health_status v = Cattle.health_status cattle
       /\ GeofenceService.v_current_location v = Cattle.location cattle
       /\ GeofenceService.v_severity v
          = GeofenceService._calculate_violation_severity
              (GeofenceService.v_violation_distance_meters v)
              (Cattle.health_status cattle).

End DetectionVocabulary.

Module DemoDetection.

(** The violation reported for the sick cow, two degrees off the paddock's
    centre, when the distance query answers one hundredth of a degree. *)
Definition reported : GeofenceService.detected_violation :=
  {| GeofenceService.v_cattle_id := 1%Z;
     GeofenceService.v_identifier := "SAPI-001";
     GeofenceService.v_age := 3%Z;
     GeofenceService.v_health_status := "Sakit";
     GeofenceService.v_current_location := Some (ST_MakePoint 2 2);
     GeofenceService.v_violation_type := "LEFT_GEOFENCE";
     GeofenceService.v_violation_distance_meters := (1 # 100) * 111000;
     GeofenceService.v_geofence_id := 7%Z;
     GeofenceService.v_geofence_name := "Paddock";
     GeofenceService.v_detection_timestamp := 100000000000%Z;
     GeofenceService.v_last_update := 0%Z;
     GeofenceService.v_severity := "CRITICAL" |}.

End DemoDetection.

(** * Properties *)

(** ** Comparisons and arithmetic helpers *)

Lemma Qlt_bool_true (x y : Q) : Py.Qlt_bool x y = true <-> x < y.
Proof.
  unfold Py.Qlt_bool. rewrite negb_true_iff.
  split; intro H.
  - apply Qnot_le_lt. intro L. apply Qle_bool_iff in L. congruence.
  - destruct (Qle_bool y x) eqn:E; [|reflexivity].
    apply Qle_bool_iff in E. exfalso. apply (Qlt_not_le _ _ H E).
Qed.

Lemma Qlt_bool_false (x y : Q) : Py.Qlt_bool x y = false <-> y <= x.
Proof.
  unfold Py.Qlt_bool. rewrite negb_false_iff. apply Qle_bool_iff.
Qed.

(** Case analysis on every float comparison left in the goal. *)
Ltac case_Qlt :=
  repeat match goal with
  | |- context [Py.Qlt_bool ?a ?b] =>
      let E := fresh "E" in
      destruct (Py.Qlt_bool a b) eqn:E;
      [apply Qlt_bool_true in E | apply Qlt_bool_false in E]
  | H : context [Py.Qlt_bool ?a ?b] |- _ =>
      let E := fresh "E" in
      destruct (Py.Qlt_bool a b) eqn:E;
      [apply Qlt_bool_true in E | apply Qlt_bool_false in E]
  end.

(** ** Severity *)

(** C1. For every distance [d >= 0] in the table row of base level [s] and
    every health category [h], the computed severity is [s] escalated by [h];
    a sick animal 150 m out is rated HIGH. *)
Theorem severity_is_escalated_base_level :
  (forall (d : Q) (h : Spec.Health) (s : Spec.Severity),
      0 <= d -> Spec.base_level d s ->
      GeofenceService._calculate_violation_severity d (Spec.health_value h)
      = Spec.severity_name (Spec.escalate h s))
  /\ GeofenceService._calculate_violation_severity
       150 (Spec.health_value Spec.Sick) = "HIGH".
Proof.
  split; [|reflexivity].
  intros d h s _ Hrow.
  unfold GeofenceService._calculate_violation_severity.
  destruct s; simpl in Hrow; case_Qlt; try lra;
    destruct h; reflexivity.
Qed.

Lemma severity_is_escalated_base_level_witness :
  GeofenceService._calculate_violation_severity 150 (Spec.health_value Spec.Sick)
  = Spec.severity_name (Spec.escalate Spec.Sick Spec.MEDIUM).
Proof.
  apply (proj1 severity_is_escalated_base_level 150 Spec.Sick Spec.MEDIUM).
  - lra.
  - simpl. lra.
Defined.

(** ** Remediation plan *)

(** Membership of a literal action in a literal plan. *)
Ltac settle_In :=
  simpl;
  repeat match goal with
  | |- _ <-> _ => split; intro
  | H : _ \/ _ |- _ => destruct H
  | H : False |- _ => destruct H
  | H : _ /\ _ |- _ => destruct H
  | H : @eq string _ _ |- _ => discriminate H
  end;
  try lra;
  try (repeat split; try lra; auto 20).

(** C4, at the lower edge of the middle tier: 500 m out, the plan guides the
    animal back and sends no handler. *)
Lemma handler_tier_excludes_500 :
  ~ handler_tier_as_specified 500 Spec.Healthy.
Proof.
  unfold handler_tier_as_specified. intros [_ H].
  assert (Hin : In Actions.send_handler
                  (GeofenceService._get_required_actions
                     (Spec.violation 500 Spec.Healthy))) by (apply H; lra).
  vm_compute in Hin.
  repeat (destruct Hin as [Hin | Hin]; [discriminate Hin|]).
  exact Hin.
Qed.

(** C4, amended. The plan always holds the locate and the injury check; the
    search team, manager and hazard actions exactly when [d > 1000]; the
    handler and movement-monitoring actions exactly when [500 < d <= 1000];
    the guide-back action exactly when [d <= 500]; for a sick animal the
    urgent line comes first and the veterinarian action last; for an animal
    needing attention the two care actions end the plan. *)
Theorem required_actions_by_tier (d : Q) (h : Spec.Health) :
  let plan := GeofenceService._get_required_actions (Spec.violation d h) in
  let sick := GeofenceService._get_required_actions (Spec.violation d Spec.Sick) in
  let attention :=
    GeofenceService._get_required_actions (Spec.violation d Spec.NeedsAttention) in
  In Actions.locate plan /\ In Actions.check_injuries plan
  /\ (In Actions.search_team plan <-> 1000 < d)
  /\ (In Actions.notify_manager plan <-> 1000 < d)
  /\ (In Actions.check_hazards plan <-> 1000 < d)
  /\ (In Actions.send_handler plan <-> 500 < d /\ d <= 1000)
  /\ (In Actions.monitor_movement plan <-> 500 < d /\ d <= 1000)
  /\ (In Actions.guide_back plan <-> d <= 500)
  /\ hd_error sick = Some Actions.urgent
  /\ last sick "" = Actions.veterinarian
  /\ (exists front,
         attention
         = (front ++ [Actions.monitor_health; Actions.additional_care])%list).
Proof.
  unfold GeofenceService._get_required_actions, Spec.violation,
    GeofenceService.get; cbn [GeofenceService.health_status
    GeofenceService.violation_distance_meters].
  case_Qlt; try lra.
  all: repeat match goal with |- _ /\ _ => split end.
  all: try (destruct h; settle_In; fail).
  all: try reflexivity.
  all: match goal with
       | |- exists _, ?l = _ => exists (firstn (List.length l - 2) l)
       end; reflexivity.
Qed.

(** ** Estimated return time *)

Lemma Py_int_inject_Z (z : Z) : Py.int (inject_Z z) = z.
Proof.
  unfold Py.int. destruct (Py.Qlt_bool (inject_Z z) 0).
  - unfold Qceiling. change (- inject_Z z) with (inject_Z (- z)).
    rewrite Qfloor_Z. lia.
  - apply Qfloor_Z.
Qed.

Lemma Py_int_nonneg (x : Q) : 0 <= x -> Py.int x = Qfloor x.
Proof.
  intro H. unfold Py.int.
  destruct (Py.Qlt_bool x 0) eqn:E; [|reflexivity].
  apply Qlt_bool_true in E. lra.
Qed.

Lemma Qfloor_bounds (x : Q) : inject_Z (Qfloor x) <= x < inject_Z (Qfloor x) + 1.
Proof.
  split.
  - apply Qfloor_le.
  - generalize (Qlt_floor x). rewrite inject_Z_plus. trivial.
Qed.

Lemma base_time_minutes_range (vd : GeofenceService.violation_data) :
  10 <= GeofenceService.base_time_minutes vd <= 240.
Proof.
  unfold GeofenceService.base_time_minutes, Py.min, Py.max.
  case_Qlt; lra.
Qed.



(** ** Overall geofence status of one animal *)

Section StatusFacts.

Variable cattle_table : list (uuid * Cattle.Cattle).
Variable geofence_table : list (uuid * Geofence.Geofence).
Variable ST_Within : point -> Geofence.geometry -> Py.query_result bool.
Variable ST_Distance : point -> Geofence.geometry -> Py.query_result Q.

Let check_geofence := GeofenceService.check_geofence ST_Within ST_Distance.
Let check_all := GeofenceService.check_all ST_Within ST_Distance.

(** An entry that made it into [geofence_statuses] is inside its geofence
    or flagged as a violation. *)
Lemma check_geofence_flags cattle loc row gs :
  check_geofence cattle loc row = Some gs ->
  GeofenceService.is_within gs = true \/ GeofenceService.violation gs = true.
Proof.
  unfold check_geofence, GeofenceService.check_geofence.
  destruct (ST_Within loc _) as [|w]; [discriminate|].
  destruct (Py.truthy w) eqn:Ew; cbn [negb].
  - intro H; inversion H; subst; cbn. left. reflexivity.
  - destruct (ST_Distance loc _) as [|dd]; [discriminate|].
    cbn. intro H; inversion H; subst; cbn. right. reflexivity.
Qed.

(** Flags raised before the loop are still raised after it. *)
Lemma check_all_keeps_flags cattle loc gs :
  forall acc w,
    w = true \/ existsb GeofenceService.violation acc = true ->
    snd (check_all cattle loc gs acc w) = true
    \/ existsb GeofenceService.violation
         (fst (check_all cattle loc gs acc w)) = true.
Proof.
  induction gs as [|row rest IH]; intros acc w Hflag; cbn.
  - exact Hflag.
  - fold check_all.
    destruct (GeofenceService.check_geofence _ _ cattle loc row) as [gs|].
    + apply IH. destruct Hflag as [-> | Hx].
      * left. destruct (GeofenceService.is_within gs); reflexivity.
      * right. rewrite existsb_app, Hx. reflexivity.
    + apply IH. exact Hflag.
Qed.

Lemma check_all_flags_some cattle loc gs :
  gs <> [] ->
  (forall row, In row gs ->
               check_completes ST_Within ST_Distance cattle loc row) ->
  snd (check_all cattle loc gs [] false) = true
  \/ existsb GeofenceService.violation
       (fst (check_all cattle loc gs [] false)) = true.
Proof.
  destruct gs as [|row rest]; [congruence|]. intros _ Hall. cbn.
  fold check_all.
  assert (Hrow := Hall row (or_introl eq_refl)).
  unfold check_completes in Hrow.
  destruct (GeofenceService.check_geofence ST_Within ST_Distance
              cattle loc row) as [gs|] eqn:E; [|congruence].
  apply check_all_keeps_flags.
  destruct (check_geofence_flags _ _ _ _ E) as [-> | Hv].
  - left. reflexivity.
  - right. cbn. rewrite Hv. reflexivity.
Qed.

End StatusFacts.

(** C10. For an animal that exists and has a location, when at least one
    geofence is active and the check of every active geofence completes
    without a query raising, the overall status is ['within_geofence'] or
    ['violation'], never ['outside_safe_areas']. *)
Theorem overall_status_never_outside_safe_areas
    (cattle_table : list (uuid * Cattle.Cattle))
    (geofence_table : list (uuid * Geofence.Geofence))
    (ST_Within : point -> Geofence.geometry -> Py.query_result bool)
    (ST_Distance : point -> Geofence.geometry -> Py.query_result Q)
    (cattle_id : uuid) (cattle : Cattle.Cattle) (loc : point) :
  GeofenceService.first_by_id cattle_table cattle_id = Some cattle ->
  Cattle.location cattle = Some loc ->
  GeofenceService.active_geofences geofence_table <> [] ->
  (forall row, In row (GeofenceService.active_geofences geofence_table) ->
               check_completes ST_Within ST_Distance cattle loc row) ->
  let status :=
    GeofenceService.overall_status_of
      (GeofenceService.get_cattle_geofence_status
         cattle_table geofence_table ST_Within ST_Distance cattle_id) in
  (status = Some "within_geofence" \/ status = Some "violation")
  /\ status <> Some "outside_safe_areas".
Proof.
  intros Hc Hl Hne Hall status.
  assert (H : status = Some "within_geofence" \/ status = Some "violation").
  { subst status. unfold GeofenceService.get_cattle_geofence_status.
    rewrite Hc, Hl.
    pose proof (check_all_flags_some ST_Within ST_Distance cattle loc _ Hne Hall)
      as Hflags.
    destruct (GeofenceService.check_all ST_Within ST_Distance cattle loc
                (GeofenceService.active_geofences geofence_table) [] false)
      as [sts w].
    cbn in Hflags |- *.
    destruct Hflags as [-> | Hv].
    - left. reflexivity.
    - destruct w; [left; reflexivity|]. rewrite Hv. right. reflexivity. }
  split; [exact H|].
  destruct H as [-> | ->]; discriminate.
Qed.

Lemma overall_status_never_outside_safe_areas_witness :
  let status :=
    GeofenceService.overall_status_of
      (GeofenceService.get_cattle_geofence_status
         [(1%Z, Demo.sick_cow)] [(7%Z, Demo.paddock)]
         Demo.outside Demo.hundredth 1%Z) in
  (status = Some "within_geofence" \/ status = Some "violation")
  /\ status <> Some "outside_safe_areas".
Proof.
  apply (overall_status_never_outside_safe_areas
           [(1%Z, Demo.sick_cow)] [(7%Z, Demo.paddock)]
           Demo.outside Demo.hundredth 1%Z Demo.sick_cow (ST_MakePoint 2 2)).
  - reflexivity.
  - reflexivity.
  - discriminate.
  - intros row [<- | []]. discriminate.
Defined.

(** ** Heatmap queries *)

Section HeatmapFacts.

Import CattleHistory.

Variable db : list CattleHistory.
Variable ST_SnapToGrid : point -> Q -> point.

Let heatmap := get_history_heatmap_data db ST_SnapToGrid.

Lemma sum_from (l : list Z) (a : Z) :
  fold_left Z.add l a = (a + Py.sum l)%Z.
Proof.
  unfold Py.sum. revert a.
  induction l as [|x l IH]; intro a; cbn.
  - lia.
  - rewrite (IH (a + x)%Z), (IH x). lia.
Qed.

Lemma sum_cons (x : Z) (l : list Z) : Py.sum (x :: l) = (x + Py.sum l)%Z.
Proof. unfold Py.sum at 1. cbn. apply sum_from. Qed.

(** In a result built from duplicate-free keys, the rows of cell [c] carry
    the count of [c]. *)
Lemma cell_intensity_rows (count : cell -> Z) (keys : list cell) (c : cell) :
  NoDup keys ->
  cell_intensity
    (map (fun k => {| lat := snd k; lng := fst k;
                      intensity := count k;
                      weight := inject_Z (count k) |}) keys) c
  = if in_dec cell_eq_dec c keys then count c else 0%Z.
Proof.
  unfold cell_intensity.
  induction keys as [|k keys IH]; intro Hnd; [reflexivity|].
  inversion Hnd as [|? ? Hk Hnd']; subst.
  cbn [map filter lng lat intensity].
  rewrite <- surjective_pairing.
  destruct (cell_eq_dec k c) as [->|Hne].
  - cbn [map intensity]. rewrite sum_cons, (IH Hnd').
    destruct (in_dec cell_eq_dec c keys) as [Hin|_]; [contradiction|].
    destruct (in_dec cell_eq_dec c (c :: keys)) as [_|Hout].
    + lia.
    + exfalso. apply Hout. left. reflexivity.
  - rewrite (IH Hnd').
    destruct (in_dec cell_eq_dec c keys) as [Hin|Hout];
      destruct (in_dec cell_eq_dec c (k :: keys)) as [Hin'|Hout'];
      try reflexivity.
    + exfalso. apply Hout'. right. exact Hin.
    + destruct Hin' as [E|Hin']; [congruence|contradiction].
Qed.

(** The count reported for a cell is the number of selected samples that
    fall into it. *)
Lemma cell_intensity_heatmap (s e : Z) (g : Q) (c : cell) :
  cell_intensity (heatmap s e g) c
  = Z.of_nat (count_occ cell_eq_dec (window_cells db ST_SnapToGrid s e g) c).
Proof.
  unfold heatmap, get_history_heatmap_data. fold (window_cells db ST_SnapToGrid s e g).
  rewrite (cell_intensity_rows
             (fun k =>
                Z.of_nat
                  (count_occ cell_eq_dec
                     (window_cells db ST_SnapToGrid s e g) k))).
  - destruct (in_dec cell_eq_dec c
                (nodup cell_eq_dec (window_cells db ST_SnapToGrid s e g)))
      as [Hin|Hout]; [reflexivity|].
    rewrite nodup_In in Hout.
    apply (count_occ_not_In cell_eq_dec) in Hout. rewrite Hout. reflexivity.
  - apply NoDup_nodup.
Qed.

(** A window without samples has no rows. *)
Lemma heatmap_empty_window (s e : Z) (g : Q) :
  (forall h, In h db -> in_window s e h = false) ->
  heatmap s e g = [].
Proof.
  intro Hnone. unfold heatmap, get_history_heatmap_data.
  assert (E : filter (in_window s e) db = []).
  { clear heatmap. induction db as [|h l IH]; [reflexivity|].
    cbn. rewrite (Hnone h (or_introl eq_refl)).
    apply IH. intros h' Hin. apply Hnone. right. exact Hin. }
  rewrite E. reflexivity.
Qed.

Lemma count_occ_filter_cons (p : CattleHistory -> bool)
    (f : CattleHistory -> cell) (h : CattleHistory) (l : list CattleHistory)
    (c : cell) :
  count_occ cell_eq_dec (map f (filter p (h :: l))) c
  = ((if p h then if cell_eq_dec (f h) c then 1 else 0 else 0)
     + count_occ cell_eq_dec (map f (filter p l)) c)%nat.
Proof.
  cbn [filter]. destruct (p h); [|reflexivity].
  cbn [map count_occ]. destruct (cell_eq_dec (f h) c); reflexivity.
Qed.

(** Two closed windows that share the instant [t1] count the samples taken
    at [t1] twice. *)
Lemma adjacent_windows_count (t0 t1 t2 : Z) (g : Q) (c : cell) :
  (t0 <= t1 <= t2)%Z ->
  (count_occ cell_eq_dec (window_cells db ST_SnapToGrid t0 t1 g) c
   + count_occ cell_eq_dec (window_cells db ST_SnapToGrid t1 t2 g) c
   = count_occ cell_eq_dec (window_cells db ST_SnapToGrid t0 t2 g) c
     + count_occ cell_eq_dec (window_cells db ST_SnapToGrid t1 t1 g) c)%nat.
Proof.
  intro Hord. unfold window_cells. clear heatmap.
  induction db as [|h l IH]; [reflexivity|].
  rewrite !count_occ_filter_cons. unfold in_window at 1 3 5 7.
  destruct (Z.leb_spec t0 (timestamp h));
    destruct (Z.leb_spec (timestamp h) t1);
    destruct (Z.leb_spec t1 (timestamp h));
    destruct (Z.leb_spec (timestamp h) t2);
    cbn [andb];
    try (exfalso; lia);
    try destruct (cell_eq_dec _ c); lia.
Qed.

End HeatmapFacts.

Section HeatmapTotals.

Import CattleHistory.

Lemma sum_map_add {A : Type} (f g : A -> Z) (l : list A) :
  Py.sum (map (fun k => (f k + g k)%Z) l)
  = (Py.sum (map f l) + Py.sum (map g l))%Z.
Proof.
  induction l as [|k l IH]; [reflexivity|].
  cbn [map]. rewrite !sum_cons, IH. lia.
Qed.

Lemma sum_indicator (x : cell) (keys : list cell) :
  NoDup keys ->
  Py.sum (map (fun k => if cell_eq_dec x k then 1%Z else 0%Z) keys)
  = if in_dec cell_eq_dec x keys then 1%Z else 0%Z.
Proof.
  induction keys as [|k keys IH]; intro Hnd; [reflexivity|].
  inversion Hnd as [|? ? Hk Hnd']; subst.
  cbn [map]. rewrite sum_cons, (IH Hnd').
  destruct (cell_eq_dec x k) as [->|Hne].
  - destruct (in_dec cell_eq_dec k keys) as [Hin|_]; [contradiction|].
    destruct (in_dec cell_eq_dec k (k :: keys)) as [_|Hout];
      [reflexivity|].
    exfalso. apply Hout. left. reflexivity.
  - destruct (in_dec cell_eq_dec x keys) as [Hin|Hout];
      destruct (in_dec cell_eq_dec x (k :: keys)) as [Hin'|Hout'];
      try reflexivity.
    + exfalso. apply Hout'. right. exact Hin.
    + destruct Hin' as [E|Hin']; [congruence|contradiction].
Qed.

(** Summed over duplicate-free keys that cover the list, the counts add up
    to the length of the list. *)
Lemma sum_counts (l keys : list cell) :
  NoDup keys -> incl l keys ->
  Py.sum (map (fun k => Z.of_nat (count_occ cell_eq_dec l k)) keys)
  = Z.of_nat (List.length l).
Proof.
  intros Hnd. induction l as [|x l IH]; intro Hincl.
  - cbn [count_occ]. clear. induction keys as [|k keys IH]; [reflexivity|].
    cbn [map]. rewrite sum_cons, IH. reflexivity.
  - rewrite (map_ext _
               (fun k => ((if cell_eq_dec x k then 1 else 0)
                          + Z.of_nat (count_occ cell_eq_dec l k))%Z)).
    + rewrite sum_map_add, (sum_indicator x keys Hnd), IH.
      * destruct (in_dec cell_eq_dec x keys) as [_|Hout].
        -- cbn [List.length]. lia.
        -- exfalso. apply Hout, Hincl. left. reflexivity.
      * intros y Hy. apply Hincl. right. exact Hy.
    + intro k. cbn [count_occ]. destruct (cell_eq_dec x k); lia.
Qed.

(** The aggregate intensity of a window is the number of samples in it. *)
Lemma heatmap_total_intensity (db : list CattleHistory)
    (ST_SnapToGrid : point -> Q -> point) (s e : Z) (g : Q) :
  Py.sum (map intensity (get_history_heatmap_data db ST_SnapToGrid s e g))
  = Z.of_nat (List.length (filter (in_window s e) db)).
Proof.
  unfold get_history_heatmap_data. rewrite map_map. cbn [intensity].
  rewrite sum_counts.
  - apply f_equal, length_map.
  - apply NoDup_nodup.
  - intros c Hc. apply nodup_In. exact Hc.
Qed.

End HeatmapTotals.

(** ** Empty windows *)

(** C7. When no sample lies in the analysed window, the heatmap computation
    returns normally, with no cells and with min, max, avg and total all
    zero. *)
Theorem empty_window_yields_zero_statistics
    (db : list CattleHistory.CattleHistory)
    (ST_SnapToGrid : point -> Q -> point) (utcnow : nat -> Z)
    (hours_back : Z) (grid_size_meters : Q) (time_buckets : option Z) :
  (forall h, In h db ->
     CattleHistory.in_window
       (utcnow 0%nat - Py.timedelta_hours (inject_Z hours_back))%Z
       (utcnow 1%nat) h = false) ->
  exists r,
    HeatmapService.get_heatmap_data db ST_SnapToGrid utcnow hours_back
      grid_size_meters time_buckets = Py.Ok r
    /\ HeatmapService.heatmap_points r = []
    /\ HeatmapService.intensity_stats r
       = {| HeatmapService.stat_min := 0; HeatmapService.stat_max := 0;
            HeatmapService.stat_avg := 0; HeatmapService.stat_total := 0 |}
    /\ HeatmapService.total_points_analyzed r = 0%Z.
Proof.
  intro Hnone.
  unfold HeatmapService.get_heatmap_data.
  rewrite (heatmap_empty_window db ST_SnapToGrid _ _ grid_size_meters Hnone).
  destruct time_buckets as [n|]; cbn [Py.bind].
  - unfold HeatmapService._get_temporal_heatmap.
    destruct (n =? 0)%Z; cbn [Py.bind]; eexists; repeat split.
  - eexists; repeat split.
Qed.

Lemma empty_window_yields_zero_statistics_witness :
  exists r,
    HeatmapService.get_heatmap_data [DemoHistory.sample_at 0]
      DemoHistory.no_snap DemoHistory.clock 1 100 (Some 2%Z) = Py.Ok r
    /\ HeatmapService.heatmap_points r = []
    /\ HeatmapService.intensity_stats r
       = {| HeatmapService.stat_min := 0; HeatmapService.stat_max := 0;
            HeatmapService.stat_avg := 0; HeatmapService.stat_total := 0 |}
    /\ HeatmapService.total_points_analyzed r = 0%Z.
Proof.
  apply (empty_window_yields_zero_statistics [DemoHistory.sample_at 0]
           DemoHistory.no_snap DemoHistory.clock 1 100 (Some 2%Z)).
  intros h [<- | []]. vm_compute. reflexivity.
Defined.

(** ** Period comparison *)

(** C6. The comparison reports the change of the aggregate intensity (the
    number of samples of a window) from the previous window to the current
    one in percent of the previous intensity, and calls it an increase
    exactly above +20, a decrease exactly below -20 and stable otherwise;
    150 against 100 is reported as +50 and as an increase. *)
Theorem compare_periods_classifies_change
    (db : list CattleHistory.CattleHistory)
    (ST_SnapToGrid : point -> Q -> point)
    (now current_hours previous_hours : Z) :
  let r := HeatmapService.compare_periods db ST_SnapToGrid
             now current_hours previous_hours in
  let current := HeatmapService.current_intensity r in
  let previous := HeatmapService.previous_intensity r in
  let change := HeatmapService.intensity_change_percent r in
  let current_start :=
    (now - Py.timedelta_hours (inject_Z current_hours))%Z in
  let previous_start :=
    (current_start - Py.timedelta_hours (inject_Z previous_hours))%Z in
  current
  = Z.of_nat (List.length
                (filter (CattleHistory.in_window current_start now) db))
  /\ previous
     = Z.of_nat (List.length
                   (filter (CattleHistory.in_window previous_start current_start)
                      db))
  /\ ((0 < previous)%Z ->
      change == inject_Z (current - previous) / inject_Z previous * 100)
  /\ (HeatmapService.insights r = [Insight.increase] <-> 20 < change)
  /\ (HeatmapService.insights r = [Insight.decrease] <-> change < -20)
  /\ (HeatmapService.insights r = [Insight.stable]
      <-> -20 <= change /\ change <= 20)
  /\ (current = 150%Z -> previous = 100%Z ->
      change == 50 /\ HeatmapService.insights r = [Insight.increase]).
Proof.
  intros r current previous change current_start previous_start.
  assert (Hchange : (0 < previous)%Z ->
            change == inject_Z (current - previous) / inject_Z previous * 100).
  { intro Hpos. subst change r.
    unfold HeatmapService.compare_periods;
      cbn [HeatmapService.intensity_change_percent].
    fold current_start. fold previous_start.
    change (Py.sum _) with previous at 1.
    apply Z.ltb_lt in Hpos. rewrite Hpos. reflexivity. }
  assert (Hclass :
    (HeatmapService.insights r = [Insight.increase] <-> 20 < change)
    /\ (HeatmapService.insights r = [Insight.decrease] <-> change < -20)
    /\ (HeatmapService.insights r = [Insight.stable]
        <-> -20 <= change /\ change <= 20)).
  { subst change r.
    unfold HeatmapService.compare_periods;
      cbn [HeatmapService.intensity_change_percent HeatmapService.insights].
    set (c := if (0 <? _)%Z then _ else 0). clearbody c.
    destruct (Py.Qlt_bool 20 c) eqn:E1;
      [apply Qlt_bool_true in E1 | apply Qlt_bool_false in E1];
      [|destruct (Py.Qlt_bool c (-20)) eqn:E2;
        [apply Qlt_bool_true in E2 | apply Qlt_bool_false in E2]];
      repeat split; intros; try discriminate; try lra; try reflexivity. }
  split; [apply heatmap_total_intensity|].
  split; [apply heatmap_total_intensity|].
  split; [exact Hchange|].
  destruct Hclass as (Hinc & Hdec & Hst).
  repeat (split; [assumption|]).
  intros Hc Hp.
  assert (E : change == 50).
  { rewrite Hchange by lia. rewrite Hc, Hp. reflexivity. }
  split; [exact E|]. apply Hinc. rewrite E. reflexivity.
Qed.

Lemma compare_periods_classifies_change_witness :
  let r := HeatmapService.compare_periods DemoHistory.busy_second_day
             DemoHistory.no_snap DemoHistory.two_days 24 24 in
  HeatmapService.intensity_change_percent r == 50
  /\ HeatmapService.insights r = [Insight.increase].
Proof.
  destruct (compare_periods_classifies_change DemoHistory.busy_second_day
              DemoHistory.no_snap DemoHistory.two_days 24 24)
    as (_ & _ & _ & _ & _ & _ & H).
  apply H; vm_compute; reflexivity.
Defined.

(** ** Temporal buckets *)

Lemma round_half_even_nonneg (q : Q) : 0 <= q -> (0 <= Py.round_half_even q)%Z.
Proof.
  intro Hq. unfold Py.round_half_even.
  assert (H0 : (0 <= Qfloor q)%Z).
  { change 0%Z with (Qfloor 0). apply Qfloor_resp_le. exact Hq. }
  destruct (Py.Qlt_bool _ _); [exact H0|].
  destruct (Py.Qlt_bool _ _); [lia|].
  destruct (Z.even _); lia.
Qed.

Lemma bucket_duration_nonneg (hours time_buckets : Z) :
  (0 <= hours)%Z -> (0 < time_buckets)%Z ->
  (0 <= HeatmapService.bucket_duration hours time_buckets)%Z.
Proof.
  intros Hh Hb. unfold HeatmapService.bucket_duration, Py.timedelta_hours.
  apply round_half_even_nonneg.
  apply Qmult_le_0_compat; [|discriminate].
  apply Qle_shift_div_l.
  - change 0 with (inject_Z 0). rewrite <- Zlt_Qlt. exact Hb.
  - rewrite Qmult_0_l. change 0 with (inject_Z 0). rewrite <- Zle_Qle. exact Hh.
Qed.

Lemma nth_error_range {A : Type} (f : Z -> A) (n : Z) (k : nat) :
  (Z.of_nat k < n)%Z ->
  nth_error (map f (Py.range n)) k = Some (f (Z.of_nat k)).
Proof.
  intro Hk. unfold Py.range. rewrite map_map.
  rewrite nth_error_map, nth_error_seq.
  destruct (Nat.ltb_spec k (Z.to_nat n)); [reflexivity|lia].
Qed.




(** ** Boundary rings *)

Section RingFacts.

Variable repr : Q -> string.

Lemma range_check (lo x hi : Q) :
  negb (Qle_bool lo x && Qle_bool x hi) = false <-> lo <= x /\ x <= hi.
Proof.
  rewrite negb_false_iff, andb_true_iff, !Qle_bool_iff. tauto.
Qed.

Lemma validate_points_complete (cs : list (list Q)) :
  Forall Ring.in_range cs -> Geofence.validate_points repr cs = Py.Ok tt.
Proof.
  induction 1 as [|p cs (lng & lat & -> & Hlng & Hlat) _ IH]; [reflexivity|].
  cbn [Geofence.validate_points].
  apply range_check in Hlng. apply range_check in Hlat.
  rewrite Hlng, Hlat. exact IH.
Qed.

Lemma validate_points_sound (cs : list (list Q)) (u : unit) :
  Geofence.validate_points repr cs = Py.Ok u -> Forall Ring.in_range cs.
Proof.
  induction cs as [|p cs IH]; [constructor|].
  cbn [Geofence.validate_points].
  destruct p as [|lng [|lat [|? ?]]]; try discriminate.
  destruct (negb (Qle_bool (-180) lng && Qle_bool lng 180)) eqn:Elng;
    [discriminate|].
  destruct (negb (Qle_bool (-90) lat && Qle_bool lat 90)) eqn:Elat;
    [discriminate|].
  intro H. constructor; [|exact (IH H)].
  exists lng, lat. apply range_check in Elng. apply range_check in Elat.
  auto.
Qed.

Lemma validate_points_outcome (cs : list (list Q)) :
  Geofence.validate_points repr cs = Py.Ok tt
  \/ exists msg, Geofence.validate_points repr cs = Py.ValueError msg.
Proof.
  induction cs as [|p cs IH]; [left; reflexivity|].
  cbn [Geofence.validate_points].
  destruct p as [|lng [|lat [|? ?]]]; try (right; eexists; reflexivity).
  destruct (negb (Qle_bool (-180) lng && Qle_bool lng 180));
    [right; eexists; reflexivity|].
  destruct (negb (Qle_bool (-90) lat && Qle_bool lat 90));
    [right; eexists; reflexivity|].
  exact IH.
Qed.

Lemma point_eqb_refl (p : list Q) : Geofence.point_eqb p p = true.
Proof.
  induction p as [|x p IH]; [reflexivity|].
  cbn. rewrite IH, andb_true_r. apply Qeq_bool_iff. reflexivity.
Qed.

(** A ring that has been closed ends with its first vertex. *)
Lemma close_ring_closed (cs : list (list Q)) (first : list Q) :
  hd_error cs = Some first ->
  hd_error (Geofence.close_ring cs) = Some first
  /\ Geofence.point_eqb first (last (Geofence.close_ring cs) first) = true.
Proof.
  destruct cs as [|p cs]; [discriminate|].
  intro H; injection H as ->.
  unfold Geofence.close_ring.
  destruct (Geofence.point_eqb first (last (first :: cs) first)) eqn:E;
    cbn [negb].
  - split; [reflexivity|exact E].
  - split; [reflexivity|].
    change (first :: cs ++ [first])%list
      with ((first :: cs) ++ [first])%list.
    rewrite last_last. apply point_eqb_refl.
Qed.

End RingFacts.

(** C8, on a degenerate ring: three copies of one vertex have a single
    distinct vertex, and the ring is accepted. *)
Lemma repeated_vertex_ring_accepted :
  ~ Ring.few_distinct_vertices_rejected Ring.repr_whole Demo.paddock
      [[0; 0]; [0; 0]; [0; 0]] 0.
Proof.
  unfold Ring.few_distinct_vertices_rejected. intro H.
  destruct H as [msg Hmsg].
  - vm_compute. lia.
  - vm_compute in Hmsg. discriminate Hmsg.
Qed.

(** C8, amended. Setting a boundary refuses, with a [ValueError] that names
    the reason, every coordinate list of fewer than 3 points and every list
    with a vertex that is not a pair within longitude [-180, 180] and
    latitude [-90, 90]; creating and updating a geofence refuse them too.
    Every other list is accepted, and what is stored for an accepted list is
    the polygon of the closed ring: the list itself when its last point
    equals its first, the list followed by its first point otherwise. *)
Theorem boundary_validates_and_closes_ring
    (repr : Q -> string) (self : Geofence.Geofence)
    (coordinates : list (list Q)) (now : Z) :
  let set := Geofence.set_boundary_from_coordinates repr self coordinates now in
  let invalid :=
    (List.length coordinates < 3)%nat
    \/ exists p, In p coordinates /\ ~ Ring.in_range p in
  ((List.length coordinates < 3)%nat ->
   set = Py.ValueError "Geofence must have at least 3 coordinate points")
  /\ (invalid -> exists msg, set = Py.ValueError msg)
  /\ (invalid -> forall name description is_active,
        exists msg,
          Geofence.__init__ repr name coordinates description is_active now
          = Py.ValueError msg)
  /\ (invalid -> forall name description,
        exists msg,
          Geofence.update_details repr self name description
            (Some coordinates) now = Py.ValueError msg)
  /\ ((3 <= List.length coordinates)%nat -> Forall Ring.in_range coordinates ->
      exists g, set = Py.Ok g)
  /\ (forall g, set = Py.Ok g ->
        (3 <= List.length coordinates)%nat
        /\ Forall Ring.in_range coordinates
        /\ Geofence.boundary g
           = Geofence.ST_GeomFromText
               (Ring.polygon_text repr (Geofence.close_ring coordinates)) 4326
        /\ exists first,
             hd_error coordinates = Some first
             /\ hd_error (Geofence.close_ring coordinates) = Some first
             /\ Geofence.point_eqb first
                  (last (Geofence.close_ring coordinates) first) = true
             /\ (Geofence.point_eqb first (last coordinates first) = true ->
                 Geofence.close_ring coordinates = coordinates)
             /\ (Geofence.point_eqb first (last coordinates first) = false ->
                 Geofence.close_ring coordinates
                 = (coordinates ++ [first])%list)).
Proof.
  intros set invalid.
  assert (Hshort : (List.length coordinates < 3)%nat ->
            set = Py.ValueError "Geofence must have at least 3 coordinate points").
  { intro H. subst set. unfold Geofence.set_boundary_from_coordinates.
    apply Nat.ltb_lt in H. rewrite H. reflexivity. }
  assert (Hinvalid : invalid -> exists msg, set = Py.ValueError msg).
  { intros [H | (p & Hin & Hbad)].
    - eexists. apply Hshort, H.
    - subst set. unfold Geofence.set_boundary_from_coordinates.
      destruct (List.length coordinates <? 3)%nat; [eexists; reflexivity|].
      destruct (validate_points_outcome repr coordinates) as [E | [msg E]].
      + exfalso. apply Hbad.
        apply validate_points_sound in E.
        rewrite Forall_forall in E. apply E, Hin.
      + rewrite E. exists msg. reflexivity. }
  split; [exact Hshort|].
  split; [exact Hinvalid|].
  split.
  { intros Hinv name description is_active.
    destruct (Hinvalid Hinv) as [msg E]. subst set.
    unfold Geofence.__init__.
    destruct (Geofence.validate_name name) as [n|m|] eqn:En; cbn [Py.bind].
    - unfold Geofence.set_boundary_from_coordinates in E |- *.
      cbn [Geofence.name Geofence.is_active Geofence.description].
      destruct (List.length coordinates <? 3)%nat; [eexists; reflexivity|].
      destruct (Geofence.validate_points repr coordinates);
        cbn [Py.bind] in E |- *; try discriminate E; eexists; reflexivity.
    - eexists; reflexivity.
    - unfold Geofence.validate_name in En.
      destruct (_ || _); [discriminate|].
      destruct (_ <? _)%nat; discriminate. }
  split.
  { intros Hinv name description.
    destruct (Hinvalid Hinv) as [msg E]. subst set.
    unfold Geofence.update_details.
    assert (Hany : forall s, exists m,
              Geofence.set_boundary_from_coordinates repr s coordinates now
              = Py.ValueError m).
    { intro s. unfold Geofence.set_boundary_from_coordinates in E |- *.
      destruct (List.length coordinates <? 3)%nat; [eexists; reflexivity|].
      destruct (Geofence.validate_points repr coordinates);
        cbn [Py.bind] in E |- *; try discriminate E; eexists; reflexivity. }
    destruct name as [n|]; cbn [Py.bind].
    - destruct (Geofence.validate_name n) as [n'|m|] eqn:En; cbn [Py.bind].
      + match goal with
        | |- context [Geofence.set_boundary_from_coordinates repr ?s _ _] =>
            destruct (Hany s) as [m ->]
        end.
        eexists; reflexivity.
      + eexists; reflexivity.
      + unfold Geofence.validate_name in En.
        destruct (_ || _); [discriminate|].
        destruct (_ <? _)%nat; discriminate.
    - match goal with
      | |- context [Geofence.set_boundary_from_coordinates repr ?s _ _] =>
          destruct (Hany s) as [m ->]
      end.
      eexists; reflexivity. }
  split.
  { intros Hlen Hall. subst set.
    unfold Geofence.set_boundary_from_coordinates.
    destruct (Nat.ltb_spec (List.length coordinates) 3); [lia|].
    rewrite (validate_points_complete repr coordinates Hall).
    eexists; reflexivity. }
  intros g Hg. subst set.
  unfold Geofence.set_boundary_from_coordinates in Hg.
  destruct (Nat.ltb_spec (List.length coordinates) 3) as [|Hlen];
    [discriminate|].
  destruct (Geofence.validate_points repr coordinates) as [[]|m|] eqn:Ev;
    cbn [Py.bind] in Hg; try discriminate.
  injection Hg as <-.
  split; [exact Hlen|].
  split; [exact (validate_points_sound repr coordinates tt Ev)|].
  split; [reflexivity|].
  destruct coordinates as [|first rest]; [cbn in Hlen; lia|].
  exists first. split; [reflexivity|].
  destruct (close_ring_closed (first :: rest) first eq_refl) as [Hhd Hlast].
  split; [exact Hhd|]. split; [exact Hlast|].
  unfold Geofence.close_ring.
  split; intro E; rewrite E; reflexivity.
Qed.

Lemma boundary_validates_and_closes_ring_witness :
  exists g,
    Geofence.set_boundary_from_coordinates Ring.repr_whole Demo.paddock
      DemoRing.square 0 = Py.Ok g.
Proof.
  destruct (boundary_validates_and_closes_ring Ring.repr_whole Demo.paddock
              DemoRing.square 0) as (_ & _ & _ & _ & H & _).
  apply H.
  - cbn. lia.
  - unfold DemoRing.square.
    repeat (apply Forall_cons;
            [eexists _, _; split; [reflexivity|split; split; lra]|]).
    apply Forall_nil.
Defined.

(** ** Health status of a new animal *)


(** Updating refuses every value outside the enumeration. *)
Lemma update_health_status_rejects_unlisted
    (self : Cattle.Cattle) (new_status : string) (now : Z) :
  new_status <> HealthStatusEnum.SEHAT ->
  new_status <> HealthStatusEnum.PERLU_PERHATIAN ->
  new_status <> HealthStatusEnum.SAKIT ->
  exists msg,
    Cattle.update_health_status self new_status now = Py.ValueError msg.
Proof.
  intros H1 H2 H3. unfold Cattle.update_health_status. cbn [existsb].
  apply String.eqb_neq in H1, H2, H3. rewrite H1, H2, H3.
  eexists. reflexivity.
Qed.

(** ** Recovery of a point that left the boundary *)

Section ProbeFacts.

Import CattleSimulationService.

Variable math_cos math_sin : Q -> Q.
Variable math_pi : Q.
Variable ST_Within : Q -> Q -> string -> Py.query_result bool.

Lemma radius_pos (k : nat) : 0 < radius k.
Proof. induction k as [|k IH]; cbn [radius]; [reflexivity|lra]. Qed.

Lemma radius_mono (k k' : nat) : (k <= k')%nat -> radius k <= radius k'.
Proof.
  induction 1 as [|k' _ IH]; [lra|].
  cbn [radius]. pose proof (radius_pos k'). lra.
Qed.

Lemma radius_grows (k : nat) : 0.001 * (inject_Z (Z.of_nat k) + 1) <= radius k.
Proof.
  induction k as [|k IH]; cbn [radius].
  - change (inject_Z (Z.of_nat 0)) with 0. lra.
  - rewrite Nat2Z.inj_succ. unfold Z.succ. rewrite inject_Z_plus.
    change (inject_Z 1) with 1.
    assert (0 <= inject_Z (Z.of_nat k)).
    { change 0 with (inject_Z 0). rewrite <- Zle_Qle. lia. }
    lra.
Qed.

(** The cap is passed after [search_fuel] doublings. *)
Lemma search_fuel_enough (max_radius : Q) (fuel : nat) :
  (search_fuel max_radius <= fuel)%nat -> max_radius < radius fuel.
Proof.
  intro Hfuel.
  apply Qlt_le_trans with (radius (search_fuel max_radius));
    [|apply radius_mono, Hfuel].
  eapply Qlt_le_trans; [|apply radius_grows].
  unfold search_fuel. rewrite Nat2Z.inj_succ. unfold Z.succ.
  rewrite inject_Z_plus. change (inject_Z 1) with 1.
  pose proof (Qfloor_bounds (max_radius * 1000)) as [_ Hup].
  assert (Hz : inject_Z (Qfloor (max_radius * 1000))
               <= inject_Z (Z.of_nat (Z.to_nat (Qfloor (max_radius * 1000))))).
  { rewrite <- Zle_Qle. lia. }
  lra.
Qed.

Section Around.

Variable lng lat : Q.
Variable polygon_wkt : string.
Hypothesis quiet : never_raises ST_Within polygon_wkt.

Let probe := probe_point math_cos math_sin math_pi lng lat.
Let within := inside ST_Within polygon_wkt.

Lemma not_inside_iff (p : Q * Q) (v : option bool) :
  ST_Within (fst p) (snd p) polygon_wkt = Py.Scalar v ->
  Py.truthy v = false -> ~ within p.
Proof.
  intros E Hv (v' & E' & Hv'). rewrite E in E'. injection E' as <-.
  congruence.
Qed.

(** One sweep over the probes [a .. a + n - 1] of round [k]. *)
Lemma probe_circle_sweep (k n : nat) :
  forall a : nat,
    match probe_circle math_cos math_sin math_pi ST_Within lng lat
            polygon_wkt (radius k) (map Z.of_nat (seq a n)) with
    | Found x y =>
        exists i, (Z.of_nat a <= i < Z.of_nat (a + n))%Z
                  /\ (x, y) = probe k i
                  /\ within (probe k i)
                  /\ forall i', (Z.of_nat a <= i' < i)%Z ->
                                ~ within (probe k i')
    | NotFound =>
        forall i, (Z.of_nat a <= i < Z.of_nat (a + n))%Z ->
                  ~ within (probe k i)
    | QueryError => False
    end.
Proof.
  induction n as [|n IH]; intro a; cbn [seq map probe_circle].
  - intros i Hi. lia.
  - destruct (ST_Within (test_lng math_cos math_pi lng (radius k) (Z.of_nat a))
                (test_lat math_sin math_pi lat (radius k) (Z.of_nat a))
                polygon_wkt) as [|v] eqn:E.
    + exact (quiet _ _ E).
    + destruct (Py.truthy v) eqn:Hv.
      * exists (Z.of_nat a). split; [lia|]. split; [reflexivity|].
        split; [exists v; split; assumption|].
        intros i' Hi'. lia.
      * pose proof (not_inside_iff (probe k (Z.of_nat a)) v E Hv)
          as Hout.
        specialize (IH (S a)).
        destruct (probe_circle _ _ _ _ _ _ _ _ _) as [x y| |].
        -- destruct IH as (i & Hi & Hp & Hin & Hbefore).
           exists i. split; [lia|]. split; [exact Hp|]. split; [exact Hin|].
           intros i' Hi'.
           destruct (Z.eq_dec i' (Z.of_nat a)) as [->|Hne];
             [exact Hout|apply Hbefore; lia].
        -- intros i Hi.
           destruct (Z.eq_dec i (Z.of_nat a)) as [->|Hne];
             [exact Hout|apply IH; lia].
        -- exact IH.
Qed.

(** The whole search from round [k] on, given fuel that outlasts the
    cap. *)
Lemma search_rounds (max_radius : Q) (fuel : nat) :
  forall k : nat,
    max_radius < radius (k + fuel) ->
    exists outcome,
      search math_cos math_sin math_pi ST_Within fuel lng lat polygon_wkt
        max_radius (radius k) = Some outcome
      /\ match outcome with
         | Found x y =>
             exists k2 i,
               (k <= k2)%nat /\ (0 <= i < 16)%Z
               /\ radius k2 <= max_radius
               /\ (x, y) = probe k2 i
               /\ within (probe k2 i)
               /\ forall k' i',
                    (k <= k')%nat -> (0 <= i' < 16)%Z ->
                    earlier k' i' k2 i ->
                    ~ within (probe k' i')
         | NotFound =>
             forall k' i,
               (k <= k')%nat -> (0 <= i < 16)%Z ->
               radius k' <= max_radius ->
               ~ within (probe k' i)
         | QueryError => False
         end.
Proof.
  induction fuel as [|fuel IH]; intros k Hfuel; cbn [search].
  - rewrite Nat.add_0_r in Hfuel.
    destruct (Qle_bool (radius k) max_radius) eqn:E.
    { apply Qle_bool_iff in E. lra. }
    exists NotFound. split; [reflexivity|].
    intros k' i Hk _ Hr. pose proof (radius_mono k k' Hk). lra.
  - destruct (Qle_bool (radius k) max_radius) eqn:E.
    + apply Qle_bool_iff in E.
      pose proof (probe_circle_sweep k 16 0) as Hsweep.
      change (map Z.of_nat (seq 0 16)) with (Py.range 16) in Hsweep.
      destruct (probe_circle _ _ _ _ _ _ _ _ _) as [x y| |].
      * exists (Found x y). split; [reflexivity|].
        destruct Hsweep as (i & Hi & Hp & Hin & Hbefore).
        exists k, i. split; [lia|]. split; [lia|]. split; [exact E|].
        split; [exact Hp|]. split; [exact Hin|].
        intros k' i' Hk' Hi' [Hlt | [-> Hlt]]; [lia|].
        apply Hbefore. lia.
      * destruct (IH (S k)) as (outcome & Hs & Hspec).
        { replace (S k + fuel)%nat with (k + S fuel)%nat by lia.
          exact Hfuel. }
        cbn [radius] in Hs. exists outcome. split; [exact Hs|].
        destruct outcome as [x y| |]; [| |exact Hspec].
        -- destruct Hspec as (k2 & i & Hk2 & Hi & Hr & Hp & Hin & Hbefore).
           exists k2, i. split; [lia|]. split; [exact Hi|].
           split; [exact Hr|]. split; [exact Hp|]. split; [exact Hin|].
           intros k' i' Hk' Hi' Hearlier.
           destruct (Nat.eq_dec k' k) as [->|Hne].
           ++ apply Hsweep. lia.
           ++ apply Hbefore; [lia|exact Hi'|exact Hearlier].
        -- intros k' i Hk' Hi Hr.
           destruct (Nat.eq_dec k' k) as [->|Hne].
           ++ apply Hsweep. lia.
           ++ apply Hspec; [lia|exact Hi|exact Hr].
      * destruct Hsweep.
    + exists NotFound. split; [reflexivity|].
      intros k' i Hk _ Hr. pose proof (radius_mono k k' Hk).
      assert (~ radius k <= max_radius).
      { intro L. apply Qle_bool_iff in L. congruence. }
      lra.
Qed.

End Around.

End ProbeFacts.



(** A point 0.0003 degrees east of the square is pulled back by probe 5 of
    the first round; with the default drift of 50 m the cap lies under the
    first radius and the point is returned as it is. *)
Example probe_five_recovers :
  option_map (fun p => (Qred (fst p), Qred (snd p)))
    (CattleSimulationService._constrain_to_polygon DemoWalk.cos DemoWalk.sin
       DemoWalk.pi DemoWalk.in_square 2 (10003 # 10000) 0
       DemoWalk.square_wkt (18 # 10000))
  = Some (let p := probe_point DemoWalk.cos DemoWalk.sin DemoWalk.pi
                     (10003 # 10000) 0 0 5 in
          (Qred (fst p), Qred (snd p))).
Proof. vm_compute. reflexivity. Qed.

Example default_drift_never_probes :
  CattleSimulationService._constrain_to_polygon DemoWalk.cos DemoWalk.sin
    DemoWalk.pi DemoWalk.in_square 0 (10003 # 10000) 0
    DemoWalk.square_wkt (50 / 111000 * 2)
  = Some (10003 # 10000, 0).
Proof. vm_compute. reflexivity. Qed.

(** A sick animal 150 m out, and one needing attention 450 m out. *)
Example sick_at_150_is_high :
  GeofenceService._calculate_violation_severity 150 "Sakit" = "HIGH".
Proof. reflexivity. Qed.

Example attention_at_450_takes_1h_41m :
  GeofenceService._estimate_return_time
    (Spec.violation 450 Spec.NeedsAttention) = "1h 41m".
Proof. vm_compute. reflexivity. Qed.

(** * Further properties of the services *)

(** ** Severity as an order *)

(** X1. A longer distance never lowers the severity, whatever the health
    status text. *)
Theorem severity_monotone_in_distance (d1 d2 : Q) (health_status : string) :
  d1 <= d2 ->
  (severity_rank
     (GeofenceService._calculate_violation_severity d1 health_status)
   <= severity_rank
        (GeofenceService._calculate_violation_severity d2 health_status))%nat.
Proof.
  intro Hle. unfold GeofenceService._calculate_violation_severity.
  destruct (health_status =? "Sakit")%string;
    [|destruct (health_status =? "Perlu Perhatian")%string];
    case_Qlt; try lra; cbn; lia.
Qed.

Lemma severity_monotone_in_distance_witness :
  (severity_rank (GeofenceService._calculate_violation_severity 99 "Sakit")
   <= severity_rank
        (GeofenceService._calculate_violation_severity 100 "Sakit"))%nat.
Proof.
  apply (severity_monotone_in_distance 99 100 "Sakit"). lra.
Defined.

(** X2. The severity is always one of the four levels; a health status
    never lowers it below the level of a healthy animal at the same
    distance; and a status text other than Sakit and Perlu Perhatian is
    rated like a healthy animal. *)
Theorem severity_levels_and_escalation (d : Q) (health_status : string) :
  let level :=
    GeofenceService._calculate_violation_severity d health_status in
  let healthy :=
    GeofenceService._calculate_violation_severity d HealthStatusEnum.SEHAT in
  In level ["LOW"; "MEDIUM"; "HIGH"; "CRITICAL"]
  /\ (severity_rank healthy <= severity_rank level)%nat
  /\ (health_status <> HealthStatusEnum.SAKIT ->
      health_status <> HealthStatusEnum.PERLU_PERHATIAN ->
      level = healthy).
Proof.
  unfold GeofenceService._calculate_violation_severity,
    HealthStatusEnum.SEHAT, HealthStatusEnum.SAKIT,
    HealthStatusEnum.PERLU_PERHATIAN.
  destruct (String.eqb_spec health_status "Sakit") as [Es|Es];
    [|destruct (String.eqb_spec health_status "Perlu Perhatian") as [Ep|Ep]];
    case_Qlt; cbn; repeat split; try lia; try congruence; auto 10.
Qed.

Lemma severity_levels_and_escalation_witness :
  GeofenceService._calculate_violation_severity 700 "Bunting"
  = GeofenceService._calculate_violation_severity 700 HealthStatusEnum.SEHAT.
Proof.
  apply (severity_levels_and_escalation 700 "Bunting"); discriminate.
Defined.

(** ** Return time and plan, for any dictionary *)

(** X3. Whatever keys the dictionary holds, the estimate lies between 10
    and 240 minutes; it never shrinks when the distance grows; and at one
    distance [d >= 0] a healthy animal is never estimated later than one
    needing attention, nor that one later than a sick one. *)
Theorem return_time_bounded_and_monotone :
  (forall vd, 10 <= GeofenceService.base_time_minutes vd
              /\ GeofenceService.base_time_minutes vd <= 240)
  /\ (forall (sev hs : option string) (d1 d2 : Q),
        d1 <= d2 ->
        GeofenceService.base_time_minutes
          {| GeofenceService.severity := sev;
             GeofenceService.health_status := hs;
             GeofenceService.violation_distance_meters := Some d1 |}
        <= GeofenceService.base_time_minutes
             {| GeofenceService.severity := sev;
                GeofenceService.health_status := hs;
                GeofenceService.violation_distance_meters := Some d2 |})
  /\ (forall d : Q,
        0 <= d ->
        GeofenceService.base_time_minutes (Spec.violation d Spec.Healthy)
        <= GeofenceService.base_time_minutes
             (Spec.violation d Spec.NeedsAttention)
        /\ GeofenceService.base_time_minutes
             (Spec.violation d Spec.NeedsAttention)
           <= GeofenceService.base_time_minutes (Spec.violation d Spec.Sick)).
Proof.
  split; [|split].
  - intro vd. unfold GeofenceService.base_time_minutes, Py.min, Py.max.
    case_Qlt; lra.
  - intros sev hs d1 d2 Hle.
    unfold GeofenceService.base_time_minutes, GeofenceService.get, Py.min,
      Py.max;
      cbn [GeofenceService.health_status
             GeofenceService.violation_distance_meters].
    assert (Hdiv : d1 / 100 <= d2 / 100).
    { unfold Qdiv. apply Qmult_le_compat_r; [exact Hle|discriminate]. }
    destruct hs as [h|];
      [destruct (h =? "Sakit")%string;
       [|destruct (h =? "Perlu Perhatian")%string]|];
      cbn -[Qmult Qdiv Qle Qlt Py.Qlt_bool]; case_Qlt; lra.
  - intros d Hd.
    unfold GeofenceService.base_time_minutes, GeofenceService.get, Py.min,
      Py.max, Spec.violation;
      cbn [GeofenceService.health_status
             GeofenceService.violation_distance_meters Spec.health_value].
    assert (Hdiv : 0 <= d / 100).
    { unfold Qdiv. apply Qmult_le_0_compat; [exact Hd|discriminate]. }
    cbn -[Qmult Qdiv Qle Qlt Py.Qlt_bool]; split; case_Qlt; lra.
Qed.

Lemma return_time_bounded_and_monotone_witness :
  GeofenceService.base_time_minutes (Spec.violation 300 Spec.Healthy)
  <= GeofenceService.base_time_minutes (Spec.violation 300 Spec.NeedsAttention)
  /\ GeofenceService.base_time_minutes (Spec.violation 300 Spec.NeedsAttention)
     <= GeofenceService.base_time_minutes (Spec.violation 300 Spec.Sick).
Proof.
  apply (proj2 (proj2 return_time_bounded_and_monotone) 300). lra.
Defined.

(** X4. Whatever keys the dictionary holds, the plan lists between 3 and 7
    actions, none of them twice, and when both the health status and the
    distance are absent it is the plan of a healthy animal at distance 0. *)
Theorem required_actions_shape (vd : GeofenceService.violation_data) :
  let plan := GeofenceService._get_required_actions vd in
  NoDup plan
  /\ (3 <= List.length plan <= 7)%nat
  /\ (GeofenceService.health_status vd = None ->
      GeofenceService.violation_distance_meters vd = None ->
      plan = [Actions.locate; Actions.check_injuries; Actions.guide_back]).
Proof.
  destruct vd as [sev hs d].
  unfold GeofenceService._get_required_actions, GeofenceService.get;
    cbn [GeofenceService.health_status
           GeofenceService.violation_distance_meters].
  destruct hs as [h|];
    [destruct (h =? "Sakit")%string;
     [|destruct (h =? "Perlu Perhatian")%string]|];
    (destruct d as [d|]; [case_Qlt|]);
    cbn; (split; [|split; [lia|intros; try discriminate; try reflexivity]]);
    repeat (constructor; [cbn; intuition discriminate|]); constructor.
Qed.

Lemma required_actions_shape_witness :
  GeofenceService._get_required_actions
    {| GeofenceService.severity := None;
       GeofenceService.health_status := None;
       GeofenceService.violation_distance_meters := None |}
  = [Actions.locate; Actions.check_injuries; Actions.guide_back].
Proof.
  apply (required_actions_shape
           {| GeofenceService.severity := None;
              GeofenceService.health_status := None;
              GeofenceService.violation_distance_meters := None |});
    reflexivity.
Defined.

(** ** Violation detection *)

Section DetectionFacts.

Variable cattle_table : list (uuid * Cattle.Cattle).
Variable geofence_table : list (uuid * Geofence.Geofence).
Variable ST_Within : point -> Geofence.geometry -> Py.query_result bool.
Variable ST_Distance : point -> Geofence.geometry -> Py.query_result Q.
Variable utcnow : nat -> Z.

Let detect_loop :=
  GeofenceService.detect_loop ST_Within ST_Distance utcnow.

(** What one run of the loop over [all_cattle] adds to the violations. *)
Lemma detect_loop_adds (geofence_id : uuid) (geofence : Geofence.Geofence)
    (all_cattle : list (uuid * Cattle.Cattle)) :
  forall violations ticks,
  exists new,
    detect_loop geofence_id geofence all_cattle violations ticks
    = ((violations ++ new)%list, (ticks + List.length new)%nat)
    /\ Forall (reports_outside_animal ST_Within all_cattle geofence_id geofence)
         new
    /\ (List.length new <= List.length all_cattle)%nat
    /\ ((forall loc, ST_Distance loc (Geofence.boundary geofence)
                     <> Py.Raised) ->
        map GeofenceService.v_cattle_id new
        = map fst (filter (outside_geofence ST_Within geofence) all_cattle)).
Proof.
  induction all_cattle as [|row rest IH]; intros violations ticks.
  - exists []. cbn. rewrite app_nil_r, Nat.add_0_r. repeat split; constructor.
  - assert (Hweak : forall new,
              Forall (reports_outside_animal ST_Within rest geofence_id geofence)
                new ->
              Forall (reports_outside_animal ST_Within (row :: rest)
                        geofence_id geofence) new).
    { intros new H. eapply Forall_impl; [|exact H].
      intros v (H1 & H2 & H3 & c & Hin & Hrest).
      repeat (split; [assumption|]). exists c. split; [right; exact Hin|].
      exact Hrest. }
    assert (Hskip : outside_geofence ST_Within geofence row = false ->
              exists new,
                detect_loop geofence_id geofence rest violations ticks
                = ((violations ++ new)%list, (ticks + List.length new)%nat)
                /\ Forall (reports_outside_animal ST_Within (row :: rest)
                             geofence_id geofence) new
                /\ (List.length new <= List.length (row :: rest))%nat
                /\ ((forall loc, ST_Distance loc (Geofence.boundary geofence)
                                 <> Py.Raised) ->
                    map GeofenceService.v_cattle_id new
                    = map fst (filter (outside_geofence ST_Within geofence)
                                 (row :: rest)))).
    { intro Hout. destruct (IH violations ticks) as (new & E & Hall & Hlen & Hmap).
      exists new. split; [exact E|]. split; [apply Hweak, Hall|].
      split; [cbn; lia|]. intro Hq. cbn [filter]. rewrite Hout.
      apply Hmap, Hq. }
    unfold detect_loop in *. cbn [GeofenceService.detect_loop].
    unfold outside_geofence in Hskip.
    destruct row as [key cattle]. cbn [fst snd] in *.
    destruct (Cattle.location cattle) as [loc|] eqn:Eloc;
      [|apply Hskip; reflexivity].
    destruct (ST_Within loc (Geofence.boundary geofence)) as [|w] eqn:Ew;
      [apply Hskip; reflexivity|].
    destruct (Py.truthy w) eqn:Hw; cbn [negb] in *;
      [apply Hskip; reflexivity|].
    clear Hskip.
    destruct (ST_Distance loc (Geofence.boundary geofence)) as [|dd] eqn:Ed.
    + destruct (IH violations ticks) as (new & E & Hall & Hlen & Hmap).
      exists new. split; [exact E|]. split; [apply Hweak, Hall|].
      split; [cbn; lia|]. intro Hq. destruct (Hq loc Ed).
    + match goal with
      | |- context [(violations ++ [?v])%list] => set (entry := v)
      end.
      destruct (IH (violations ++ [entry])%list (S ticks))
        as (new & E & Hall & Hlen & Hmap).
      exists (entry :: new). rewrite E.
      split.
      { rewrite <- app_assoc. cbn [app List.length]. f_equal. lia. }
      split.
      { constructor; [|apply Hweak, Hall].
        subst entry. unfold reports_outside_animal; cbn.
        repeat (split; [reflexivity|]).
        exists cattle. split; [left; reflexivity|].
        split.
        - unfold outside_geofence; cbn. rewrite Eloc, Ew, Hw. reflexivity.
        - unfold Cattle.get_coordinates. repeat split; reflexivity. }
      split; [cbn; lia|].
      intro Hq. cbn [filter map].
      unfold outside_geofence at 1; cbn [snd]. rewrite Eloc, Ew, Hw.
      cbn [negb map fst]. f_equal. apply Hmap, Hq.
Qed.

End DetectionFacts.

Section DetectionTheorems.

Variable cattle_table : list (uuid * Cattle.Cattle).
Variable geofence_table : list (uuid * Geofence.Geofence).
Variable ST_Within : point -> Geofence.geometry -> Py.query_result bool.
Variable ST_Distance : point -> Geofence.geometry -> Py.query_result Q.
Variable utcnow : nat -> Z.

Let detect_violations :=
  GeofenceService.detect_violations
    cattle_table geofence_table ST_Within ST_Distance utcnow.
Let detect_all_violations :=
  GeofenceService.detect_all_violations
    cattle_table geofence_table ST_Within ST_Distance utcnow.

(** A violation that was detected for [geofence_id] reports an animal
    found outside that geofence, which is active. *)
Lemma detected_reports_outside (geofence_id : uuid) (ticks : nat)
    (v : GeofenceService.detected_violation) :
  In v (fst (detect_violations geofence_id ticks)) ->
  exists geofence,
    GeofenceService.first_by_id geofence_table geofence_id = Some geofence
    /\ Geofence.is_active geofence = true
    /\ reports_outside_animal ST_Within cattle_table geofence_id geofence v.
Proof.
  unfold detect_violations, GeofenceService.detect_violations.
  destruct (GeofenceService.first_by_id geofence_table geofence_id)
    as [geofence|]; [|intros []].
  destruct (Geofence.is_active geofence) eqn:Ea; cbn [negb]; [|intros []].
  destruct (detect_loop_adds ST_Within ST_Distance utcnow geofence_id geofence
              cattle_table [] ticks) as (new & E & Hall & _).
  rewrite E. cbn [fst app]. intro Hin.
  exists geofence. split; [reflexivity|]. split; [exact Ea|].
  rewrite Forall_forall in Hall. apply Hall, Hin.
Qed.

(** Every violation detected for [geofence_id] carries that id, and each
    one costs a clock reading. *)
Lemma detect_violations_ids (geofence_id : uuid) (ticks : nat) :
  Forall (fun v => GeofenceService.v_geofence_id v = geofence_id)
    (fst (detect_violations geofence_id ticks))
  /\ snd (detect_violations geofence_id ticks)
     = (ticks + List.length (fst (detect_violations geofence_id ticks)))%nat.
Proof.
  split.
  - apply Forall_forall. intros v Hin.
    destruct (detected_reports_outside geofence_id ticks v Hin)
      as (geofence & _ & _ & Hid & _). exact Hid.
  - unfold detect_violations, GeofenceService.detect_violations.
    destruct (GeofenceService.first_by_id geofence_table geofence_id)
      as [geofence|]; [|cbn; lia].
    destruct (Geofence.is_active geofence); cbn [negb]; [|cbn; lia].
    destruct (detect_loop_adds ST_Within ST_Distance utcnow geofence_id
                geofence cattle_table [] ticks) as (new & E & _).
    rewrite E. reflexivity.
Qed.


(** X6. The alert built for a detected violation agrees with its
    severity: a plan that deploys the search team belongs to a CRITICAL
    violation, a plan that sends a ranch hand to a HIGH or CRITICAL one,
    a LOW violation is always answered by guiding the animal back, and the
    alert of a sick animal opens with the urgent line. *)
Theorem alert_plan_agrees_with_severity
    (geofence_id : uuid) (ticks : nat) (alert_id : uuid) (now : Z)
    (v : GeofenceService.detected_violation) :
  In v (fst (detect_violations geofence_id ticks)) ->
  let alert :=
    GeofenceService.create_violation_alert alert_id now
      (GeofenceService.v_cattle_id v) v in
  let plan := GeofenceService.actions_required alert in
  (In Actions.search_team plan -> GeofenceService.v_severity v = "CRITICAL")
  /\ (In Actions.send_handler plan ->
      GeofenceService.v_severity v = "HIGH"
      \/ GeofenceService.v_severity v = "CRITICAL")
  /\ (GeofenceService.v_severity v = "LOW" -> In Actions.guide_back plan)
  /\ (GeofenceService.v_health_status v = HealthStatusEnum.SAKIT ->
      hd_error plan = Some Actions.urgent)
  /\ GeofenceService.alert_cattle alert = v.
Proof.
  intro Hin.
  destruct (detected_reports_outside geofence_id ticks v Hin)
    as (geofence & _ & _ & _ & _ & _ & cattle & _ & _ & _ & Hh & _ & Hsev).
  cbn zeta.
  unfold GeofenceService.create_violation_alert;
    cbn [GeofenceService.actions_required GeofenceService.alert_cattle].
  rewrite Hsev, <- Hh.
  unfold GeofenceService._get_required_actions,
    GeofenceService.violation_data_of, GeofenceService.get,
    GeofenceService._calculate_violation_severity, HealthStatusEnum.SAKIT;
    cbn [GeofenceService.health_status
           GeofenceService.violation_distance_meters].
  destruct (String.eqb_spec (GeofenceService.v_health_status v) "Sakit")
    as [Es|Es];
    [|destruct (String.eqb_spec (GeofenceService.v_health_status v)
                  "Perlu Perhatian") as [Ep|Ep]];
    case_Qlt; try lra; cbn;
    repeat split; intros; try reflexivity; try congruence;
    try discriminate; auto 10;
    repeat match goal with
    | H : _ \/ _ |- _ => destruct H
    | H : False |- _ => destruct H
    | H : @eq string _ _ |- _ => discriminate H
    end.
Qed.

(** What the loop over the geofences adds. *)
Lemma detect_all_loop_adds (geofences : list (uuid * Geofence.Geofence)) :
  forall all_violations ticks,
  exists new,
    GeofenceService.detect_all_loop cattle_table geofence_table
      ST_Within ST_Distance utcnow geofences all_violations ticks
    = ((all_violations ++ new)%list, (ticks + List.length new)%nat)
    /\ Forall (fun v => In (GeofenceService.v_geofence_id v)
                          (map fst geofences)) new.
Proof.
  induction geofences as [|row rest IH]; intros all_violations ticks.
  - exists []. cbn. rewrite app_nil_r, Nat.add_0_r. split; constructor.
  - cbn [GeofenceService.detect_all_loop].
    pose proof (detect_violations_ids (fst row) ticks) as Hone.
    unfold detect_violations in Hone.
    destruct (GeofenceService.detect_violations cattle_table geofence_table
                ST_Within ST_Distance utcnow (fst row) ticks)
      as [found ticks'] eqn:E.
    cbn [fst snd] in Hone. destruct Hone as (Hids & Hticks).
    destruct (IH (all_violations ++ found)%list ticks') as (new & E' & Hall).
    exists (found ++ new)%list. rewrite E'.
    split.
    + rewrite app_assoc, length_app. f_equal. lia.
    + apply Forall_app. split.
      * eapply Forall_impl; [|exact Hids].
        intros v Hv. left. symmetry. exact Hv.
      * eapply Forall_impl; [|exact Hall].
        intros v Hv. right. exact Hv.
Qed.

(** X7. A full pass reports only violations of active geofences, costs one
    clock reading per violation, and reports nothing when no geofence is
    active. *)
Theorem detect_all_violations_of_active_geofences (ticks : nat) :
  let result := detect_all_violations ticks in
  Forall (fun v =>
            In (GeofenceService.v_geofence_id v)
               (map fst (GeofenceService.active_geofences geofence_table)))
    (fst result)
  /\ snd result = (ticks + List.length (fst result))%nat
  /\ (GeofenceService.active_geofences geofence_table = [] ->
      result = ([], ticks)).
Proof.
  unfold detect_all_violations, GeofenceService.detect_all_violations.
  destruct (detect_all_loop_adds
              (GeofenceService.active_geofences geofence_table) [] ticks)
    as (new & E & Hall).
  cbn zeta. rewrite E. cbn [fst snd app].
  split; [exact Hall|]. split; [reflexivity|].
  intro Hnone. rewrite Hnone in E. cbn in E.
  injection E as <- _. cbn. rewrite Nat.add_0_r. reflexivity.
Qed.

End DetectionTheorems.


Lemma alert_plan_agrees_with_severity_witness :
  let alert :=
    GeofenceService.create_violation_alert 99%Z 0%Z 1%Z
      DemoDetection.reported in
  In Actions.search_team (GeofenceService.actions_required alert)
  /\ GeofenceService.v_severity DemoDetection.reported = "CRITICAL".
Proof.
  destruct (alert_plan_agrees_with_severity
              [(1%Z, Demo.sick_cow)] [(7%Z, Demo.paddock)]
              Demo.outside Demo.hundredth DemoHistory.clock 7%Z 0%nat 99%Z 0%Z
              DemoDetection.reported) as (H & _).
  - vm_compute. left. reflexivity.
  - assert (Hin : In Actions.search_team
                    (GeofenceService.actions_required
                       (GeofenceService.create_violation_alert 99%Z 0%Z 1%Z
                          DemoDetection.reported))).
    { vm_compute. auto 10. }
    split; [exact Hin|exact (H Hin)].
Defined.

Lemma detect_all_violations_of_active_geofences_witness :
  GeofenceService.detect_all_violations
    [(1%Z, Demo.sick_cow)]
    [(7%Z, GeofenceService.deactivate 0%Z Demo.paddock)]
    Demo.outside Demo.hundredth DemoHistory.clock 0%nat
  = ([], 0%nat).
Proof.
  apply (detect_all_violations_of_active_geofences
           [(1%Z, Demo.sick_cow)]
           [(7%Z, GeofenceService.deactivate 0%Z Demo.paddock)]
           Demo.outside Demo.hundredth DemoHistory.clock 0%nat).
  reflexivity.
Defined.

(** ** Switching geofences off and on *)

Lemma first_by_id_update_same (table : list (uuid * Geofence.Geofence))
    (key : uuid) (f : Geofence.Geofence -> Geofence.Geofence) :
  GeofenceService.first_by_id (GeofenceService.update_first table key f) key
  = option_map f (GeofenceService.first_by_id table key).
Proof.
  unfold GeofenceService.first_by_id.
  induction table as [|row rest IH]; [reflexivity|].
  simpl. unfold uuid in *.
  destruct (fst row =? key)%Z eqn:E; simpl; rewrite ?E.
  - reflexivity.
  - exact IH.
Qed.

Lemma first_by_id_update_other (table : list (uuid * Geofence.Geofence))
    (key other : uuid) (f : Geofence.Geofence -> Geofence.Geofence) :
  other <> key ->
  GeofenceService.first_by_id (GeofenceService.update_first table key f) other
  = GeofenceService.first_by_id table other.
Proof.
  intro Hne. unfold GeofenceService.first_by_id.
  induction table as [|row rest IH]; [reflexivity|].
  simpl. unfold uuid in *.
  destruct (Z.eqb_spec (fst row) key) as [E|E]; simpl.
  - destruct (Z.eqb_spec (fst row) other) as [E'|E']; [congruence|].
    reflexivity.
  - destruct (fst row =? other)%Z; [reflexivity|exact IH].
Qed.

(** X8. Deactivating a geofence answers [True] exactly when the id is
    known and leaves the table alone otherwise; afterwards no violation is
    detected for that id, whatever the animals do, and every other id still
    finds the geofence it found before; activating it again makes it active
    with name, boundary and description as they were. *)
Theorem deactivate_geofence_silences_detection
    (cattle_table : list (uuid * Cattle.Cattle))
    (geofence_table : list (uuid * Geofence.Geofence))
    (ST_Within : point -> Geofence.geometry -> Py.query_result bool)
    (ST_Distance : point -> Geofence.geometry -> Py.query_result Q)
    (utcnow : nat -> Z) (now later : Z) (geofence_id : uuid) (ticks : nat) :
  let before := GeofenceService.first_by_id geofence_table geofence_id in
  let off :=
    GeofenceService.deactivate_geofence geofence_table now geofence_id in
  let on_again :=
    GeofenceService.activate_geofence (snd off) later geofence_id in
  (fst off = true <-> before <> None)
  /\ (fst off = false -> snd off = geofence_table)
  /\ GeofenceService.detect_violations cattle_table (snd off)
       ST_Within ST_Distance utcnow geofence_id ticks = ([], ticks)
  /\ (forall other, other <> geofence_id ->
        GeofenceService.first_by_id (snd off) other
        = GeofenceService.first_by_id geofence_table other)
  /\ fst on_again = fst off
  /\ GeofenceService.first_by_id (snd on_again) geofence_id
     = option_map (fun g => {| Geofence.name := Geofence.name g;
                               Geofence.boundary := Geofence.boundary g;
                               Geofence.is_active := true;
                               Geofence.description := Geofence.description g;
                               Geofence.updated_at := later |}) before.
Proof.
  cbn zeta.
  unfold GeofenceService.deactivate_geofence, GeofenceService.activate_geofence.
  destruct (GeofenceService.first_by_id geofence_table geofence_id)
    as [g|] eqn:E; cbn [fst snd].
  - rewrite first_by_id_update_same, E. cbn [option_map fst snd].
    split; [split; [discriminate|reflexivity]|].
    split; [discriminate|].
    split.
    { unfold GeofenceService.detect_violations.
      rewrite first_by_id_update_same, E. reflexivity. }
    split; [intros other Hne; apply first_by_id_update_other, Hne|].
    split; [reflexivity|].
    rewrite !first_by_id_update_same, E. reflexivity.
  - rewrite E. cbn [fst snd].
    split; [split; [discriminate|congruence]|].
    split; [reflexivity|].
    split.
    { unfold GeofenceService.detect_violations. rewrite E. reflexivity. }
    split; [reflexivity|].
    split; [reflexivity|]. rewrite E. reflexivity.
Qed.

Lemma deactivate_geofence_silences_detection_witness :
  GeofenceService.first_by_id
    (snd (GeofenceService.deactivate_geofence
            [(7%Z, Demo.paddock); (8%Z, Demo.paddock)] 5%Z 7%Z)) 8%Z
  = Some Demo.paddock.
Proof.
  destruct (deactivate_geofence_silences_detection
              [(1%Z, Demo.sick_cow)]
              [(7%Z, Demo.paddock); (8%Z, Demo.paddock)]
              Demo.outside Demo.hundredth DemoHistory.clock 5%Z 6%Z 7%Z 0%nat)
    as (_ & _ & _ & H & _).
  rewrite (H 8%Z); [reflexivity|discriminate].
Defined.

(** ** The status report of one animal *)

Section StatusReportFacts.

Variable ST_Within : point -> Geofence.geometry -> Py.query_result bool.
Variable ST_Distance : point -> Geofence.geometry -> Py.query_result Q.

(** What the loop over the geofences adds to the statuses, and how the
    within flag ends up. *)
Lemma check_all_adds (cattle : Cattle.Cattle) (loc : point)
    (geofences : list (uuid * Geofence.Geofence)) :
  forall statuses within_any,
  exists new,
    GeofenceService.check_all ST_Within ST_Distance cattle loc geofences
      statuses within_any
    = ((statuses ++ new)%list,
       within_any || existsb GeofenceService.is_within new)
    /\ (List.length new <= List.length geofences)%nat
    /\ Forall (fun gs =>
                 In (GeofenceService.geofence_id gs) (map fst geofences)
                 /\ (GeofenceService.is_within gs = true ->
                     GeofenceService.violation gs = false
                     /\ GeofenceService.distance_meters gs = 0
                     /\ GeofenceService.status_severity gs = None)
                 /\ (GeofenceService.is_within gs = false ->
                     GeofenceService.violation gs = true
                     /\ GeofenceService.status_severity gs
                        = Some (GeofenceService._calculate_violation_severity
                                  (GeofenceService.distance_meters gs)
                                  (Cattle.health_status cattle)))) new.
Proof.
  induction geofences as [|row rest IH]; intros statuses within_any.
  - exists []. cbn. rewrite app_nil_r, orb_false_r.
    repeat split; constructor.
  - cbn [GeofenceService.check_all].
    assert (Hweak : forall P : GeofenceService.geofence_status -> Prop,
              forall new,
                Forall (fun gs =>
                          In (GeofenceService.geofence_id gs) (map fst rest)
                          /\ P gs) new ->
                Forall (fun gs =>
                          In (GeofenceService.geofence_id gs)
                             (map fst (row :: rest))
                          /\ P gs) new).
    { intros P new H. eapply Forall_impl; [|exact H].
      intros gs [Hin HP]. split; [right; exact Hin|exact HP]. }
    destruct (GeofenceService.check_geofence ST_Within ST_Distance cattle loc
                row) as [gs|] eqn:E.
    + destruct (IH (statuses ++ [gs])%list
                  (if GeofenceService.is_within gs then true else within_any))
        as (new & E' & Hlen & Hall).
      exists (gs :: new). rewrite E'.
      split.
      { rewrite <- app_assoc. cbn [app existsb]. f_equal.
        destruct (GeofenceService.is_within gs), within_any; reflexivity. }
      split; [cbn; lia|].
      constructor; [|apply Hweak, Hall].
      unfold GeofenceService.check_geofence in E.
      destruct (ST_Within loc _) as [|w]; [discriminate|].
      destruct (Py.truthy w); cbn [negb] in E.
      * injection E as <-. cbn. repeat split; auto; discriminate.
      * destruct (ST_Distance loc _) as [|dd]; [discriminate|].
        cbn in E. injection E as <-. cbn.
        repeat split; auto; discriminate.
    + destruct (IH statuses within_any) as (new & E' & Hlen & Hall).
      exists new. rewrite E'. split; [reflexivity|].
      split; [cbn; lia|]. apply Hweak, Hall.
Qed.

End StatusReportFacts.



(** ** Statistics of one geofence *)

Section StatisticsFacts.

Variable ST_Within : point -> Geofence.geometry -> Py.query_result bool.
Variable ST_Distance : point -> Geofence.geometry -> Py.query_result Q.

(** What the counting loop adds to its three accumulators. *)
Lemma count_cattle_adds (geofence : Geofence.Geofence)
    (all_cattle : list (uuid * Cattle.Cattle)) :
  forall within_count outside_count cattle_details,
  exists a b new,
    GeofenceService.count_cattle ST_Within ST_Distance geofence all_cattle
      within_count outside_count cattle_details
    = ((within_count + a)%Z, (outside_count + b)%Z,
       (cattle_details ++ new)%list)
    /\ (0 <= a)%Z /\ (0 <= b)%Z
    /\ (a + b <= Z.of_nat (List.length (filter located all_cattle)))%Z
    /\ (Z.of_nat (List.length new) <= a + b)%Z
    /\ ((forall loc,
           ST_Within loc (Geofence.boundary geofence) <> Py.Raised
           /\ ST_Distance loc (Geofence.boundary geofence) <> Py.Raised) ->
        b = Z.of_nat (List.length
                        (filter (outside_geofence ST_Within geofence)
                           all_cattle))
        /\ (a + b = Z.of_nat (List.length (filter located all_cattle)))%Z
        /\ (Z.of_nat (List.length new) = a + b)%Z).
Proof.
  induction all_cattle as [|row rest IH];
    intros within_count outside_count cattle_details.
  - exists 0%Z, 0%Z, []. cbn. rewrite !Z.add_0_r, app_nil_r.
    repeat split; lia.
  - cbn [GeofenceService.count_cattle filter].
    pose proof (eq_refl (located row)) as Hl.
    pose proof (eq_refl (outside_geofence ST_Within geofence row)) as Ho.
    unfold located at 1 in Hl. unfold outside_geofence at 1 in Ho.
    destruct (Cattle.location (snd row)) as [loc|] eqn:Eloc.
    + rewrite <- Hl. cbn [List.length].
      destruct (ST_Within loc (Geofence.boundary geofence)) as [|w] eqn:Ew.
      * exists 0%Z, 0%Z, []. rewrite !Z.add_0_r, app_nil_r.
        split; [reflexivity|]. cbn [List.length].
        split; [lia|]. split; [lia|]. split; [lia|]. split; [lia|].
        intro H. destruct (proj1 (H loc) Ew).
      * destruct (Py.truthy w) eqn:Hw; cbn [negb] in Ho |- *; rewrite <- Ho.
        -- match goal with
           | |- context [(cattle_details ++ [?d])%list] => set (entry := d)
           end.
           destruct (IH (within_count + 1)%Z outside_count
                       (cattle_details ++ [entry])%list)
             as (a & b & new & E & Ha & Hb & Hsum & Hnew & Hquiet).
           exists (1 + a)%Z, b, (entry :: new). rewrite E.
           split; [rewrite <- app_assoc; f_equal; f_equal; lia|].
           cbn [List.length].
           split; [lia|]. split; [lia|]. split; [lia|]. split; [lia|].
           intro H. destruct (Hquiet H) as (H1 & H2 & H3).
           repeat split; lia.
        -- destruct (ST_Distance loc (Geofence.boundary geofence))
             as [|dd] eqn:Ed.
           ++ exists 0%Z, 1%Z, []. rewrite !Z.add_0_r, app_nil_r.
              split; [reflexivity|]. cbn [List.length].
              split; [lia|]. split; [lia|]. split; [lia|]. split; [lia|].
              intro H. destruct (proj2 (H loc) Ed).
           ++ match goal with
              | |- context [(cattle_details ++ [?d])%list] => set (entry := d)
              end.
              destruct (IH within_count (outside_count + 1)%Z
                          (cattle_details ++ [entry])%list)
                as (a & b & new & E & Ha & Hb & Hsum & Hnew & Hquiet).
              exists a, (1 + b)%Z, (entry :: new). rewrite E.
              split; [rewrite <- app_assoc; f_equal; f_equal; lia|].
              cbn [List.length].
              split; [lia|]. split; [lia|]. split; [lia|]. split; [lia|].
              intro H. destruct (Hquiet H) as (H1 & H2 & H3).
              repeat split; lia.
    + rewrite <- Hl, <- Ho.
      destruct (IH within_count outside_count cattle_details)
        as (a & b & new & E & Hrest).
      exists a, b, new. split; [exact E|exact Hrest].
Qed.

End StatisticsFacts.

Lemma percentage_in_range (a total : Z) :
  (0 <= a <= total)%Z -> (0 < total)%Z ->
  0 <= inject_Z a / inject_Z total * 100
  /\ inject_Z a / inject_Z total * 100 <= 100.
Proof.
  intros Ha Ht.
  assert (Hpos : 0 < inject_Z total).
  { change 0 with (inject_Z 0). rewrite <- Zlt_Qlt. exact Ht. }
  assert (H0 : 0 <= inject_Z a).
  { change 0 with (inject_Z 0). rewrite <- Zle_Qle. lia. }
  assert (Hle : inject_Z a <= inject_Z total).
  { rewrite <- Zle_Qle. lia. }
  assert (Hq0 : 0 <= inject_Z a / inject_Z total).
  { apply Qle_shift_div_l; [exact Hpos|]. lra. }
  assert (Hq1 : inject_Z a / inject_Z total <= 1).
  { apply Qle_shift_div_r; [exact Hpos|]. lra. }
  lra.
Qed.

(** X10. An unknown geofence gets the 'not found' answer. Otherwise the
    total is the sum of the animals counted within and outside, no count is
    negative, the total never exceeds the number of animals that have a
    location, there are at most as many detail entries as animals counted,
    the compliance rate lies between 0 and 100 and the density is not
    negative; and when no spatial query raises, every located animal is
    counted and detailed, the outside count being the number of animals
    found outside. *)
Theorem geofence_statistics_counts
    (cattle_table : list (uuid * Cattle.Cattle))
    (geofence_table : list (uuid * Geofence.Geofence))
    (ST_Within : point -> Geofence.geometry -> Py.query_result bool)
    (ST_Distance : point -> Geofence.geometry -> Py.query_result Q)
    (get_area_kilometers_squared get_perimeter_meters
       : Geofence.Geofence -> option Q)
    (get_centroid : Geofence.Geofence -> option point)
    (geofence_id : uuid) :
  let answer :=
    GeofenceService.get_geofence_statistics cattle_table geofence_table
      ST_Within ST_Distance get_area_kilometers_squared get_perimeter_meters
      get_centroid geofence_id in
  let located_count :=
    Z.of_nat (List.length (filter located cattle_table)) in
  match GeofenceService.first_by_id geofence_table geofence_id with
  | None => answer = None
  | Some geofence =>
      exists stats details,
        answer = Some (geofence, stats, details)
        /\ GeofenceService.total_cattle stats
           = (GeofenceService.cattle_within stats
              + GeofenceService.cattle_outside stats)%Z
        /\ (0 <= GeofenceService.cattle_within stats)%Z
        /\ (0 <= GeofenceService.cattle_outside stats)%Z
        /\ (GeofenceService.total_cattle stats <= located_count)%Z
        /\ (Z.of_nat (List.length details)
            <= GeofenceService.total_cattle stats)%Z
        /\ (0 <= GeofenceService.compliance_rate stats
            /\ GeofenceService.compliance_rate stats <= 100)
        /\ 0 <= GeofenceService.cattle_density_per_km2 stats
        /\ ((forall loc,
               ST_Within loc (Geofence.boundary geofence) <> Py.Raised
               /\ ST_Distance loc (Geofence.boundary geofence) <> Py.Raised) ->
            GeofenceService.cattle_outside stats
            = Z.of_nat (List.length
                          (filter (outside_geofence ST_Within geofence)
                             cattle_table))
            /\ GeofenceService.total_cattle stats = located_count
            /\ Z.of_nat (List.length details)
               = GeofenceService.total_cattle stats)
  end.
Proof.
  cbn zeta. unfold GeofenceService.get_geofence_statistics.
  destruct (GeofenceService.first_by_id geofence_table geofence_id)
    as [geofence|]; [|reflexivity].
  destruct (count_cattle_adds ST_Within ST_Distance geofence cattle_table
              0%Z 0%Z [])
    as (a & b & new & E & Ha & Hb & Hsum & Hnew & Hquiet).
  rewrite E. cbn [Z.add app].
  eexists _, new. split; [reflexivity|].
  cbn [GeofenceService.total_cattle GeofenceService.cattle_within
       GeofenceService.cattle_outside GeofenceService.compliance_rate
       GeofenceService.cattle_density_per_km2].
  split; [reflexivity|]. split; [exact Ha|]. split; [exact Hb|].
  split; [exact Hsum|]. split; [exact Hnew|].
  split.
  { destruct (Z.ltb_spec 0 (a + b)) as [Hpos|_]; [|split; lra].
    apply percentage_in_range; lia. }
  split.
  { destruct (get_area_kilometers_squared geofence) as [area|]; [|lra].
    destruct (negb (Qeq_bool area 0)); cbn [andb]; [|lra].
    destruct (Py.Qlt_bool 0 area) eqn:Harea; [|lra].
    apply Qlt_bool_true in Harea.
    apply Qle_shift_div_l; [exact Harea|].
    rewrite Qmult_0_l. change 0 with (inject_Z 0). rewrite <- Zle_Qle.
    exact Ha. }
  exact Hquiet.
Qed.

Lemma geofence_statistics_counts_witness :
  exists stats details,
    GeofenceService.get_geofence_statistics
      [(1%Z, Demo.sick_cow)] [(7%Z, Demo.paddock)]
      Demo.outside Demo.hundredth
      (fun _ => Some 4) (fun _ => None) (fun _ => None) 7%Z
    = Some (Demo.paddock, stats, details)
    /\ GeofenceService.cattle_outside stats = 1%Z
    /\ GeofenceService.total_cattle stats = 1%Z
    /\ List.length details = 1%nat.
Proof.
  destruct (geofence_statistics_counts
              [(1%Z, Demo.sick_cow)] [(7%Z, Demo.paddock)]
              Demo.outside Demo.hundredth
              (fun _ => Some 4) (fun _ => None) (fun _ => None) 7%Z)
    as (stats & details & E & _ & _ & _ & _ & _ & _ & _ & Hquiet).
  destruct Hquiet as (Hout & Htotal & Hdetails).
  - intro loc. split; discriminate.
  - exists stats, details. split; [exact E|].
    split; [exact Hout|]. split; [exact Htotal|].
    rewrite Htotal in Hdetails. cbn in Hdetails. lia.
Defined.

(** ** Names and identifiers as they are stored *)

Lemma lstrip_head (s : string) :
  Py.lstrip s = ""
  \/ exists c r, Py.lstrip s = String c r /\ Py.is_space c = false.
Proof.
  induction s as [|c r IH]; [left; reflexivity|].
  cbn [Py.lstrip]. destruct (Py.is_space c) eqn:E; [exact IH|].
  right. exists c, r. split; [reflexivity|exact E].
Qed.

Lemma lstrip_length (s : string) :
  (String.length (Py.lstrip s) <= String.length s)%nat.
Proof.
  induction s as [|c r IH]; [cbn; lia|].
  cbn [Py.lstrip]. destruct (Py.is_space c); cbn [String.length]; lia.
Qed.

Lemma rstrip_length (s : string) :
  (String.length (Py.rstrip s) <= String.length s)%nat.
Proof.
  induction s as [|c r IH]; [cbn; lia|].
  cbn [Py.rstrip]. destruct (Py.rstrip r) as [|d r'].
  - destruct (Py.is_space c); cbn [String.length]; lia.
  - cbn [String.length] in *. lia.
Qed.

Lemma rstrip_idempotent (s : string) : Py.rstrip (Py.rstrip s) = Py.rstrip s.
Proof.
  induction s as [|c r IH]; [reflexivity|].
  cbn [Py.rstrip]. destruct (Py.rstrip r) as [|d r'] eqn:E.
  - destruct (Py.is_space c) eqn:Ec; [reflexivity|].
    cbn [Py.rstrip]. rewrite Ec. reflexivity.
  - change (Py.rstrip (String c (String d r')))
      with (match Py.rstrip (String d r') with
            | EmptyString =>
                if Py.is_space c then EmptyString else String c EmptyString
            | String a b => String c (String a b)
            end).
    rewrite IH. reflexivity.
Qed.

Lemma rstrip_keeps_head (c : ascii) (r : string) :
  Py.is_space c = false -> exists t, Py.rstrip (String c r) = String c t.
Proof.
  intro Ec. cbn [Py.rstrip]. destruct (Py.rstrip r) as [|d r'].
  - rewrite Ec. eexists; reflexivity.
  - eexists; reflexivity.
Qed.

Lemma strip_idempotent (s : string) : Py.strip (Py.strip s) = Py.strip s.
Proof.
  unfold Py.strip.
  assert (H : Py.lstrip (Py.rstrip (Py.lstrip s)) = Py.rstrip (Py.lstrip s)).
  { destruct (lstrip_head s) as [E | (c & r & E & Ec)]; rewrite E.
    - reflexivity.
    - destruct (rstrip_keeps_head c r Ec) as [t Et]. rewrite Et.
      cbn [Py.lstrip]. rewrite Ec. reflexivity. }
  rewrite H. apply rstrip_idempotent.
Qed.

Lemma strip_length (s : string) :
  (String.length (Py.strip s) <= String.length s)%nat.
Proof.
  unfold Py.strip.
  pose proof (rstrip_length (Py.lstrip s)). pose proof (lstrip_length s). lia.
Qed.

Lemma upper_char_idempotent (c : ascii) :
  Py.upper_char (Py.upper_char c) = Py.upper_char c.
Proof. destruct c as [[] [] [] [] [] [] [] []]; reflexivity. Qed.

Lemma upper_char_space (c : ascii) :
  Py.is_space (Py.upper_char c) = Py.is_space c.
Proof. destruct c as [[] [] [] [] [] [] [] []]; reflexivity. Qed.

Lemma upper_idempotent (s : string) : Py.upper (Py.upper s) = Py.upper s.
Proof.
  induction s as [|c r IH]; [reflexivity|].
  cbn [Py.upper]. rewrite upper_char_idempotent, IH. reflexivity.
Qed.

Lemma upper_length (s : string) :
  String.length (Py.upper s) = String.length s.
Proof.
  induction s as [|c r IH]; [reflexivity|]. cbn. rewrite IH. reflexivity.
Qed.

Lemma upper_lstrip (s : string) : Py.lstrip (Py.upper s) = Py.upper (Py.lstrip s).
Proof.
  induction s as [|c r IH]; [reflexivity|].
  cbn [Py.upper Py.lstrip]. rewrite upper_char_space.
  destruct (Py.is_space c); [exact IH|reflexivity].
Qed.

Lemma upper_rstrip (s : string) : Py.rstrip (Py.upper s) = Py.upper (Py.rstrip s).
Proof.
  induction s as [|c r IH]; [reflexivity|].
  cbn [Py.upper Py.rstrip]. rewrite IH, upper_char_space.
  destruct (Py.rstrip r) as [|d r']; cbn [Py.upper].
  - destruct (Py.is_space c); reflexivity.
  - reflexivity.
Qed.

Lemma upper_strip (s : string) : Py.strip (Py.upper s) = Py.upper (Py.strip s).
Proof. unfold Py.strip. rewrite upper_lstrip, upper_rstrip. reflexivity. Qed.

Lemma upper_empty (s : string) : Py.upper s = "" <-> s = "".
Proof. destruct s; cbn; split; intro H; try reflexivity; discriminate. Qed.





(** ** Rings that are already closed *)

Lemma close_ring_idempotent (cs : list (list Q)) :
  Geofence.close_ring (Geofence.close_ring cs) = Geofence.close_ring cs.
Proof.
  destruct cs as [|first rest]; [reflexivity|].
  destruct (close_ring_closed (first :: rest) first eq_refl) as [Hhd Hlast].
  destruct (Geofence.close_ring (first :: rest)) as [|p ring] eqn:E;
    [reflexivity|].
  cbn in Hhd. injection Hhd as ->.
  unfold Geofence.close_ring at 1. rewrite Hlast. reflexivity.
Qed.

Lemma close_ring_length (cs : list (list Q)) :
  (List.length cs <= List.length (Geofence.close_ring cs))%nat.
Proof.
  destruct cs as [|first rest]; [cbn; lia|].
  unfold Geofence.close_ring.
  destruct (negb _); [rewrite length_app; cbn; lia|lia].
Qed.

Lemma close_ring_in_range (cs : list (list Q)) :
  Forall Ring.in_range cs -> Forall Ring.in_range (Geofence.close_ring cs).
Proof.
  intro H. destruct cs as [|first rest]; [exact H|].
  unfold Geofence.close_ring. destruct (negb _); [|exact H].
  apply Forall_app. split; [exact H|].
  constructor; [|constructor]. inversion H; assumption.
Qed.

(** X13. Closing is done once: when a coordinate list is accepted, handing
    in the closed ring that was stored for it is accepted too and stores
    the same boundary. *)
Theorem stored_ring_is_a_fixed_point
    (repr : Q -> string) (self g : Geofence.Geofence)
    (coordinates : list (list Q)) (now : Z) :
  Geofence.set_boundary_from_coordinates repr self coordinates now = Py.Ok g ->
  Geofence.set_boundary_from_coordinates repr self
    (Geofence.close_ring coordinates) now = Py.Ok g.
Proof.
  unfold Geofence.set_boundary_from_coordinates.
  destruct (Nat.ltb_spec (List.length coordinates) 3) as [|Hlen];
    [discriminate|].
  destruct (Geofence.validate_points repr coordinates) as [[]|m|] eqn:Ev;
    cbn [Py.bind]; try discriminate.
  intro H. injection H as <-.
  pose proof (close_ring_length coordinates) as Hlen'.
  destruct (Nat.ltb_spec (List.length (Geofence.close_ring coordinates)) 3);
    [lia|].
  rewrite (validate_points_complete repr (Geofence.close_ring coordinates)).
  - cbn [Py.bind]. rewrite close_ring_idempotent. reflexivity.
  - apply close_ring_in_range.
    exact (validate_points_sound repr coordinates tt Ev).
Qed.

Lemma stored_ring_is_a_fixed_point_witness :
  Geofence.set_boundary_from_coordinates Ring.repr_whole Demo.paddock
    (Geofence.close_ring DemoRing.square) 0
  = Geofence.set_boundary_from_coordinates Ring.repr_whole Demo.paddock
      DemoRing.square 0.
Proof.
  destruct (Geofence.set_boundary_from_coordinates Ring.repr_whole
              Demo.paddock DemoRing.square 0) as [g| |] eqn:E;
    [|vm_compute in E; discriminate E|vm_compute in E; discriminate E].
  exact (stored_ring_is_a_fixed_point Ring.repr_whole Demo.paddock g
           DemoRing.square 0 E).
Defined.

(** ** Locations and health of an animal *)

Lemma coordinate_in_range (lo x hi : Q) :
  negb (Qle_bool lo x && Qle_bool x hi) = false <-> lo <= x /\ x <= hi.
Proof.
  rewrite negb_false_iff, andb_true_iff, !Qle_bool_iff. tauto.
Qed.

(** Acceptance and effect of [set_location]. *)
Lemma set_location_facts
    (self : Cattle.Cattle) (latitude longitude : Q) (now : Z) :
  ((exists updated,
       Cattle.set_location self latitude longitude now = Py.Ok updated)
   <-> (-90 <= latitude /\ latitude <= 90)
       /\ (-180 <= longitude /\ longitude <= 180))
  /\ (forall updated,
        Cattle.set_location self latitude longitude now = Py.Ok updated ->
        Cattle.get_coordinates updated
        = Some (ST_MakePoint longitude latitude)
        /\ Cattle.last_update updated = now
        /\ Cattle.identifier updated = Cattle.identifier self
        /\ Cattle.age updated = Cattle.age self
        /\ Cattle.health_status updated = Cattle.health_status self).
Proof.
  unfold Cattle.set_location.
  destruct (negb (Qle_bool (-90) latitude && Qle_bool latitude 90)) eqn:Elat.
  - assert (Hlat : ~ (-90 <= latitude /\ latitude <= 90)).
    { intro H. apply (proj2 (coordinate_in_range _ _ _)) in H. congruence. }
    split; [split|].
    + intros [u Hu]. discriminate.
    + intros [H _]. contradiction.
    + intros u Hu. discriminate.
  - apply (proj1 (coordinate_in_range _ _ _)) in Elat.
    destruct (negb (Qle_bool (-180) longitude && Qle_bool longitude 180))
      eqn:Elng.
    + assert (Hlng : ~ (-180 <= longitude /\ longitude <= 180)).
      { intro H. apply (proj2 (coordinate_in_range _ _ _)) in H. congruence. }
      split; [split|].
      * intros [u Hu]. discriminate.
      * intros [_ H]. contradiction.
      * intros u Hu. discriminate.
    + apply (proj1 (coordinate_in_range _ _ _)) in Elng.
      split; [split|].
      * intros _. split; assumption.
      * intros _. eexists. reflexivity.
      * intros u Hu. injection Hu as <-. cbn. repeat split; reflexivity.
Qed.



(** X15. A health status is accepted exactly when it is one of Sehat,
    Perlu Perhatian and Sakit; an accepted update changes the health status
    and the time of the last update and nothing else. *)
Theorem update_health_status_accepts_enumeration
    (self : Cattle.Cattle) (new_status : string) (now : Z) :
  let result := Cattle.update_health_status self new_status now in
  ((exists updated, result = Py.Ok updated)
   <-> In new_status [HealthStatusEnum.SEHAT;
                      HealthStatusEnum.PERLU_PERHATIAN;
                      HealthStatusEnum.SAKIT])
  /\ (forall updated,
        result = Py.Ok updated ->
        Cattle.health_status updated = new_status
        /\ Cattle.last_update updated = now
        /\ Cattle.identifier updated = Cattle.identifier self
        /\ Cattle.age updated = Cattle.age self
        /\ Cattle.location updated = Cattle.location self).
Proof.
  cbn zeta. unfold Cattle.update_health_status.
  set (valid := [HealthStatusEnum.SEHAT; HealthStatusEnum.PERLU_PERHATIAN;
                 HealthStatusEnum.SAKIT]).
  destruct (existsb (String.eqb new_status) valid) eqn:E; cbn [negb].
  - apply existsb_exists in E. destruct E as (x & Hin & Hx).
    apply String.eqb_eq in Hx. subst x.
    split; [split|].
    + intros _. exact Hin.
    + intros _. eexists. reflexivity.
    + intros u Hu. injection Hu as <-. cbn. repeat split; reflexivity.
  - split; [split|].
    + intros [u Hu]. discriminate.
    + intro Hin. exfalso.
      assert (existsb (String.eqb new_status) valid = true).
      { apply existsb_exists. exists new_status.
        split; [exact Hin|apply String.eqb_refl]. }
      congruence.
    + intros u Hu. discriminate.
Qed.

Lemma update_health_status_accepts_enumeration_witness :
  Cattle.health_status
    {| Cattle.identifier := "SAPI-001"; Cattle.age := 3;
       Cattle.health_status := "Perlu Perhatian";
       Cattle.location := Some (ST_MakePoint 2 2);
       Cattle.last_update := 9 |}
  = "Perlu Perhatian".
Proof.
  apply (update_health_status_accepts_enumeration Demo.sick_cow
           "Perlu Perhatian" 9).
  reflexivity.
Defined.



(** ** The rows of a heatmap *)

(** Every row counts at least one sample, and the counts add up to the
    number of samples in the window. *)
Lemma heatmap_rows_facts
    (db : list CattleHistory.CattleHistory)
    (ST_SnapToGrid : point -> Q -> point)
    (start_time end_time : Z) (grid_size_meters : Q) :
  Forall (fun p => (1 <= CattleHistory.intensity p)%Z)
    (CattleHistory.get_history_heatmap_data db ST_SnapToGrid
       start_time end_time grid_size_meters)
  /\ Py.sum (map CattleHistory.intensity
               (CattleHistory.get_history_heatmap_data db ST_SnapToGrid
                  start_time end_time grid_size_meters))
     = Z.of_nat (List.length
                   (filter (CattleHistory.in_window start_time end_time) db)).
Proof.
  split; [|apply heatmap_total_intensity].
  unfold CattleHistory.get_history_heatmap_data.
  apply Forall_forall. intros p Hp.
  apply in_map_iff in Hp. destruct Hp as (c & <- & Hc).
  cbn [CattleHistory.intensity].
  apply nodup_In in Hc.
  apply (count_occ_In CattleHistory.cell_eq_dec) in Hc. lia.
Qed.

(** X17. A heatmap has one row per cell and no cell twice; every row
    counts at least one sample and carries its count as weight; the counts
    add up to the number of samples in the window; and there are never more
    rows than samples. *)
Theorem heatmap_rows_partition_the_samples
    (db : list CattleHistory.CattleHistory)
    (ST_SnapToGrid : point -> Q -> point)
    (start_time end_time : Z) (grid_size_meters : Q) :
  let rows :=
    CattleHistory.get_history_heatmap_data db ST_SnapToGrid
      start_time end_time grid_size_meters in
  let samples :=
    filter (CattleHistory.in_window start_time end_time) db in
  NoDup (map (fun p => (CattleHistory.lng p, CattleHistory.lat p)) rows)
  /\ Forall (fun p => (1 <= CattleHistory.intensity p)%Z
                      /\ CattleHistory.weight p
                         = inject_Z (CattleHistory.intensity p)) rows
  /\ Py.sum (map CattleHistory.intensity rows)
     = Z.of_nat (List.length samples)
  /\ (List.length rows <= List.length samples)%nat.
Proof.
  cbn zeta.
  split; [|split; [|split; [apply heatmap_total_intensity|]]].
  - unfold CattleHistory.get_history_heatmap_data.
    rewrite map_map. cbn [CattleHistory.lng CattleHistory.lat].
    rewrite (map_ext _ (fun c => c)), map_id.
    + apply NoDup_nodup.
    + intros [x y]. reflexivity.
  - unfold CattleHistory.get_history_heatmap_data.
    apply Forall_forall. intros p Hp.
    apply in_map_iff in Hp. destruct Hp as (c & <- & Hc).
    cbn [CattleHistory.intensity CattleHistory.weight].
    split; [|reflexivity].
    apply nodup_In in Hc.
    apply (count_occ_In CattleHistory.cell_eq_dec) in Hc. lia.
  - unfold CattleHistory.get_history_heatmap_data.
    rewrite length_map.
    rewrite <- (length_map
                  (CattleHistory.cell_of ST_SnapToGrid
                     (grid_size_meters / 111000))
                  (filter (CattleHistory.in_window start_time end_time) db)).
    apply NoDup_incl_length; [apply NoDup_nodup|].
    intros c Hc. apply nodup_In in Hc. exact Hc.
Qed.

Lemma count_occ_window_mono (db : list CattleHistory.CattleHistory)
    (ST_SnapToGrid : point -> Q -> point)
    (s e s' e' : Z) (g : Q) (c : CattleHistory.cell) :
  (s' <= s)%Z -> (e <= e')%Z ->
  (count_occ CattleHistory.cell_eq_dec (window_cells db ST_SnapToGrid s e g) c
   <= count_occ CattleHistory.cell_eq_dec
        (window_cells db ST_SnapToGrid s' e' g) c)%nat.
Proof.
  intros Hs He. unfold window_cells.
  induction db as [|h l IH]; [cbn; lia|].
  rewrite !count_occ_filter_cons. unfold CattleHistory.in_window at 1 3.
  destruct (Z.leb_spec s (CattleHistory.timestamp h));
    destruct (Z.leb_spec (CattleHistory.timestamp h) e);
    destruct (Z.leb_spec s' (CattleHistory.timestamp h));
    destruct (Z.leb_spec (CattleHistory.timestamp h) e');
    cbn [andb]; try (exfalso; lia);
    try destruct (CattleHistory.cell_eq_dec _ c); lia.
Qed.

(** X18. Widening the window never lowers the count a heatmap reports for
    a cell. *)
Theorem heatmap_grows_with_the_window
    (db : list CattleHistory.CattleHistory)
    (ST_SnapToGrid : point -> Q -> point)
    (s e s' e' : Z) (g : Q) (c : CattleHistory.cell) :
  (s' <= s)%Z -> (e <= e')%Z ->
  (CattleHistory.cell_intensity
     (CattleHistory.get_history_heatmap_data db ST_SnapToGrid s e g) c
   <= CattleHistory.cell_intensity
        (CattleHistory.get_history_heatmap_data db ST_SnapToGrid s' e' g) c)%Z.
Proof.
  intros Hs He. rewrite !cell_intensity_heatmap.
  apply Nat2Z.inj_le. apply count_occ_window_mono; assumption.
Qed.

Lemma heatmap_grows_with_the_window_witness :
  (CattleHistory.cell_intensity
     (CattleHistory.get_history_heatmap_data DemoHistory.busy_second_day
        DemoHistory.no_snap 0 2000 100) DemoHistory.origin
   <= CattleHistory.cell_intensity
        (CattleHistory.get_history_heatmap_data DemoHistory.busy_second_day
           DemoHistory.no_snap 0 DemoHistory.two_days 100)
        DemoHistory.origin)%Z.
Proof.
  apply (heatmap_grows_with_the_window DemoHistory.busy_second_day
           DemoHistory.no_snap 0 2000 0 DemoHistory.two_days 100
           DemoHistory.origin).
  - lia.
  - unfold DemoHistory.two_days. lia.
Defined.

(** ** The list of temporal buckets *)



(** ** Intensity statistics *)

Lemma fold_min_spec (r : list Z) :
  forall m,
    let v := fold_left (fun m y => if (y <? m)%Z then y else m) r m in
    (v <= m)%Z /\ (forall y, In y r -> (v <= y)%Z) /\ (v = m \/ In v r).
Proof.
  induction r as [|x r IH]; intro m; cbn [fold_left].
  - split; [lia|]. split; [intros y []|left; reflexivity].
  - destruct (IH (if (x <? m)%Z then x else m)) as (H1 & H2 & H3).
    destruct (Z.ltb_spec x m); cbn zeta.
    + split; [lia|]. split.
      * intros y [<- | Hy]; [exact H1|apply H2, Hy].
      * right. destruct H3 as [-> | H3]; [left; reflexivity|right; exact H3].
    + split; [exact H1|]. split.
      * intros y [<- | Hy]; [lia|apply H2, Hy].
      * destruct H3 as [-> | H3]; [left; reflexivity|right; right; exact H3].
Qed.

Lemma fold_max_spec (r : list Z) :
  forall m,
    let v := fold_left (fun m y => if (m <? y)%Z then y else m) r m in
    (m <= v)%Z /\ (forall y, In y r -> (y <= v)%Z) /\ (v = m \/ In v r).
Proof.
  induction r as [|x r IH]; intro m; cbn [fold_left].
  - split; [lia|]. split; [intros y []|left; reflexivity].
  - destruct (IH (if (m <? x)%Z then x else m)) as (H1 & H2 & H3).
    destruct (Z.ltb_spec m x); cbn zeta.
    + split; [lia|]. split.
      * intros y [<- | Hy]; [exact H1|apply H2, Hy].
      * right. destruct H3 as [-> | H3]; [left; reflexivity|right; exact H3].
    + split; [exact H1|]. split.
      * intros y [<- | Hy]; [lia|apply H2, Hy].
      * destruct H3 as [-> | H3]; [left; reflexivity|right; right; exact H3].
Qed.

Lemma sum_between (l : list Z) (lo hi : Z) :
  (forall y, In y l -> (lo <= y <= hi)%Z) ->
  (lo * Py.len l <= Py.sum l <= hi * Py.len l)%Z.
Proof.
  unfold Py.len. induction l as [|x l IH]; intro H.
  - cbn. lia.
  - rewrite sum_cons. cbn [List.length]. rewrite Nat2Z.inj_succ.
    pose proof (H x (or_introl eq_refl)).
    assert (Hl : forall y, In y l -> (lo <= y <= hi)%Z)
      by (intros y Hy; apply H; right; exact Hy).
    specialize (IH Hl). nia.
Qed.

(** The statistics computed over a non-empty list of intensities that are
    all at least 1. *)
Lemma intensity_statistics_ordered (x : Z) (l : list Z) :
  (forall y, In y (x :: l) -> (1 <= y)%Z) ->
  let intensities := x :: l in
  let average :=
    inject_Z (Py.sum intensities) / inject_Z (Py.len intensities) in
  (1 <= Py.min_list intensities)%Z
  /\ inject_Z (Py.min_list intensities) <= average
  /\ average <= inject_Z (Py.max_list intensities)
  /\ average * inject_Z (Py.len intensities) == inject_Z (Py.sum intensities).
Proof.
  intros Hpos intensities average.
  assert (Hlen : (0 < Py.len intensities)%Z)
    by (unfold Py.len, intensities; cbn [List.length]; lia).
  assert (HlenQ : 0 < inject_Z (Py.len intensities)).
  { change 0 with (inject_Z 0). rewrite <- Zlt_Qlt. exact Hlen. }
  destruct (fold_min_spec l x) as (Hmin1 & Hmin2 & Hmin3).
  destruct (fold_max_spec l x) as (Hmax1 & Hmax2 & Hmax3).
  change (fold_left _ l x) with (Py.min_list intensities) in Hmin1, Hmin2, Hmin3.
  change (fold_left _ l x) with (Py.max_list intensities) in Hmax1, Hmax2, Hmax3.
  assert (Hbounds : forall y, In y intensities ->
            (Py.min_list intensities <= y <= Py.max_list intensities)%Z).
  { intros y [<- | Hy]; [lia|]. split; [apply Hmin2, Hy|apply Hmax2, Hy]. }
  pose proof (sum_between intensities _ _ Hbounds) as [Hlo Hhi].
  split.
  { apply Hpos. destruct Hmin3 as [-> | H]; [left; reflexivity|right; exact H]. }
  split; [|split].
  - apply Qle_shift_div_l; [exact HlenQ|].
    rewrite <- inject_Z_mult, <- Zle_Qle. exact Hlo.
  - apply Qle_shift_div_r; [exact HlenQ|].
    rewrite <- inject_Z_mult, <- Zle_Qle. exact Hhi.
  - subst average. field. intro H. rewrite H in HlenQ.
    apply (Qlt_irrefl 0 HlenQ).
Qed.

(** X20. The heatmap computation always returns; the total it reports, and
    the number of points analysed, is the number of cells of the heatmap;
    and when there is at least one cell, the minimum is at least 1, the
    average lies between minimum and maximum, and the average times the
    number of cells is the number of samples in the window. *)
Theorem heatmap_statistics_ordered
    (db : list CattleHistory.CattleHistory)
    (ST_SnapToGrid : point -> Q -> point) (utcnow : nat -> Z)
    (hours_back : Z) (grid_size_meters : Q) (time_buckets : option Z) :
  exists r,
    HeatmapService.get_heatmap_data db ST_SnapToGrid utcnow hours_back
      grid_size_meters time_buckets = Py.Ok r
    /\ let stats := HeatmapService.intensity_stats r in
       let cells := HeatmapService.heatmap_points r in
       let start_time :=
         (utcnow 0%nat - Py.timedelta_hours (inject_Z hours_back))%Z in
       cells = CattleHistory.get_history_heatmap_data db ST_SnapToGrid
                 start_time (utcnow 1%nat) grid_size_meters
       /\ HeatmapService.stat_total stats = Py.len cells
       /\ HeatmapService.total_points_analyzed r = Py.len cells
       /\ (cells <> [] ->
           1 <= HeatmapService.stat_min stats
           /\ HeatmapService.stat_min stats <= HeatmapService.stat_avg stats
           /\ HeatmapService.stat_avg stats <= HeatmapService.stat_max stats
           /\ HeatmapService.stat_avg stats * inject_Z (Py.len cells)
              == inject_Z
                   (Z.of_nat
                      (List.length
                         (filter (CattleHistory.in_window start_time
                                    (utcnow 1%nat)) db)))).
Proof.
  unfold HeatmapService.get_heatmap_data.
  set (start_time :=
         (utcnow 0%nat - Py.timedelta_hours (inject_Z hours_back))%Z).
  pose proof (heatmap_rows_facts db ST_SnapToGrid start_time (utcnow 1%nat)
                grid_size_meters) as (Hpos & Hsum).
  set (cells := CattleHistory.get_history_heatmap_data db ST_SnapToGrid
                  start_time (utcnow 1%nat) grid_size_meters) in *.
  assert (Hok : exists t,
            match time_buckets with
            | Some n =>
                if (n =? 0)%Z then Py.Ok None
                else Py.bind
                       (HeatmapService._get_temporal_heatmap db ST_SnapToGrid
                          start_time hours_back n grid_size_meters)
                       (fun t => Py.Ok (Some t))
            | None => Py.Ok None
            end = Py.Ok t).
  { destruct time_buckets as [n|]; [|eexists; reflexivity].
    unfold HeatmapService._get_temporal_heatmap.
    destruct (n =? 0)%Z; eexists; reflexivity. }
  destruct Hok as [t Ht]. rewrite Ht. cbn [Py.bind].
  eexists. split; [reflexivity|].
  cbn [HeatmapService.intensity_stats HeatmapService.heatmap_points
       HeatmapService.total_points_analyzed].
  split; [reflexivity|].
  destruct cells as [|p rows] eqn:Ecells.
  - split; [reflexivity|]. split; [reflexivity|].
    intro Hne. contradiction Hne. reflexivity.
  - cbn [HeatmapService.stat_total HeatmapService.stat_min
         HeatmapService.stat_avg HeatmapService.stat_max].
    assert (Hlen : Py.len (map CattleHistory.intensity (p :: rows))
                   = Py.len (p :: rows))
      by (unfold Py.len; rewrite length_map; reflexivity).
    split; [exact Hlen|]. split; [exact Hlen|].
    intros _.
    destruct (intensity_statistics_ordered (CattleHistory.intensity p)
                (map CattleHistory.intensity rows)) as (H1 & H2 & H3 & H4).
    { intros y Hy. change (In y (map CattleHistory.intensity (p :: rows))) in Hy.
      apply in_map_iff in Hy. destruct Hy as (q & <- & Hq).
      rewrite Forall_forall in Hpos. apply Hpos, Hq. }
    change (CattleHistory.intensity p :: map CattleHistory.intensity rows)
      with (map CattleHistory.intensity (p :: rows)) in H1, H2, H3, H4.
    split.
    { change 1 with (inject_Z 1). rewrite <- Zle_Qle. exact H1. }
    split; [exact H2|]. split; [exact H3|].
    rewrite <- Hlen, H4, Hsum. reflexivity.
Qed.

(** ** Period comparison at its edges *)

Lemma percent_change_floor (c p : Z) :
  (0 <= c)%Z ->
  -100 <= (if (0 <? p)%Z
           then inject_Z (c - p) / inject_Z p * 100
           else 0).
Proof.
  intro Hc. destruct (Z.ltb_spec 0 p) as [Hp|Hp]; [|lra].
  assert (HpQ : 0 < inject_Z p)
    by (change 0 with (inject_Z 0); rewrite <- Zlt_Qlt; exact Hp).
  assert (HcQ : 0 <= inject_Z c)
    by (change 0 with (inject_Z 0); rewrite <- Zle_Qle; exact Hc).
  assert (H : -1 <= inject_Z (c - p) / inject_Z p).
  { apply Qle_shift_div_l; [exact HpQ|].
    unfold Z.sub. rewrite inject_Z_plus, inject_Z_opp. lra. }
  set (q := inject_Z (c - p) / inject_Z p) in *. clearbody q. lra.
Qed.

(** X21. Neither percentage of a period comparison is ever below -100; and
    when no sample falls in the previous window, the previous intensity and
    zone count are 0, both changes are reported as 0 and the activity is
    called stable, whatever the current window holds. *)
Theorem compare_periods_without_previous_activity
    (db : list CattleHistory.CattleHistory)
    (ST_SnapToGrid : point -> Q -> point)
    (now current_hours previous_hours : Z) :
  let r := HeatmapService.compare_periods db ST_SnapToGrid
             now current_hours previous_hours in
  let current_start :=
    (now - Py.timedelta_hours (inject_Z current_hours))%Z in
  let previous_start :=
    (current_start - Py.timedelta_hours (inject_Z previous_hours))%Z in
  -100 <= HeatmapService.intensity_change_percent r
  /\ -100 <= HeatmapService.zones_change_percent r
  /\ ((forall h, In h db ->
         CattleHistory.in_window previous_start current_start h = false) ->
      HeatmapService.previous_heatmap_data r = []
      /\ HeatmapService.previous_intensity r = 0%Z
      /\ HeatmapService.previous_activity_zones r = 0%Z
      /\ HeatmapService.intensity_change_percent r = 0
      /\ HeatmapService.zones_change_percent r = 0
      /\ HeatmapService.insights r = [Insight.stable]).
Proof.
  intros r current_start previous_start.
  split; [|split].
  - subst r. unfold HeatmapService.compare_periods.
    cbn [HeatmapService.intensity_change_percent].
    apply percent_change_floor.
    rewrite heatmap_total_intensity. lia.
  - subst r. unfold HeatmapService.compare_periods.
    cbn [HeatmapService.zones_change_percent].
    apply percent_change_floor. unfold Py.len. lia.
  - intro Hnone. subst r. unfold HeatmapService.compare_periods.
    fold current_start. fold previous_start.
    rewrite (heatmap_empty_window db ST_SnapToGrid previous_start
               current_start 100 Hnone).
    cbn. repeat split; reflexivity.
Qed.

Lemma compare_periods_without_previous_activity_witness :
  let r := HeatmapService.compare_periods
             (repeat (DemoHistory.sample_at 100000000000) 150)
             DemoHistory.no_snap DemoHistory.two_days 24 24 in
  HeatmapService.current_intensity r = 150%Z
  /\ HeatmapService.intensity_change_percent r = 0
  /\ HeatmapService.insights r = [Insight.stable].
Proof.
  destruct (compare_periods_without_previous_activity
              (repeat (DemoHistory.sample_at 100000000000) 150)
              DemoHistory.no_snap DemoHistory.two_days 24 24)
    as (_ & _ & H).
  destruct H as (_ & _ & _ & Hc & _ & Hi).
  - intros h Hh. apply repeat_spec in Hh. subst h. vm_compute. reflexivity.
  - split; [vm_compute; reflexivity|]. split; [exact Hc|exact Hi].
Defined.

(** ** A simulated step and its bounds *)

Lemma scaled_by_unit (d c : Q) :
  0 <= d -> -1 <= c <= 1 -> - d <= d * c /\ d * c <= d.
Proof.
  intros Hd [Hlo Hhi]. split; nra.
Qed.

Section StepFacts.

Import CattleSimulationService.

Variable math_cos math_sin : Q -> Q.
Variable math_pi : Q.
Variable ST_Within : Q -> Q -> string -> Py.query_result bool.

Variable lng lat : Q.
Variable polygon_wkt : string.

Let within := inside ST_Within polygon_wkt.

(** A sweep that finds a point finds one of its probes, reported inside. *)
Lemma probe_circle_found (r : Q) (is_ : list Z) (x y : Q) :
  probe_circle math_cos math_sin math_pi ST_Within lng lat polygon_wkt r is_
  = Found x y ->
  exists i, In i is_
            /\ x = test_lng math_cos math_pi lng r i
            /\ y = test_lat math_sin math_pi lat r i
            /\ within (x, y).
Proof.
  induction is_ as [|i rest IH]; cbn [probe_circle]; [discriminate|].
  destruct (ST_Within _ _ polygon_wkt) as [|v] eqn:E; [discriminate|].
  destruct (Py.truthy v) eqn:Hv.
  - intro H. injection H as <- <-.
    exists i. split; [left; reflexivity|]. split; [reflexivity|].
    split; [reflexivity|]. exists v. split; assumption.
  - intro H. destruct (IH H) as (j & Hj & Hrest).
    exists j. split; [right; exact Hj|exact Hrest].
Qed.

(** A search that finds a point finds a probe of a radius between the
    starting one and the cap. *)
Lemma search_found (max_radius : Q) (fuel : nat) :
  forall (r x y : Q),
    0 < r ->
    search math_cos math_sin math_pi ST_Within fuel lng lat polygon_wkt
      max_radius r = Some (Found x y) ->
    exists r' i,
      r <= r' /\ r' <= max_radius /\ (0 <= i < 16)%Z
      /\ x = test_lng math_cos math_pi lng r' i
      /\ y = test_lat math_sin math_pi lat r' i
      /\ within (x, y).
Proof.
  induction fuel as [|fuel IH]; intros r x y Hr; cbn [search];
    destruct (Qle_bool r max_radius) eqn:E; try discriminate.
  apply Qle_bool_iff in E.
  destruct (probe_circle _ _ _ _ _ _ _ _ _) as [x' y'| |] eqn:Ep.
  - intro H. injection H as <- <-.
    apply probe_circle_found in Ep. destruct Ep as (i & Hi & Hx & Hy & Hin).
    exists r, i. split; [lra|]. split; [exact E|]. split.
    { change (Py.range 16) with (map Z.of_nat (seq 0 16)) in Hi.
      apply in_map_iff in Hi. destruct Hi as (n & <- & Hn).
      apply in_seq in Hn. lia. }
    split; [exact Hx|]. split; [exact Hy|exact Hin].
  - intro H. apply IH in H; [|lra].
    destruct H as (r' & i & H1 & Hrest). exists r', i.
    split; [lra|exact Hrest].
  - discriminate.
Qed.

(** With fuel that outlasts the cap the search leaves its loop, whatever
    the queries answer. *)
Lemma search_terminates (max_radius : Q) (fuel : nat) :
  forall k : nat,
    max_radius < radius (k + fuel) ->
    search math_cos math_sin math_pi ST_Within fuel lng lat polygon_wkt
      max_radius (radius k) <> None.
Proof.
  induction fuel as [|fuel IH]; intros k Hfuel; cbn [search].
  - rewrite Nat.add_0_r in Hfuel.
    destruct (Qle_bool (radius k) max_radius) eqn:E; [|discriminate].
    apply Qle_bool_iff in E. lra.
  - destruct (Qle_bool (radius k) max_radius); [|discriminate].
    destruct (probe_circle _ _ _ _ _ _ _ _ _); try discriminate.
    apply (IH (S k)).
    replace (S k + fuel)%nat with (k + S fuel)%nat by lia. exact Hfuel.
Qed.

(** Below the first radius the loop is not entered. *)
Lemma search_below_first_radius (max_radius : Q) (fuel : nat) :
  max_radius < 0.001 ->
  search math_cos math_sin math_pi ST_Within fuel lng lat polygon_wkt
    max_radius 0.001 = Some NotFound.
Proof.
  intro Hcap.
  assert (E : Qle_bool 0.001 max_radius = false).
  { destruct (Qle_bool 0.001 max_radius) eqn:E; [|reflexivity].
    apply Qle_bool_iff in E. lra. }
  destruct fuel; cbn [search]; rewrite E; reflexivity.
Qed.

Lemma constrain_below_first_radius (max_search_degrees : Q) (fuel : nat) :
  max_search_degrees < 0.001 ->
  _constrain_to_polygon math_cos math_sin math_pi ST_Within fuel lng lat
    polygon_wkt max_search_degrees = Some (lng, lat).
Proof.
  intro Hcap. unfold _constrain_to_polygon.
  destruct (ST_Within lng lat polygon_wkt) as [|v]; [reflexivity|].
  destruct (Py.truthy v); [reflexivity|].
  rewrite (search_below_first_radius _ _ Hcap). reflexivity.
Qed.

Hypothesis cos_bounded : forall a, -1 <= math_cos a <= 1.
Hypothesis sin_bounded : forall a, -1 <= math_sin a <= 1.

(** What the constraint returns, with the displacement it causes. *)
Lemma constrain_outcome (max_search_degrees : Q) (fuel : nat) :
  (search_fuel max_search_degrees <= fuel)%nat ->
  exists p,
    _constrain_to_polygon math_cos math_sin math_pi ST_Within fuel lng lat
      polygon_wkt max_search_degrees = Some p
    /\ (p = (lng, lat)
        \/ (within p /\ ~ within (lng, lat)
            /\ - max_search_degrees <= fst p - lng
            /\ fst p - lng <= max_search_degrees
            /\ - max_search_degrees <= snd p - lat
            /\ snd p - lat <= max_search_degrees))
    /\ (within (lng, lat) -> p = (lng, lat))
    /\ (ST_Within lng lat polygon_wkt = Py.Raised -> p = (lng, lat)).
Proof.
  intro Hfuel. unfold _constrain_to_polygon.
  destruct (ST_Within lng lat polygon_wkt) as [|v] eqn:E.
  { exists (lng, lat). repeat split; try reflexivity. left. reflexivity. }
  destruct (Py.truthy v) eqn:Hv.
  { exists (lng, lat). repeat split; try reflexivity. left. reflexivity. }
  assert (Hout : ~ within (lng, lat)).
  { intros (v' & E' & Hv'). cbn [fst snd] in E'.
    rewrite E in E'. injection E' as <-. congruence. }
  pose proof (search_terminates max_search_degrees fuel 0) as Hterm.
  cbn [Nat.add radius] in Hterm.
  specialize (Hterm (search_fuel_enough _ _ Hfuel)).
  destruct (search _ _ _ _ fuel lng lat polygon_wkt max_search_degrees 0.001)
    as [[x y| |]|] eqn:Es; [| | |contradiction].
  - exists (x, y). split; [reflexivity|].
    split; [|split; [intro H; contradiction|discriminate]].
    right. apply search_found in Es; [|reflexivity].
    destruct Es as (r' & i & Hr1 & Hr2 & _ & Hx & Hy & Hin).
    split; [exact Hin|]. split; [exact Hout|].
    cbn [fst snd]. subst x y. unfold test_lng, test_lat.
    assert (Hr0 : 0 <= r') by lra.
    pose proof (scaled_by_unit r' _ Hr0 (cos_bounded (2 * math_pi * inject_Z i / 16)))
      as [Hc1 Hc2].
    pose proof (scaled_by_unit r' _ Hr0 (sin_bounded (2 * math_pi * inject_Z i / 16)))
      as [Hs1 Hs2].
    set (c := r' * math_cos _) in *. set (s := r' * math_sin _) in *.
    clearbody c s. repeat split; lra.
  - exists (lng, lat). split; [reflexivity|].
    split; [left; reflexivity|]. split; [reflexivity|discriminate].
  - exists (lng, lat). split; [reflexivity|].
    split; [left; reflexivity|]. split; [reflexivity|discriminate].
Qed.

End StepFacts.

(** X22. Given enough rounds, the constraint always returns a point, even
    when containment queries raise: either the point it was given, or a
    point the database reports inside the boundary that lies within the
    search cap of the given point in each coordinate. It returns the given
    point whenever that point is inside or the first query raises. *)
Theorem constrain_to_polygon_stays_near
    (math_cos math_sin : Q -> Q) (math_pi : Q)
    (ST_Within : Q -> Q -> string -> Py.query_result bool)
    (lng lat : Q) (polygon_wkt : string)
    (max_search_degrees : Q) (fuel : nat) :
  (forall a, -1 <= math_cos a <= 1) ->
  (forall a, -1 <= math_sin a <= 1) ->
  (CattleSimulationService.search_fuel max_search_degrees <= fuel)%nat ->
  let within := inside ST_Within polygon_wkt in
  exists p,
    CattleSimulationService._constrain_to_polygon math_cos math_sin math_pi
      ST_Within fuel lng lat polygon_wkt max_search_degrees = Some p
    /\ (p = (lng, lat)
        \/ (within p /\ ~ within (lng, lat)
            /\ - max_search_degrees <= fst p - lng
            /\ fst p - lng <= max_search_degrees
            /\ - max_search_degrees <= snd p - lat
            /\ snd p - lat <= max_search_degrees))
    /\ (within (lng, lat) -> p = (lng, lat))
    /\ (ST_Within lng lat polygon_wkt = Py.Raised -> p = (lng, lat)).
Proof.
  intros Hcos Hsin Hfuel within.
  exact (constrain_outcome math_cos math_sin math_pi ST_Within lng lat
           polygon_wkt Hcos Hsin max_search_degrees fuel Hfuel).
Qed.

Lemma constrain_to_polygon_stays_near_witness :
  CattleSimulationService._constrain_to_polygon DemoHeading.cos
    DemoHeading.sin DemoWalk.pi DemoHeading.unreachable 2
    (10003 # 10000) 0 DemoWalk.square_wkt (18 # 10000)
  = Some (10003 # 10000, 0).
Proof.
  destruct (constrain_to_polygon_stays_near DemoHeading.cos DemoHeading.sin
              DemoWalk.pi DemoHeading.unreachable (10003 # 10000) 0
              DemoWalk.square_wkt (18 # 10000) 2)
    as (p & Hp & _ & _ & Hraised).
  - intro a. unfold DemoHeading.cos. split; lra.
  - intro a. unfold DemoHeading.sin. split; lra.
  - vm_compute. lia.
  - rewrite Hp, (Hraised eq_refl). reflexivity.
Defined.

(** X23. With a maximal drift below 55.5 m, which includes the default of
    50 m, the search cap lies under the first search radius: a step with a
    boundary returns exactly what the step without boundary returns, so a
    projected point outside the boundary is never pulled back. *)
Theorem small_drift_ignores_boundary
    (math_cos math_sin : Q -> Q) (math_pi : Q)
    (ST_Within : Q -> Q -> string -> Py.query_result bool)
    (rng : Type) (random : rng -> Q * rng)
    (fuel : nat) (cattle : Cattle.Cattle) (polygon_wkt : string)
    (max_drift_meters : Q) (g : rng) :
  max_drift_meters < 55.5 ->
  CattleSimulationService.simulate_movement math_cos math_sin math_pi
    ST_Within rng random fuel cattle (Some polygon_wkt) max_drift_meters g
  = CattleSimulationService.simulate_movement math_cos math_sin math_pi
      ST_Within rng random fuel cattle None max_drift_meters g.
Proof.
  intro Hsmall.
  assert (Hcap : max_drift_meters / 111000 * 2 < 0.001).
  { assert (E : max_drift_meters / 111000 * 2
                == max_drift_meters * (1 # 55500)) by field.
    rewrite E. lra. }
  unfold CattleSimulationService.simulate_movement.
  destruct (Cattle.get_coordinates cattle) as [current|]; [|reflexivity].
  destruct (CattleSimulationService.uniform rng random 0 (2 * math_pi) g)
    as [angle g1].
  destruct (CattleSimulationService.uniform rng random _ _ g1) as [dist g2].
  destruct (polygon_wkt =? "")%string; [reflexivity|].
  rewrite (constrain_below_first_radius math_cos math_sin math_pi ST_Within
             _ _ polygon_wkt _ fuel Hcap).
  reflexivity.
Qed.

Lemma small_drift_ignores_boundary_witness :
  CattleSimulationService.simulate_movement DemoWalk.cos DemoWalk.sin
    DemoWalk.pi DemoWalk.in_square nat DemoWalk.draw
    0 DemoWalk.edge_cow (Some DemoWalk.square_wkt) 50 0%nat
  = CattleSimulationService.simulate_movement DemoWalk.cos DemoWalk.sin
      DemoWalk.pi DemoWalk.in_square nat DemoWalk.draw
      0 DemoWalk.edge_cow None 50 0%nat.
Proof.
  apply (small_drift_ignores_boundary DemoWalk.cos DemoWalk.sin DemoWalk.pi
           DemoWalk.in_square nat DemoWalk.draw 0 DemoWalk.edge_cow
           DemoWalk.square_wkt 50 0%nat).
  reflexivity.
Defined.



(** ** Cleaning up old history *)

Lemma filter_split_length {A : Type} (f : A -> bool) (l : list A) :
  (List.length (filter f l) + List.length (filter (fun x => negb (f x)) l)
   = List.length l)%nat.
Proof.
  induction l as [|x l IH]; [reflexivity|].
  cbn [filter]. destruct (f x); cbn [negb List.length]; lia.
Qed.

Lemma filter_none {A : Type} (f : A -> bool) (l : list A) :
  (forall x, In x l -> f x = false) -> filter f l = [].
Proof.
  induction l as [|x l IH]; intro H; [reflexivity|].
  cbn [filter]. rewrite (H x (or_introl eq_refl)).
  apply IH. intros y Hy. apply H. right. exact Hy.
Qed.

(** X25. The cleanup reports the number of records it removed; the records
    it keeps are exactly those of the last [days_to_keep] days or later, so
    a record at or after the cutoff is never removed; it removes nothing
    exactly when no record is older than the cutoff; and a second cleanup
    whose cutoff is not later removes nothing. *)
Theorem cleanup_old_history_keeps_recent
    (history : list CattleHistory.CattleHistory) (now days_to_keep : Z) :
  let cutoff := (now - CattleSimulationService.timedelta_days days_to_keep)%Z in
  let count :=
    fst (CattleSimulationService.cleanup_old_history history now days_to_keep) in
  let kept :=
    snd (CattleSimulationService.cleanup_old_history history now days_to_keep) in
  (count + Py.len kept = Py.len history)%Z
  /\ (0 <= count)%Z
  /\ (forall h, In h kept
                <-> In h history /\ (cutoff <= CattleHistory.timestamp h)%Z)
  /\ (count = 0%Z
      <-> forall h, In h history -> (cutoff <= CattleHistory.timestamp h)%Z)
  /\ (forall now' days_to_keep',
        (now' - CattleSimulationService.timedelta_days days_to_keep'
         <= cutoff)%Z ->
        CattleSimulationService.cleanup_old_history kept now' days_to_keep'
        = (0%Z, kept)).
Proof.
  intros cutoff count kept.
  subst count kept. unfold CattleSimulationService.cleanup_old_history.
  cbn [fst snd]. fold cutoff.
  set (old := fun h => (CattleHistory.timestamp h <? cutoff)%Z).
  assert (Hkept : forall h,
            In h (filter (fun h => negb (old h)) history)
            <-> In h history /\ (cutoff <= CattleHistory.timestamp h)%Z).
  { intro h. rewrite filter_In. subst old. cbn beta.
    destruct (Z.ltb_spec (CattleHistory.timestamp h) cutoff);
      cbn [negb]; split; intros [? ?]; split;
      try assumption; try discriminate; try reflexivity; lia. }
  split.
  { unfold Py.len. rewrite <- (filter_split_length old history).
    rewrite Nat2Z.inj_add. reflexivity. }
  split; [unfold Py.len; lia|].
  split; [exact Hkept|].
  split.
  - unfold Py.len. split.
    + intros Hc h Hh.
      destruct (Z.ltb_spec (CattleHistory.timestamp h) cutoff) as [Hlt|];
        [|assumption].
      assert (Hin : In h (filter old history)).
      { apply filter_In. split; [exact Hh|]. subst old. cbn beta.
        apply Z.ltb_lt. exact Hlt. }
      destruct (filter old history); [destruct Hin|].
      cbn [List.length] in Hc. lia.
    + intro Hall. rewrite filter_none; [reflexivity|].
      intros h Hh. subst old. cbn beta. apply Z.ltb_ge. apply Hall, Hh.
  - intros now' days' Hle.
    set (cutoff' := (now' - CattleSimulationService.timedelta_days days')%Z)
      in *.
    assert (Hnone : forall h,
              In h (filter (fun h => negb (old h)) history) ->
              (CattleHistory.timestamp h <? cutoff')%Z = false).
    { intros h Hh. apply Hkept in Hh. apply Z.ltb_ge. lia. }
    clear Hkept. subst old. cbn beta in Hnone.
    set (kept := filter
                   (fun h => negb (CattleHistory.timestamp h <? cutoff)%Z)
                   history) in *.
    clearbody kept.
    rewrite (filter_none _ _ Hnone). f_equal.
    induction kept as [|h l IH]; [reflexivity|].
    cbn [filter]. rewrite (Hnone h (or_introl eq_refl)). cbn [negb].
    f_equal. apply IH. intros h' Hh'. apply Hnone. right. exact Hh'.
Qed.

Lemma cleanup_old_history_keeps_recent_witness :
  CattleSimulationService.cleanup_old_history
    (snd (CattleSimulationService.cleanup_old_history
            DemoHistory.busy_second_day 100000000000 1))
    100000000000 1
  = (0%Z, snd (CattleSimulationService.cleanup_old_history
                 DemoHistory.busy_second_day 100000000000 1)).
Proof.
  destruct (cleanup_old_history_keeps_recent DemoHistory.busy_second_day
              100000000000 1) as (_ & _ & _ & _ & H).
  apply H. lia.
Defined.

(** ** Updating the health status through the service *)

Lemma first_cattle_commit_same (table : list (uuid * Cattle.Cattle))
    (key : uuid) (c c' : Cattle.Cattle) :
  CattleSimulationService.first_cattle table key = Some c ->
  CattleSimulationService.first_cattle
    (CattleSimulationService.commit_cattle table key c') key = Some c'.
Proof.
  unfold CattleSimulationService.first_cattle.
  induction table as [|row rest IH]; cbn [find CattleSimulationService.commit_cattle];
    [discriminate|].
  unfold uuid in *.
  destruct (fst row =? key)%Z eqn:E.
  - intros _. cbn [find fst]. rewrite E. reflexivity.
  - intro H. cbn [find]. rewrite E. apply IH, H.
Qed.

Lemma first_cattle_commit_other (table : list (uuid * Cattle.Cattle))
    (key other : uuid) (c' : Cattle.Cattle) :
  other <> key ->
  CattleSimulationService.first_cattle
    (CattleSimulationService.commit_cattle table key c') other
  = CattleSimulationService.first_cattle table other.
Proof.
  intro Hne. unfold CattleSimulationService.first_cattle.
  induction table as [|row rest IH]; cbn [find CattleSimulationService.commit_cattle];
    [reflexivity|].
  unfold uuid in *.
  destruct (fst row =? key)%Z eqn:E.
  - apply Z.eqb_eq in E. cbn [find fst].
    assert (E' : (fst row =? other)%Z = false)
      by (apply Z.eqb_neq; congruence).
    rewrite E'. reflexivity.
  - cbn [find]. destruct (fst row =? other)%Z; [reflexivity|exact IH].
Qed.

Lemma commit_cattle_ids (table : list (uuid * Cattle.Cattle))
    (key : uuid) (c' : Cattle.Cattle) :
  map fst (CattleSimulationService.commit_cattle table key c') = map fst table.
Proof.
  induction table as [|row rest IH]; cbn [CattleSimulationService.commit_cattle];
    [reflexivity|].
  destruct (fst row =? key)%Z; cbn [map fst]; [reflexivity|].
  rewrite IH. reflexivity.
Qed.

(** X26. Updating the health status through the service never raises. It
    answers true exactly when the animal exists and the status is one of
    the three enumerated texts; then the animal carries the new status and
    the time of the update, everything else about it and every other animal
    is as before. When it answers false the table is untouched. *)
Theorem update_cattle_health_answers
    (cattle_table : list (uuid * Cattle.Cattle))
    (now : Z) (cattle_id : uuid) (new_health_status : string) :
  exists answer table',
    CattleSimulationService.update_cattle_health cattle_table now cattle_id
      new_health_status = Py.Ok (answer, table')
    /\ (answer = true
        <-> (exists c,
               CattleSimulationService.first_cattle cattle_table cattle_id
               = Some c)
            /\ In new_health_status
                 [HealthStatusEnum.SEHAT; HealthStatusEnum.PERLU_PERHATIAN;
                  HealthStatusEnum.SAKIT])
    /\ (answer = false -> table' = cattle_table)
    /\ (answer = true ->
        exists c c',
          CattleSimulationService.first_cattle cattle_table cattle_id = Some c
          /\ CattleSimulationService.first_cattle table' cattle_id = Some c'
          /\ Cattle.health_status c' = new_health_status
          /\ Cattle.last_update c' = now
          /\ Cattle.identifier c' = Cattle.identifier c
          /\ Cattle.age c' = Cattle.age c
          /\ Cattle.location c' = Cattle.location c)
    /\ (forall other, other <> cattle_id ->
          CattleSimulationService.first_cattle table' other
          = CattleSimulationService.first_cattle cattle_table other)
    /\ map fst table' = map fst cattle_table.
Proof.
  unfold CattleSimulationService.update_cattle_health.
  destruct (CattleSimulationService.first_cattle cattle_table cattle_id)
    as [c|] eqn:Ec.
  - unfold Cattle.update_health_status.
    destruct (existsb (String.eqb new_health_status)
                [HealthStatusEnum.SEHAT; HealthStatusEnum.PERLU_PERHATIAN;
                 HealthStatusEnum.SAKIT]) eqn:Ev; cbn [negb].
    + assert (Hin : In new_health_status
                      [HealthStatusEnum.SEHAT; HealthStatusEnum.PERLU_PERHATIAN;
                       HealthStatusEnum.SAKIT]).
      { apply existsb_exists in Ev. destruct Ev as (x & Hx & E).
        apply String.eqb_eq in E. subst x. exact Hx. }
      eexists true, _. split; [reflexivity|].
      split; [split; [intros _; split; [exists c; reflexivity|exact Hin]
                     |reflexivity]|].
      split; [discriminate|].
      split.
      { intros _. eexists c, _. split; [reflexivity|].
        split; [apply (first_cattle_commit_same _ _ c), Ec|].
        repeat split; reflexivity. }
      split; [intros other Hne; apply first_cattle_commit_other, Hne|].
      apply commit_cattle_ids.
    + eexists false, _. split; [reflexivity|].
      split.
      { split; [discriminate|]. intros [_ Hin]. exfalso.
        assert (Ht : existsb (String.eqb new_health_status)
                       [HealthStatusEnum.SEHAT; HealthStatusEnum.PERLU_PERHATIAN;
                        HealthStatusEnum.SAKIT] = true).
        { apply existsb_exists. exists new_health_status.
          split; [exact Hin|apply String.eqb_refl]. }
        congruence. }
      split; [reflexivity|]. split; [discriminate|].
      split; reflexivity.
  - eexists false, _. split; [reflexivity|].
    split.
    { split; [discriminate|]. intros [[c Hc] _]. discriminate. }
    split; [reflexivity|]. split; [discriminate|].
    split; reflexivity.
Qed.

(** ** The GeoJSON export *)

Lemma linear_scale_range (lo hi value : Z) :
  (lo <= value <= hi)%Z ->
  0 <= linear_scale lo hi value /\ linear_scale lo hi value <= 1.
Proof.
  intros [H1 H2]. unfold linear_scale.
  destruct (Z.eqb_spec hi lo) as [E|E]; [split; lra|].
  assert (Hpos : 0 < inject_Z (hi - lo)).
  { change 0 with (inject_Z 0). rewrite <- Zlt_Qlt. lia. }
  split.
  - apply Qle_shift_div_l; [exact Hpos|]. rewrite Qmult_0_l.
    change 0 with (inject_Z 0). rewrite <- Zle_Qle. lia.
  - apply Qle_shift_div_r; [exact Hpos|]. rewrite Qmult_1_l.
    rewrite <- Zle_Qle. lia.
Qed.

Lemma linear_scale_monotone (lo hi v w : Z) :
  (lo <= hi)%Z -> (v <= w)%Z ->
  linear_scale lo hi v <= linear_scale lo hi w.
Proof.
  intros Hlh Hvw. unfold linear_scale.
  destruct (Z.eqb_spec hi lo) as [E|E]; [lra|].
  assert (Hpos : 0 < inject_Z (hi - lo)).
  { change 0 with (inject_Z 0). rewrite <- Zlt_Qlt. lia. }
  apply Qle_shift_div_r; [exact Hpos|].
  setoid_replace (inject_Z (w - lo) / inject_Z (hi - lo) * inject_Z (hi - lo))
    with (inject_Z (w - lo)) by (field; lra).
  rewrite <- Zle_Qle. lia.
Qed.

Lemma linear_scale_ends (lo hi : Z) :
  hi <> lo ->
  linear_scale lo hi lo == 0 /\ linear_scale lo hi hi == 1.
Proof.
  intro Hne. unfold linear_scale.
  destruct (Z.eqb_spec hi lo) as [E|E]; [contradiction|].
  assert (Hnz : ~ inject_Z (hi - lo) == 0).
  { change 0 with (inject_Z 0). rewrite inject_Z_injective. lia. }
  split.
  - rewrite Z.sub_diag. change (inject_Z 0) with 0. field. exact Hnz.
  - field. exact Hnz.
Qed.

(** On a scale other than 'log' and 'sqrt' the loop returns one feature per
    cell, scaled linearly. *)
Lemma build_features_linear (math_log1p math_sqrt : Q -> Q)
    (lo hi : Z) (intensity_scale : string)
    (cells : list CattleHistory.heatmap_point) :
  intensity_scale <> "log" -> intensity_scale <> "sqrt" ->
  HeatmapService.build_features math_log1p math_sqrt lo hi intensity_scale
    cells
  = Py.Ok (map (fun p => feature_of
                           (linear_scale lo hi (CattleHistory.intensity p)) p)
             cells).
Proof.
  intros Hlog Hsqrt.
  apply String.eqb_neq in Hlog, Hsqrt.
  induction cells as [|p rest IH]; cbn [HeatmapService.build_features map];
    [reflexivity|].
  rewrite IH. unfold HeatmapService.scale_intensity, linear_scale.
  destruct (hi =? lo)%Z; cbn [Py.bind]; [reflexivity|].
  rewrite Hlog, Hsqrt. reflexivity.
Qed.

(** X27. On the linear scale (any scale text other than 'log' and 'sqrt')
    the export never raises and holds one feature per heatmap cell, in
    order, with the cell's intensity, weight and coordinates. Every scaled
    intensity lies between 0 and 1 and a cell with more samples never gets
    a smaller one; when all cells count the same every scaled intensity is
    one half, otherwise some feature is scaled to 0 and some to 1. *)
Theorem heatmap_geojson_linear_scale
    (db : list CattleHistory.CattleHistory)
    (ST_SnapToGrid : point -> Q -> point)
    (math_log1p math_sqrt : Q -> Q) (utcnow : nat -> Z)
    (hours_back : Z) (grid_size_meters : Q) (intensity_scale : string) :
  intensity_scale <> "log" -> intensity_scale <> "sqrt" ->
  let start_time :=
    (utcnow 0%nat - Py.timedelta_hours (inject_Z hours_back))%Z in
  let cells :=
    CattleHistory.get_history_heatmap_data db ST_SnapToGrid
      start_time (utcnow 1%nat) grid_size_meters in
  let lo := Py.min_list (map CattleHistory.intensity cells) in
  let hi := Py.max_list (map CattleHistory.intensity cells) in
  exists r,
    HeatmapService.get_heatmap_geojson db ST_SnapToGrid math_log1p math_sqrt
      utcnow hours_back grid_size_meters intensity_scale = Py.Ok r
    /\ HeatmapService.GeoJSON.features r
       = map (fun p => feature_of
                         (linear_scale lo hi (CattleHistory.intensity p)) p)
           cells
    /\ HeatmapService.GeoJSON.points_count
         (HeatmapService.GeoJSON.collection_metadata r) = Py.len cells
    /\ (forall f, In f (HeatmapService.GeoJSON.features r) ->
          0 <= scaled_of f /\ scaled_of f <= 1)
    /\ (forall f f',
          In f (HeatmapService.GeoJSON.features r) ->
          In f' (HeatmapService.GeoJSON.features r) ->
          (HeatmapService.GeoJSON.intensity
             (HeatmapService.GeoJSON.feature_properties f)
           <= HeatmapService.GeoJSON.intensity
                (HeatmapService.GeoJSON.feature_properties f'))%Z ->
          scaled_of f <= scaled_of f')
    /\ (hi = lo ->
        forall f, In f (HeatmapService.GeoJSON.features r) ->
                  scaled_of f = 0.5)
    /\ (hi <> lo ->
        (exists f, In f (HeatmapService.GeoJSON.features r)
                   /\ scaled_of f == 0)
        /\ (exists f, In f (HeatmapService.GeoJSON.features r)
                      /\ scaled_of f == 1)).
Proof.
  intros Hlog Hsqrt start_time cells lo hi.
  unfold HeatmapService.get_heatmap_geojson.
  fold start_time. fold cells.
  destruct cells as [|p rows] eqn:Ecells.
  - eexists. split; [reflexivity|].
    cbn [HeatmapService.GeoJSON.features
         HeatmapService.GeoJSON.collection_metadata
         HeatmapService.GeoJSON.points_count map].
    split; [reflexivity|]. split; [reflexivity|].
    split; [intros f []|]. split; [intros f f' []|].
    split; [intros _ f []|]. intro H. contradiction H. reflexivity.
  - fold lo. fold hi.
    rewrite (build_features_linear math_log1p math_sqrt lo hi intensity_scale
               (p :: rows) Hlog Hsqrt).
    cbn [Py.bind]. eexists. split; [reflexivity|].
    cbn [HeatmapService.GeoJSON.features
         HeatmapService.GeoJSON.collection_metadata
         HeatmapService.GeoJSON.points_count].
    set (mk := fun p => feature_of
                          (linear_scale lo hi (CattleHistory.intensity p)) p).
    destruct (fold_min_spec (map CattleHistory.intensity rows)
                (CattleHistory.intensity p)) as (Hmin1 & Hmin2 & Hmin3).
    destruct (fold_max_spec (map CattleHistory.intensity rows)
                (CattleHistory.intensity p)) as (Hmax1 & Hmax2 & Hmax3).
    change (fold_left _ _ _) with lo in Hmin1, Hmin2, Hmin3.
    change (fold_left _ _ _) with hi in Hmax1, Hmax2, Hmax3.
    assert (Hbounds : forall q, In q (p :: rows) ->
              (lo <= CattleHistory.intensity q <= hi)%Z).
    { intros q [<- | Hq]; [lia|].
      split; [apply Hmin2|apply Hmax2]; apply in_map, Hq. }
    assert (Hlo : exists q, In q (p :: rows) /\ CattleHistory.intensity q = lo).
    { destruct Hmin3 as [E | Hin].
      - exists p. split; [left; reflexivity|symmetry; exact E].
      - apply in_map_iff in Hin. destruct Hin as (q & E & Hq).
        exists q. split; [right; exact Hq|exact E]. }
    assert (Hhi : exists q, In q (p :: rows) /\ CattleHistory.intensity q = hi).
    { destruct Hmax3 as [E | Hin].
      - exists p. split; [left; reflexivity|symmetry; exact E].
      - apply in_map_iff in Hin. destruct Hin as (q & E & Hq).
        exists q. split; [right; exact Hq|exact E]. }
    split; [reflexivity|].
    split; [unfold Py.len; rewrite length_map; reflexivity|].
    split.
    { intros f Hf. apply in_map_iff in Hf. destruct Hf as (q & <- & Hq).
      apply linear_scale_range, Hbounds, Hq. }
    split.
    { intros f f' Hf Hf' Hle.
      apply in_map_iff in Hf, Hf'.
      destruct Hf as (q & <- & Hq). destruct Hf' as (q' & <- & Hq').
      apply linear_scale_monotone; [|exact Hle].
      pose proof (Hbounds q Hq). lia. }
    split.
    { intros E f Hf. apply in_map_iff in Hf. destruct Hf as (q & <- & Hq).
      unfold mk, scaled_of, feature_of, linear_scale.
      cbn [HeatmapService.GeoJSON.scaled_intensity
           HeatmapService.GeoJSON.feature_properties].
      apply Z.eqb_eq in E. rewrite E. reflexivity. }
    intro Hne. destruct (linear_scale_ends lo hi Hne) as [H0 H1].
    destruct Hlo as (q & Hq & Eq). destruct Hhi as (q' & Hq' & Eq').
    split.
    + exists (mk q). split; [apply in_map, Hq|].
      unfold mk, scaled_of, feature_of.
      cbn [HeatmapService.GeoJSON.scaled_intensity
           HeatmapService.GeoJSON.feature_properties].
      rewrite Eq. exact H0.
    + exists (mk q'). split; [apply in_map, Hq'|].
      unfold mk, scaled_of, feature_of.
      cbn [HeatmapService.GeoJSON.scaled_intensity
           HeatmapService.GeoJSON.feature_properties].
      rewrite Eq'. exact H1.
Qed.

Lemma heatmap_geojson_linear_scale_witness :
  exists r,
    HeatmapService.get_heatmap_geojson DemoHistory.busy_second_day
      DemoHistory.no_snap (fun x => x) (fun x => x) DemoHistory.clock
      48 100 "linear" = Py.Ok r
    /\ HeatmapService.GeoJSON.points_count
         (HeatmapService.GeoJSON.collection_metadata r) = 1%Z.
Proof.
  destruct (heatmap_geojson_linear_scale DemoHistory.busy_second_day
              DemoHistory.no_snap (fun x => x) (fun x => x) DemoHistory.clock
              48 100 "linear")
    as (r & Hr & _ & Hcount & _).
  - discriminate.
  - discriminate.
  - exists r. split; [exact Hr|]. rewrite Hcount. vm_compute. reflexivity.
Defined.
